(** * ETL pipeline (etlModule.py): a shallow embedding and its properties

    The development follows the class [ETLProcess] of [src/etlModule.py].
    Python strings are Rocq strings, with the handful of [str] methods the
    module uses written out; the external world (pyodbc, the file system,
    subprocess, paramiko, boto3, pandas) is an oracle that is asked at every
    call and whose answers are recorded in a trace; Python exceptions, local
    variables that may be unbound, and try/except/else/finally are modelled
    by a small state-and-exception monad. *)

From Stdlib Require Import String Ascii List Bool Arith ZArith Lia DecimalString.
Import ListNotations.
Local Open Scope string_scope.

(** ** Python string operations *)

Module PyStr.

(** The double quote character, code 34. *)
Definition dquote : ascii := "034"%char.
(** Line feed and horizontal tab. *)
Definition nl : string := String "010"%char EmptyString.
Definition tab : string := String "009"%char EmptyString.

(** [s.startswith(p)] *)
Definition startswith (s p : string) : bool := String.prefix p s.

(** [s.endswith(p)]: [p] is [s] itself or a suffix of the tail of [s]. *)
Fixpoint endswith (s p : string) : bool :=
  String.eqb s p ||
  match s with
  | EmptyString => false
  | String _ r => endswith r p
  end.

(** [s.lstrip(chars)], [s.rstrip(chars)], [s.strip(chars)], the character
    set given as a predicate. *)
Fixpoint lstrip (p : ascii -> bool) (s : string) : string :=
  match s with
  | EmptyString => EmptyString
  | String c r => if p c then lstrip p r else s
  end.

Fixpoint rstrip (p : ascii -> bool) (s : string) : string :=
  match s with
  | EmptyString => EmptyString
  | String c r =>
      match rstrip p r with
      | EmptyString => if p c then EmptyString else String c EmptyString
      | r' => String c r'
      end
  end.

Definition strip (p : ascii -> bool) (s : string) : string :=
  lstrip p (rstrip p s).

(** [s.strip(q)] where [q] is the double quote character. *)
Definition is_dquote (c : ascii) : bool := Ascii.eqb c dquote.
Definition strip_dquotes (s : string) : string := strip is_dquote s.

(** ASCII white space as [str.isspace] has it: 9-13, 28-31 and 32. *)
Definition is_space (c : ascii) : bool :=
  let n := nat_of_ascii c in
  ((9 <=? n)%nat && (n <=? 13)%nat) || ((28 <=? n)%nat && (n <=? 32)%nat).

(** [s.strip()] *)
Definition strip_ws (s : string) : string := strip is_space s.

(** [s[1:-1]] *)
Definition slice_1_m1 (s : string) : string :=
  substring 1 (String.length s - 2) s.

(** [s[1:]] *)
Definition slice_1 (s : string) : string :=
  match s with
  | EmptyString => EmptyString
  | String _ r => r
  end.

(** [sub in s] for strings: [sub] occurs in [s] as a substring. *)
Fixpoint contains (sub s : string) : bool :=
  String.prefix sub s ||
  match s with
  | EmptyString => false
  | String _ r => contains sub r
  end.

(** [s.split(c)] for a one-character separator: never the empty list. *)
Fixpoint split (c : ascii) (s : string) : list string :=
  match s with
  | EmptyString => [EmptyString]
  | String a r =>
      if Ascii.eqb a c then EmptyString :: split c r
      else match split c r with
           | [] => [String a EmptyString]
           | w :: ws => String a w :: ws
           end
  end.

(** [s.split(sep)] for a separator string that is not empty; [skip] counts
    the characters of a separator just met that are still to be dropped. *)
Fixpoint split_str_from (sep : string) (skip : nat) (s : string) : list string :=
  match s with
  | EmptyString => [EmptyString]
  | String a r =>
      match skip with
      | S k => split_str_from sep k r
      | O =>
          if String.prefix sep s
          then EmptyString :: split_str_from sep (String.length sep - 1) r
          else match split_str_from sep 0 r with
               | [] => [String a EmptyString]
               | w :: ws => String a w :: ws
               end
      end
  end.
Definition split_str (sep s : string) : list string := split_str_from sep 0 s.

(** [sep.join(l)] *)
Fixpoint join (sep : string) (l : list string) : string :=
  match l with
  | [] => EmptyString
  | [x] => x
  | x :: (_ :: _) as r => x ++ sep ++ join sep r
  end.

(** [s.rfind(c)] for one character, [-1] when absent; [i] is the index of
    the head of [s]. *)
Fixpoint rfind_from (c : ascii) (s : string) (i : Z) : Z :=
  match s with
  | EmptyString => (-1)%Z
  | String a r =>
      let k := rfind_from c r (i + 1) in
      if (0 <=? k)%Z then k else if Ascii.eqb a c then i else (-1)%Z
  end.
Definition rfind (c : ascii) (s : string) : Z := rfind_from c s 0.

(** [s[:i]] and [s[i:]] for [0 <= i]. *)
Definition take (i : Z) (s : string) : string := substring 0 (Z.to_nat i) s.
Definition drop (i : Z) (s : string) : string :=
  substring (Z.to_nat i) (String.length s - Z.to_nat i) s.

(** [c * n] *)
Fixpoint replicate (n : nat) (c : ascii) : string :=
  match n with
  | O => EmptyString
  | S k => String c (replicate k c)
  end.

(** [s.replace(c, '')] for one character. *)
Fixpoint remove_char (c : ascii) (s : string) : string :=
  match s with
  | EmptyString => EmptyString
  | String a r => if Ascii.eqb a c then remove_char c r else String a (remove_char c r)
  end.

(** [str(n)] for a natural number. *)
Definition str_of_nat (n : nat) : string :=
  DecimalString.NilEmpty.string_of_uint (Nat.to_uint n).

(** Python truth value of a string. *)
Definition truthy (s : string) : bool := negb (String.eqb s EmptyString).

End PyStr.

(** ** os.path, in its POSIX flavour (posixpath.py, genericpath.py) *)

Module OsPath.
Import PyStr.

Definition sep : ascii := "/"%char.
Definition extsep : ascii := "."%char.

(** [genericpath._splitext]: the extension starts at the last dot of the
    last path component, leading dots of that component not counted. *)
Fixpoint skip_leading_dots (fuel : nat) (p : string) (filenameIndex dotIndex : Z)
  : option (string * string) :=
  match fuel with
  | O => None
  | S k =>
      if (filenameIndex <? dotIndex)%Z then
        if negb (String.eqb (substring (Z.to_nat filenameIndex) 1 p)
                            (String extsep EmptyString))
        then Some (take dotIndex p, drop dotIndex p)
        else skip_leading_dots k p (filenameIndex + 1) dotIndex
      else None
  end.

Definition splitext (p : string) : string * string :=
  let sepIndex := rfind sep p in
  let dotIndex := rfind extsep p in
  if (sepIndex <? dotIndex)%Z then
    match skip_leading_dots (S (String.length p)) p (sepIndex + 1) dotIndex with
    | Some r => r
    | None => (p, EmptyString)
    end
  else (p, EmptyString).

(** [posixpath.basename] *)
Definition basename (p : string) : string := drop (rfind sep p + 1) p.

(** [posixpath.dirname] *)
Definition dirname (p : string) : string :=
  let i := (rfind sep p + 1)%Z in
  let head := take i p in
  if truthy head && negb (String.eqb head (replicate (String.length head) sep))
  then rstrip (Ascii.eqb sep) head
  else head.

(** [posixpath.join] of two components. *)
Definition join (a b : string) : string :=
  if startswith b "/" then b
  else if negb (truthy a) || endswith a "/" then a ++ b
  else a ++ "/" ++ b.

End OsPath.


(** ** Python exceptions and values *)

(** The exception classes the module can meet; all derive from
    [Exception], and [PyodbcError] stands for [pyodbc.Error] and its
    subclasses. *)
Inductive exn_class :=
| ValueError | UnboundLocalError | KeyError | IndexError | StopIteration
| OSError | PyodbcError | BadZipFile | SSHException | ClientError
| MissingSchema | HTTPError.

Record exn := mkExn { exn_cls : exn_class; exn_msg : string }.

Inductive result (A : Type) :=
| Ok (a : A)
| Raise (e : exn).
Arguments Ok {A} a.
Arguments Raise {A} e.

(** A Python float as IEEE 754 data: [(-1)^sign * m * 2^e], the infinities
    and NaN. The module only negates floats, which flips the sign. *)
Inductive pyfloat :=
| FFinite (sign : bool) (m : N) (e : Z)
| FInf (sign : bool)
| FNan.

Definition fneg (x : pyfloat) : pyfloat :=
  match x with
  | FFinite s m e => FFinite (negb s) m e
  | FInf s => FInf (negb s)
  | FNan => FNan
  end.

(** The cell values [pandas.read_csv] hands to [convert_values]. *)
Inductive pyval :=
| PStr (s : string)
| PInt (z : Z)
| PFloat (x : pyfloat)
| PNone.

(** ** Cell normalization: [convert_values] (etlModule.py, lines 550-560) *)

Section CellNormalization.
Import PyStr.

(** [float(s)] of the interpreter: [None] stands for its [ValueError]. *)
Variable float_of_str : string -> option pyfloat.

Definition float_error (s : string) : exn :=
  mkExn ValueError ("could not convert string to float: '" ++ s ++ "'").

Definition convert_values (val : pyval) : result pyval :=
  match val with
  | PStr s =>
      let val := strip_dquotes s in
      if startswith val "(" && endswith val ")" then
        match float_of_str (slice_1_m1 val) with
        | Some x => Ok (PFloat (fneg x))
        | None => Raise (float_error (slice_1_m1 val))
        end
      else if String.eqb val "-" then Ok PNone
      else if String.eqb val "<NA>" then Ok PNone
      else Ok (PStr val)
  | _ => Ok val
  end.



End CellNormalization.

(** [float] restricted to plain decimal digit strings, on which it yields
    the integer as a float; used to run the model on concrete cells. *)
Fixpoint digits_value (acc : N) (s : string) : option N :=
  match s with
  | EmptyString => Some acc
  | String c r =>
      let n := nat_of_ascii c in
      if (48 <=? n)%nat && (n <=? 57)%nat
      then digits_value (acc * 10 + N.of_nat (n - 48)) r
      else None
  end.

Definition digits_float (s : string) : option pyfloat :=
  match s with
  | EmptyString => None
  | _ => option_map (fun n => FFinite false n 0) (digits_value 0 s)
  end.

(** ** The attributes [ETLProcess.__init__] reads from the configuration

    [drop_table_if_exists] is the only attribute the module assigns after
    [__init__]; it lives in the run state below, [reset_flag] being its
    configured initial value. *)
Record config := mkConfig {
  db_type : string;
  dbServer : string;
  dbName : string;
  uid : string;
  pwd : string;
  reset_flag : bool;
  field_delimiter : string;
  file_prefix : string;
  file_suffix : string;
  file_extensions : string;
  file_type : string;
  file_has_header : bool;
  archive_path : string;
  bcp_row_start : string;
  bcp_batch_commit_size : string;
  bcp_end_of_row : string;
  bcp_import_bool : bool;
  bulkInsert_import_bool : bool;
  pandas_import_bool : bool
}.

(** ** The outside world: calls, answers and the trace *)

(** A data frame, column by column. *)
Definition dataframe := list (string * list pyval).

(** A JSON document of records, values rendered as [str] renders them. *)
Definition records := list (list (string * string)).

(** Library calls that return nothing the module looks at; each may raise. *)
Inductive cmd :=
| PyodbcConnect (conn_str : string)
| ConnCursor
| CursorExecute (sql : string)
| CursorExecutemany (sql : string) (data : list (list string))
| ConnCommit
| ConnRollback
| CursorClose
| ConnClose
| ZipExtractall (archive dest : string)
| OsRemove (path : string)
| ShutilMove (src dst : string)
| SshConnect (host port username password : string)
| SshOpenSftp
| SftpGet (remote local_ : string)
| SftpClose
| SshClose
| S3DownloadFile (bucket key dest : string).

(** Tests that answer a boolean and never raise. *)
Inductive test :=
| OsPathExists (path : string)
| IsZipfile (path : string).

(** Calls that answer a list of strings or raise: a remote directory
    listing, the keys of the objects under an S3 prefix, the first row of a
    delimited file ([open], [csv.reader], [next]). *)
Inductive listing :=
| SftpListdir (path : string)
| S3ListKeys (bucket prefix : string)
| CsvFirstRow (path delimiter : string).

Inductive event :=
| Printed (s : string)
| LoggedInfo (s : string)
| LoggedError (s : string)
| Did (c : cmd) (r : option exn)
| Probed (t : test) (b : bool)
| Listed (q : listing) (r : result (list string))
| Fetched (r : result (list (list string)))
| Ran (cmdline : string) (r : result Z)
| Walked (top : string) (r : list (string * list string))
| ReadCsv (path delimiter : string) (r : result dataframe)
| JsonLoaded (path : string) (r : result records).

Definition trace := list event.

(** The environment answers every call from the history so far. [on_walk]
    is [os.walk] run to its end, one (root, files) pair per directory;
    [on_run] is [subprocess.run], answering the return code. *)
Record environment := mkEnv {
  on_cmd : trace -> cmd -> option exn;
  on_test : trace -> test -> bool;
  on_listing : trace -> listing -> result (list string);
  on_fetchall : trace -> result (list (list string));
  on_run : trace -> string -> result Z;
  on_walk : trace -> string -> list (string * list string);
  on_read_csv : trace -> string -> string -> result dataframe;
  on_json_load : trace -> string -> result records
}.

(** ** The run state and its monad *)

(** The local variables that a handler or a [finally] block reads and that
    may not be bound yet when it runs. *)
Inductive var := v_conn | v_cursor | v_sftp | v_ssh.

Definition var_name (x : var) : string :=
  match x with
  | v_conn => "conn"
  | v_cursor => "cursor"
  | v_sftp => "sftp"
  | v_ssh => "ssh"
  end.

Definition var_eqb (x y : var) : bool :=
  match x, y with
  | v_conn, v_conn | v_cursor, v_cursor | v_sftp, v_sftp | v_ssh, v_ssh => true
  | _, _ => false
  end.

(** [locals] holds the variables bound so far in the frame of the method
    that is running: one read before it is bound raises
    [UnboundLocalError]. *)
Record state := mkState {
  history : trace;
  drop_table_if_exists : bool;
  locals : list var
}.

Definition M (A : Type) : Type := state -> result A * state.

Definition ret {A} (a : A) : M A := fun s => (Ok a, s).

Definition bind {A B} (m : M A) (k : A -> M B) : M B :=
  fun s =>
    match m s with
    | (Ok a, s') => k a s'
    | (Raise e, s') => (Raise e, s')
    end.

Declare Scope py_scope.
Delimit Scope py_scope with py.
Notation "x <- c1 ;; c2" := (bind c1 (fun x => c2))
  (at level 61, c1 at next level, right associativity) : py_scope.
Notation "c1 ;; c2" := (bind c1 (fun _ => c2))
  (at level 61, right associativity) : py_scope.
Local Open Scope py_scope.

Definition raise {A} (e : exn) : M A := fun s => (Raise e, s).

Definition record (ev : event) (s : state) : state :=
  mkState (history s ++ [ev])%list (drop_table_if_exists s) (locals s).

Definition emit (ev : event) : M unit := fun s => (Ok tt, record ev s).

Definition print (msg : string) : M unit := emit (Printed msg).
Definition logging_info (msg : string) : M unit := emit (LoggedInfo msg).
Definition logging_error (msg : string) : M unit := emit (LoggedError msg).

Definition get_flag : M bool := fun s => (Ok (drop_table_if_exists s), s).
Definition set_flag (b : bool) : M unit :=
  fun s => (Ok tt, mkState (history s) b (locals s)).

(** Local variables. *)
Definition assign (x : var) : M unit :=
  fun s => (Ok tt, mkState (history s) (drop_table_if_exists s) (x :: locals s)).

Definition unbound (x : var) : exn :=
  mkExn UnboundLocalError
    ("cannot access local variable '" ++ var_name x
     ++ "' where it is not associated with a value").

Definition use (x : var) : M unit :=
  fun s =>
    if existsb (var_eqb x) (locals s) then (Ok tt, s)
    else (Raise (unbound x), s).

(** A method call runs in a frame of its own. *)
Definition call_method {A} (m : M A) : M A :=
  fun s =>
    let (r, s') := m (mkState (history s) (drop_table_if_exists s) []) in
    (r, mkState (history s') (drop_table_if_exists s') (locals s)).

(** [try: body / except Exception as e: handler e] *)
Definition try_except {A} (body : M A) (handler : exn -> M A) : M A :=
  fun s =>
    match body s with
    | (Raise e, s') => handler e s'
    | r => r
    end.

(** [try: body / except cls as e: handler e]: other classes pass through. *)
Definition try_except_cls {A} (cls : exn_class -> bool) (body : M A)
    (handler : exn -> M A) : M A :=
  fun s =>
    match body s with
    | (Raise e, s') => if cls (exn_cls e) then handler e s' else (Raise e, s')
    | r => r
    end.

(** [try: body / except cls as e: handler e / else: orelse] *)
Definition try_except_else {A B} (cls : exn_class -> bool) (body : M A)
    (handler : exn -> M B) (orelse : A -> M B) : M B :=
  fun s =>
    match body s with
    | (Ok a, s') => orelse a s'
    | (Raise e, s') => if cls (exn_cls e) then handler e s' else (Raise e, s')
    end.

(** [try: body / finally: cleanup]: the cleanup runs on both exits, and an
    exception of the cleanup replaces the outcome of the body. *)
Definition try_finally {A} (body : M A) (cleanup : M unit) : M A :=
  fun s =>
    let (r, s') := body s in
    match cleanup s' with
    | (Ok _, s'') => (r, s'')
    | (Raise e, s'') => (Raise e, s'')
    end.

Definition any_exception (_ : exn_class) : bool := true.
Definition is_pyodbc_error (c : exn_class) : bool :=
  match c with PyodbcError => true | _ => false end.

(** [for x in l: body x] *)
Fixpoint for_each {A} (l : list A) (body : A -> M unit) : M unit :=
  match l with
  | [] => ret tt
  | x :: r => body x ;; for_each r body
  end.

Section World.

Variable env : environment.

Definition do_cmd (c : cmd) : M unit :=
  fun s =>
    match on_cmd env (history s) c with
    | None => (Ok tt, record (Did c None) s)
    | Some e => (Raise e, record (Did c (Some e)) s)
    end.

Definition do_test (t : test) : M bool :=
  fun s =>
    let b := on_test env (history s) t in (Ok b, record (Probed t b) s).

Definition do_listing (q : listing) : M (list string) :=
  fun s =>
    let r := on_listing env (history s) q in (r, record (Listed q r) s).

Definition cursor_fetchall : M (list (list string)) :=
  fun s =>
    let r := on_fetchall env (history s) in (r, record (Fetched r) s).

Definition subprocess_run (cmdline : string) : M Z :=
  fun s =>
    let r := on_run env (history s) cmdline in (r, record (Ran cmdline r) s).

Definition os_walk (top : string) : M (list (string * list string)) :=
  fun s =>
    let r := on_walk env (history s) top in (Ok r, record (Walked top r) s).

Definition pd_read_csv (path delimiter : string) : M dataframe :=
  fun s =>
    let r := on_read_csv env (history s) path delimiter in
    (r, record (ReadCsv path delimiter r) s).

Definition json_load (path : string) : M records :=
  fun s =>
    let r := on_json_load env (history s) path in (r, record (JsonLoaded path r) s).

End World.

(** ** The methods of [ETLProcess] *)

Section ETLProcess.
Import PyStr.

Variable env : environment.
Variable self : config.
(** [float] of the interpreter, and [convert_dtypes().astype(str)] of
    pandas on one column. *)
Variable float_of_str : string -> option pyfloat.
Variable astype_str : list pyval -> list string.

(** The name of the view that goes with a table: [f"{tableName}_View"]. *)
Definition view_name (tableName : string) : string := tableName ++ "_View".

(** *** [connect_to_database] (lines 623-641) *)

Definition conn_str : string :=
  let conn_str := "DRIVER={SQL Server};SERVER=" ++ dbServer self
                  ++ ";DATABASE=" ++ dbName self ++ ";" in
  if truthy (uid self) && truthy (pwd self)
  then conn_str ++ "UID=" ++ uid self ++ ";PWD=" ++ pwd self
  else conn_str ++ "Trusted_Connection=yes;".

Definition connect_to_database : M unit :=
  if String.eqb (db_type self) "mssql" then
    do_cmd env (PyodbcConnect conn_str)
  else
    raise (mkExn ValueError "Unsupported database type").

(** *** [create_table_and_view] (lines 795-843) *)

(** [columns_sql] arrives as a list or as one string. *)
Inductive columns_arg :=
| ColumnList (l : list string)
| ColumnString (s : string).

Definition drop_table_query (tableName : string) : string :=
  "IF EXISTS (SELECT * FROM sys.tables WHERE name = N'" ++ tableName
  ++ "' AND type = 'U') DROP TABLE " ++ tableName.

Definition create_table_query (tableName : string) (columns_sql : list string) : string :=
  "CREATE TABLE " ++ tableName ++ " (RecId INT PRIMARY KEY IDENTITY(1,1), "
  ++ join ", " columns_sql ++ ")".

Definition table_columns_query (tableName : string) : string :=
  "SELECT COLUMN_NAME FROM INFORMATION_SCHEMA.COLUMNS WHERE TABLE_NAME = N'"
  ++ tableName ++ "' ORDER BY ORDINAL_POSITION".

Definition drop_view_query (tableName : string) : string :=
  "IF EXISTS (SELECT * FROM sys.views WHERE name = N'" ++ view_name tableName
  ++ "') DROP VIEW " ++ view_name tableName.

Definition create_view_query (tableName : string) (columns_without_id : list string) : string :=
  "CREATE VIEW " ++ view_name tableName ++ " AS SELECT "
  ++ join ", " columns_without_id ++ " FROM " ++ tableName.

(** [row[0]] for every fetched row. *)
Fixpoint first_fields (rows : list (list string)) : M (list string) :=
  match rows with
  | [] => ret []
  | row :: r =>
      match row with
      | [] => raise (mkExn IndexError "tuple index out of range")
      | x :: _ => xs <- first_fields r ;; ret (x :: xs)
      end
  end.

Definition create_table_and_view (columns_sql : columns_arg) (tableName : string) : M unit :=
  call_method (
    try_finally
      (try_except
         (call_method connect_to_database ;; assign v_conn ;;
          do_cmd env ConnCursor ;; assign v_cursor ;;
          let columns_sql :=
            match columns_sql with
            | ColumnString s => split_str ", " s
            | ColumnList l => l
            end in
          flag <- get_flag ;;
          if flag then
            do_cmd env (CursorExecute (drop_table_query tableName)) ;;
            do_cmd env ConnCommit ;;
            do_cmd env (CursorExecute (create_table_query tableName columns_sql)) ;;
            do_cmd env ConnCommit ;;
            logging_info ("Table " ++ tableName ++ " created or verified successfully.") ;;
            do_cmd env (CursorExecute (table_columns_query tableName)) ;;
            rows <- cursor_fetchall env ;;
            columns_sql <- first_fields rows ;;
            do_cmd env (CursorExecute (drop_view_query tableName)) ;;
            do_cmd env ConnCommit ;;
            let columns_without_id :=
              map (fun column => "[" ++ column ++ "]") (tl columns_sql) in
            do_cmd env (CursorExecute (create_view_query tableName columns_without_id)) ;;
            do_cmd env ConnCommit ;;
            logging_info ("View " ++ view_name tableName ++ " created successfully.")
          else ret tt)
         (fun e =>
            logging_error ("An error occurred while creating or verifying the table "
                           ++ tableName ++ ": " ++ exn_msg e) ;;
            use v_conn ;; do_cmd env ConnRollback))
      (use v_cursor ;; do_cmd env CursorClose ;;
       use v_conn ;; do_cmd env ConnClose)).

(** *** [bcp_import] (lines 453-478) *)

Definition bcp_command (file_path tableName : string) : string :=
  let delimiter := field_delimiter self in
  let delimiter :=
    if String.eqb delimiter tab
    then String dquote ("\t" ++ String dquote EmptyString)
    else delimiter in
  let bcp_command :=
    "bcp " ++ dbName self ++ ".dbo." ++ view_name tableName ++ " IN " ++ file_path
    ++ " -F " ++ bcp_row_start self ++ " -c "
    ++ "            -b " ++ bcp_batch_commit_size self ++ " -t" ++ delimiter
    ++ " -S " ++ dbServer self ++ " -r " ++ bcp_end_of_row self ++ " " in
  if truthy (uid self)
  then bcp_command ++ "-U " ++ uid self ++ " -P " ++ pwd self
  else bcp_command ++ "-T".

Definition bcp_import (file_path tableName : string) : M unit :=
  call_method (
    try_except_else any_exception
      (subprocess_run env (bcp_command file_path tableName))
      (fun e => print ("BCP import failed: " ++ exn_msg e))
      (fun _ => print "BCP import succeeded")).

(** *** [bulkInsert_import] (lines 495-523) *)

Definition bulk_insert_sql (file_path tableName : string) : string :=
  nl ++ "        BULK INSERT " ++ tableName
  ++ nl ++ "        FROM '" ++ file_path ++ "'"
  ++ nl ++ "        WITH ("
  ++ nl ++ "            FIELDTERMINATOR = '" ++ field_delimiter self ++ "',"
  ++ nl ++ "            ROWTERMINATOR = '" ++ bcp_end_of_row self ++ "',"
  ++ nl ++ "            FIRSTROW = " ++ bcp_row_start self ++ ","
  ++ nl ++ "            BATCHSIZE = " ++ bcp_batch_commit_size self
  ++ nl ++ "        )"
  ++ nl ++ "        ".

Definition bulkInsert_import (file_path tableName : string) : M unit :=
  call_method (
    call_method connect_to_database ;; assign v_conn ;;
    do_cmd env ConnCursor ;; assign v_cursor ;;
    let sql := bulk_insert_sql file_path tableName in
    try_finally
      (try_except_else is_pyodbc_error
         (do_cmd env (CursorExecute sql) ;; do_cmd env ConnCommit)
         (fun e => print ("BULK INSERT failed: " ++ exn_msg e))
         (fun _ => print "BULK INSERT succeeded"))
      (use v_cursor ;; do_cmd env CursorClose ;;
       use v_conn ;; do_cmd env ConnClose)).

(** *** [pandas_import] (lines 542-607) *)

(** [col.apply(convert_values)] *)
Fixpoint apply_convert_values (col : list pyval) : M (list pyval) :=
  match col with
  | [] => ret []
  | v :: r =>
      match convert_values float_of_str v with
      | Ok v' => vs <- apply_convert_values r ;; ret (v' :: vs)
      | Raise e => raise e
      end
  end.

(** [df.apply(lambda col: col.apply(convert_values))] *)
Fixpoint df_apply (df : dataframe) : M dataframe :=
  match df with
  | [] => ret []
  | (name, col) :: r =>
      col' <- apply_convert_values col ;;
      r' <- df_apply r ;;
      ret ((name, col') :: r')
  end.

(** [df.values] as a list of rows, for a frame of text columns. *)
Fixpoint cons_column (col : list string) (rows : list (list string)) : list (list string) :=
  match col, rows with
  | c :: cs, row :: rs => (c :: row) :: cons_column cs rs
  | _, _ => []
  end.

Definition df_len (df : list (string * list string)) : nat :=
  match df with
  | [] => 0
  | (_, col) :: _ => List.length col
  end.

Definition df_values (df : list (string * list string)) : list (list string) :=
  fold_right (fun c rows => cons_column (snd c) rows) (repeat [] (df_len df)) df.

Definition view_columns_query (tableName : string) : string :=
  "SELECT COLUMN_NAME FROM INFORMATION_SCHEMA.COLUMNS WHERE TABLE_NAME = '"
  ++ view_name tableName ++ "' ORDER BY ORDINAL_POSITION".

Definition insert_query (tableName columns : string) (width : nat) : string :=
  "INSERT INTO " ++ view_name tableName ++ " (" ++ columns ++ ") VALUES ("
  ++ join ", " (repeat "?" width) ++ ")".

Definition pandas_import (file_path tableName : string) : M unit :=
  call_method (
    try_finally
      (try_except_else any_exception
         (let delimiter := remove_char dquote (field_delimiter self) in
          df <- pd_read_csv env file_path delimiter ;;
          df <- df_apply df ;;
          let df := map (fun c => (fst c, astype_str (snd c))) df in
          call_method connect_to_database ;; assign v_conn ;;
          do_cmd env ConnCursor ;; assign v_cursor ;;
          do_cmd env (CursorExecute (view_columns_query tableName)) ;;
          rows <- cursor_fetchall env ;;
          names <- first_fields rows ;;
          let columns := join ", " (map (fun n => "[" ++ n ++ "]") names) in
          let query := insert_query tableName columns (List.length df) in
          let data := df_values df in
          do_cmd env (CursorExecutemany query data) ;;
          let num_rows := df_len df in
          print (str_of_nat num_rows ++ " rows were imported.") ;;
          do_cmd env ConnCommit ;;
          logging_info ("Pandas data from " ++ file_path ++ " inserted successfully."))
         (fun e => print ("Pandas import failed: " ++ exn_msg e))
         (fun _ => print "Pandas import succeeded"))
      (use v_cursor ;; do_cmd env CursorClose ;;
       use v_conn ;; do_cmd env ConnClose)).

(** *** [handle_csv] (lines 739-778) *)

Definition handle_csv (file_path tableName : string) : M unit :=
  call_method (
    print ("Processing CSV file: " ++ file_path) ;;
    try_except
      (let delimiter := field_delimiter self in
       (if file_has_header self then
          columns <- do_listing env (CsvFirstRow file_path delimiter) ;;
          let columns_sql :=
            map (fun column => "[" ++ column ++ "] varchar(max)") columns in
          create_table_and_view (ColumnList columns_sql) tableName
        else ret tt) ;;
       print ("Importing data from " ++ file_path ++ " to " ++ tableName) ;;
       try_except
         (if bcp_import_bool self then bcp_import file_path tableName
          else if pandas_import_bool self then pandas_import file_path tableName
          else print "No import method selected")
         (fun e =>
            logging_error ("Error importing data from " ++ file_path ++ " to "
                           ++ tableName ++ ": " ++ exn_msg e)))
      (fun e =>
         logging_error ("Error processing CSV file " ++ file_path ++ ": " ++ exn_msg e))).

(** *** [handle_json] (lines 859-903) *)

Definition json_insert_query (tableName : string) (item : list (string * string)) : string :=
  let columns := join ", " (map fst item) in
  let values := join ", " (map (fun kv => "'" ++ snd kv ++ "'") item) in
  "INSERT INTO " ++ tableName ++ " (" ++ columns ++ ") VALUES (" ++ values ++ ")".

(** The loop [for item in data] of [handle_json]. *)
Definition insert_items (tableName : string) (data : records) : M unit :=
  for_each data (fun item =>
    do_cmd env (CursorExecute (json_insert_query tableName item))).

Definition handle_json (file_path tableName : string) : M unit :=
  call_method (
    try_finally
      (try_except
         (call_method connect_to_database ;; assign v_conn ;;
          do_cmd env ConnCursor ;; assign v_cursor ;;
          data <- json_load env file_path ;;
          match data with
          | [] => raise (mkExn IndexError "list index out of range")
          | first :: _ =>
              let columns_sql :=
                join ", " (map (fun kv => "[" ++ fst kv ++ "] NVARCHAR(MAX)") first) in
              create_table_and_view (ColumnString columns_sql) tableName ;;
              insert_items tableName data ;;
              do_cmd env ConnCommit ;;
              logging_info ("JSON data from " ++ file_path ++ " inserted successfully.")
          end)
         (fun e =>
            logging_error ("Error processing file " ++ file_path ++ ": " ++ exn_msg e) ;;
            use v_conn ;; do_cmd env ConnRollback))
      (use v_cursor ;; do_cmd env CursorClose ;;
       use v_conn ;; do_cmd env ConnClose)).

(** *** [extract_file_if_compressed] (lines 419-439) *)

Definition extract_file_if_compressed (file_path : string) : M unit :=
  call_method (
    if String.eqb (snd (OsPath.splitext file_path)) ".zip" then
      do_cmd env (ZipExtractall file_path (OsPath.dirname file_path)) ;;
      logging_info ("Extracted " ++ file_path) ;;
      let dest_file_path :=
        OsPath.join (archive_path self) (OsPath.basename file_path) in
      there <- do_test env (OsPathExists dest_file_path) ;;
      (if there then do_cmd env (OsRemove dest_file_path) else ret tt) ;;
      print ("Moving " ++ file_path ++ " to the archive folder "
             ++ archive_path self ++ " ...") ;;
      do_cmd env (ShutilMove file_path (archive_path self))
    else ret tt).

(** *** [process_file] (lines 659-724) *)

(** The dictionary [file_type_handlers]. *)
Definition file_type_handlers (key : string) : option (string -> string -> M unit) :=
  if String.eqb key "txt" then Some handle_csv
  else if String.eqb key "csv" then Some handle_csv
  else if String.eqb key "json" then Some handle_json
  else None.

(** The body of [for file in files]; the [continue] of the first handler
    is the [false] that skips the move. *)
Definition process_candidate (archive_path tableName root file : string) : M unit :=
  print ("Processing file: " ++ file) ;;
  if endswith file (file_suffix self ++ "." ++ file_type self) then
    let csv_file_path := OsPath.join root file in
    print ("Valid file found: " ++ csv_file_path) ;;
    processed <-
      try_except
        (match file_type_handlers (file_type self) with
         | None => raise (mkExn KeyError ("'" ++ file_type self ++ "'"))
         | Some handler =>
             print ("Processing " ++ file_type self ++ " file: " ++ csv_file_path) ;;
             handler csv_file_path tableName ;;
             set_flag false ;;
             logging_info ("Processed " ++ file_type self ++ " file: " ++ csv_file_path) ;;
             ret true
         end)
        (fun e =>
           logging_error ("Error processing file " ++ csv_file_path ++ ": " ++ exn_msg e) ;;
           ret false) ;;
    if processed then
      try_except
        (do_cmd env (ShutilMove csv_file_path (OsPath.join archive_path file)) ;;
         logging_info ("Moved " ++ file ++ " to the archive folder.") ;;
         set_flag false)
        (fun e =>
           logging_error ("Error moving file " ++ csv_file_path ++ " to archive: "
                          ++ exn_msg e))
    else ret tt
  else
    print ("Invalid file found: " ++ file) ;;
    print ("Expected file suffix: " ++ file_suffix self ++ "." ++ file_type self).

(** [for root, dirs, files in os.walk(directory_path): for file in files] *)
Definition process_walk (archive_path tableName : string)
    (walk : list (string * list string)) : M unit :=
  for_each walk (fun entry =>
    for_each (snd entry) (process_candidate archive_path tableName (fst entry))).

Definition process_file (file_path archive_path tableName : string) : M unit :=
  call_method (
    try_except
      (print ("Processing file: " ++ file_path) ;;
       (if endswith file_path ".zip" then
          print ("Extracting file: " ++ file_path) ;;
          extract_file_if_compressed file_path
        else ret tt) ;;
       let directory_path := OsPath.dirname file_path in
       print ("Processing files in directory: " ++ directory_path) ;;
       walk <- os_walk env directory_path ;;
       process_walk archive_path tableName walk)
      (fun e => logging_error ("Error in process_file method: " ++ exn_msg e))).

(** *** [download_from_s3] (lines 305-344) *)

(** [file.split('/')[-1]] *)
Definition last_component (key : string) : string :=
  last (split "/"%char key) EmptyString.

(** The test of lines 333-339 on one file name. *)
Definition s3_selected (file_name : string) : bool :=
  startswith file_name (file_prefix self) &&
  contains (slice_1 (snd (OsPath.splitext file_name))) (file_extensions self).

Definition download_from_s3 (s3_bucket s3_folder destination_folder : string) : M unit :=
  call_method (
    keys <- do_listing env (S3ListKeys s3_bucket s3_folder) ;;
    let files := filter (fun key => negb (endswith key "/")) keys in
    let files_without_folders :=
      map last_component (filter (fun file => negb (endswith file "/")) files) in
    for_each files_without_folders (fun file_name =>
      if startswith file_name (file_prefix self) then
        let file_extension := slice_1 (snd (OsPath.splitext file_name)) in
        if contains file_extension (file_extensions self) then
          let destination_path := OsPath.join destination_folder file_name in
          do_cmd env (S3DownloadFile s3_bucket (s3_folder ++ file_name) destination_path) ;;
          print ("Copied s3://" ++ s3_bucket ++ s3_folder ++ file_name ++ " to "
                 ++ destination_path)
        else ret tt
      else ret tt)).

(** *** [download_from_sftp] (lines 363-406) *)

Definition extensionList : list string :=
  map strip_ws (split ","%char (file_extensions self)).

(** The test of line 384 on one file name. *)
Definition sftp_selected (f : string) : bool :=
  startswith f (file_prefix self) ||
  existsb (fun ext => endswith f (file_suffix self ++ "." ++ ext)) extensionList.

(** The body of [for file_name in filtered_files]. *)
Definition sftp_fetch (remote_path local_path file_name : string) : M unit :=
  let remote_file_path := OsPath.join remote_path file_name in
  let local_file_path := OsPath.join local_path file_name in
  do_cmd env (SftpGet remote_file_path local_file_path) ;;
  print ("Downloaded " ++ file_name ++ " to " ++ local_path) ;;
  is_zip <- do_test env (IsZipfile local_file_path) ;;
  if is_zip then
    let extract_path :=
      OsPath.join local_path (fst (OsPath.splitext file_name)) in
    do_cmd env (ZipExtractall local_file_path extract_path) ;;
    print ("Extracted " ++ file_name ++ " to " ++ extract_path)
  else ret tt.

Definition download_from_sftp
    (host port username password remote_path local_path : string) : M unit :=
  call_method (
    assign v_ssh ;;
    try_finally
      (try_except
         (do_cmd env (SshConnect host port username password) ;;
          do_cmd env SshOpenSftp ;; assign v_sftp ;;
          files <- do_listing env (SftpListdir remote_path) ;;
          let filtered_files := filter sftp_selected files in
          for_each filtered_files (sftp_fetch remote_path local_path))
         (fun e => print ("Failed to download files: " ++ exn_msg e)))
      (use v_sftp ;; do_cmd env SftpClose ;;
       use v_ssh ;; do_cmd env SshClose)).

End ETLProcess.

(** ** Running a method from a fresh run state *)

Definition initial (self : config) : state := mkState [] (reset_flag self) [].

Definition run {A} (self : config) (m : M A) : result A * trace :=
  let (r, s) := m (initial self) in (r, history s).

(** ** Reading a command back: which object does it write to?

    Used to state what a load writes to: the words of a command line or
    SQL statement, and the word that names the object after [bcp ... IN],
    [INSERT INTO] or [BULK INSERT]. *)

(** The word that runs from the head of [s], and the words after it. *)
Fixpoint words_from (s : string) : string * list string :=
  match s with
  | EmptyString => (EmptyString, [])
  | String c r =>
      let (w, ws) := words_from r in
      if PyStr.is_space c
      then (EmptyString, match w with EmptyString => ws | _ => w :: ws end)
      else (String c w, ws)
  end.

(** [s.split()] *)
Definition words (s : string) : list string :=
  let (w, ws) := words_from s in
  match w with EmptyString => ws | _ => w :: ws end.

Fixpoint written_object (ws : list string) : option string :=
  match ws with
  | a :: r =>
      match r with
      | b :: x :: _ =>
          if String.eqb a "INSERT" && String.eqb b "INTO" then Some x
          else if String.eqb a "BULK" && String.eqb b "INSERT" then Some x
          else if String.eqb a "bcp" && String.eqb x "IN" then Some b
          else written_object r
      | _ => None
      end
  | [] => None
  end.

Definition no_space (s : string) : bool :=
  negb (existsb PyStr.is_space (list_ascii_of_string s)).

(** ** A sample configuration and sample environments *)

Definition demo_config : config :=
  mkConfig "mssql" "srv" "db" "" "" true "," "sales" "_x" "csv,zip" "csv" true
           "/archive" "2" "1000" "\n" true false false.

(** Every call succeeds; files carry the header [id,amount], the table has
    the columns [RecId], [id], [amount], and the staging directory holds
    what [listing] says. *)
Definition calm_on (listing : list (string * list string)) : environment :=
  mkEnv (fun _ _ => None)
        (fun _ _ => false)
        (fun _ q =>
           match q with
           | CsvFirstRow _ _ => Ok ["id"; "amount"]
           | SftpListdir _ => Ok ["sales_1.zip"; "notes.txt"; "b_x.csv"]
           | S3ListKeys _ _ => Ok ["in/"; "in/sales_1.csv"; "in/sales_notes"; "in/other.csv"]
           end)
        (fun _ => Ok [["RecId"]; ["id"]; ["amount"]])
        (fun _ _ => Ok 0%Z)
        (fun _ _ => listing)
        (fun _ _ _ => Ok [("id", [PInt 1; PInt 2]); ("amount", [PStr "(5)"; PStr "-"])])
        (fun _ _ => Ok [[("id", "1"); ("amount", "5")]]).

Definition calm : environment :=
  calm_on [("/stage", ["a_x.csv"; "readme.txt"; "b_x.csv"])].

(** [calm], except that the commands [bad] picks raise [e]. *)
Definition failing (base : environment) (bad : cmd -> bool) (e : exn) : environment :=
  mkEnv (fun h c => if bad c then Some e else on_cmd base h c)
        (on_test base) (on_listing base) (on_fetchall base) (on_run base)
        (on_walk base) (on_read_csv base) (on_json_load base).

(** [str] of a column as far as the samples need it. *)
Definition sample_astype_str (col : list pyval) : list string :=
  map (fun v =>
         match v with
         | PStr s => s
         | PInt z => PyStr.str_of_nat (Z.to_nat z)
         | PFloat (FFinite sign m _) =>
             (if sign then "-" else "") ++ PyStr.str_of_nat (N.to_nat m)
         | PFloat _ => "nan"
         | PNone => "<NA>"
         end) col.

Definition is_ssh_connect (c : cmd) : bool :=
  match c with SshConnect _ _ _ _ => true | _ => false end.

Definition is_shutil_move (c : cmd) : bool :=
  match c with ShutilMove _ _ => true | _ => false end.

Definition is_create_table (c : cmd) : bool :=
  match c with
  | CursorExecute sql => PyStr.startswith sql "CREATE TABLE"
  | _ => false
  end.

(** [base], except that the external utility exits with [rc]. *)
Definition exiting (base : environment) (rc : Z) : environment :=
  mkEnv (on_cmd base) (on_test base) (on_listing base) (on_fetchall base)
        (fun _ _ => Ok rc)
        (on_walk base) (on_read_csv base) (on_json_load base).

(** [base], except that the tests answer [b]. *)
Definition answering (base : environment) (b : bool) : environment :=
  mkEnv (on_cmd base) (fun _ _ => b) (on_listing base) (on_fetchall base)
        (on_run base) (on_walk base) (on_read_csv base) (on_json_load base).

Definition is_move_of (src : string) (c : cmd) : bool :=
  match c with ShutilMove a _ => String.eqb a src | _ => false end.

(** ** Observations on a trace *)

(** A statement, a commit or a fetch that raised. *)
Definition failed_step (ev : event) : bool :=
  match ev with
  | Did (CursorExecute _) (Some _) => true
  | Did ConnCommit (Some _) => true
  | Fetched (Raise _) => true
  | _ => false
  end.

(** A rollback or a close that raised. *)
Definition failed_cleanup (ev : event) : bool :=
  match ev with
  | Did ConnRollback (Some _) => true
  | Did CursorClose (Some _) => true
  | Did ConnClose (Some _) => true
  | _ => false
  end.

Definition is_error_log (ev : event) : bool :=
  match ev with LoggedError _ => true | _ => false end.

Definition is_walked (ev : event) : bool :=
  match ev with Walked _ _ => true | _ => false end.

(** The state in which [process_file] calls [extract_file_if_compressed]. *)
Definition before_extract (file_path : string) (s : state) : state :=
  mkState ((history s ++ [Printed ("Processing file: " ++ file_path)])
           ++ [Printed ("Extracting file: " ++ file_path)])%list
          (drop_table_if_exists s) [].

(** ** Two properties of an action, used to reason about loops *)

(** The action returns, whatever the state and the environment do. *)
Definition never_raises {A} (m : M A) : Prop :=
  forall s, exists a, fst (m s) = Ok a.

(** From a state whose flag satisfies [J], the action leaves a flag that
    satisfies [J] and only adds events that satisfy [P] to the history. *)
Definition emits (J : bool -> Prop) (P : event -> Prop) {A} (m : M A) : Prop :=
  forall s, J (drop_table_if_exists s) ->
    J (drop_table_if_exists (snd (m s)))
    /\ exists seg, history (snd (m s)) = (history s ++ seg)%list /\ Forall P seg.

(** The external utility was run on [cmdline] and exited with [rc]. *)
Definition ran_with (cmdline : string) (rc : Z) (ev : event) : bool :=
  match ev with
  | Ran c (Ok z) => String.eqb c cmdline && Z.eqb z rc
  | _ => false
  end.

(** [shutil.move(src, dst)] returned. *)
Definition moved (src dst : string) (ev : event) : bool :=
  match ev with
  | Did (ShutilMove a b) None => String.eqb a src && String.eqb b dst
  | _ => false
  end.

(** What a connection without autocommit has made durable: the statements
    that ran and were committed before any rollback took them back. *)
Fixpoint durable_from (pending : list string) (tr : trace) : list string :=
  match tr with
  | [] => []
  | Did (CursorExecute sql) None :: r => durable_from (pending ++ [sql]) r
  | Did ConnCommit None :: r => (pending ++ durable_from [] r)%list
  | Did ConnRollback None :: r => durable_from [] r
  | _ :: r => durable_from pending r
  end.

Definition durable (tr : trace) : list string := durable_from [] tr.

(** A statement that drops or creates a table or a view: the four of
    [create_table_and_view] start with [IF EXISTS] or [CREATE]. *)
Definition is_ddl (sql : string) : bool :=
  PyStr.startswith sql "IF EXISTS" || PyStr.startswith sql "CREATE "
  || PyStr.startswith sql "DROP ".

Definition no_schema_change (ev : event) : Prop :=
  match ev with
  | Did (CursorExecute sql) _ => is_ddl sql = false
  | _ => True
  end.

(** No statement is sent and nothing is committed. *)
Definition no_statement (ev : event) : Prop :=
  match ev with
  | Did (CursorExecute _) _ => False
  | Did (CursorExecutemany _ _) _ => False
  | Did ConnCommit _ => False
  | _ => True
  end.

(** The state in which [process_file] calls the handler of a candidate. *)
Definition before_handler (self : config) (root file : string) (s : state) : state :=
  mkState ((((history s ++ [Printed ("Processing file: " ++ file)])
             ++ [Printed ("Valid file found: " ++ OsPath.join root file)])
            ++ [Printed ("Processing " ++ file_type self ++ " file: "
                         ++ OsPath.join root file)]))%list
          (drop_table_if_exists s) (locals s).

(** The reset flag is down. *)
Definition flag_down (b : bool) : Prop := b = false.

(** A call that raised. *)
Definition raised (ev : event) : bool :=
  match ev with
  | Did _ (Some _) => true
  | Listed _ (Raise _) => true
  | Fetched (Raise _) => true
  | Ran _ (Raise _) => true
  | ReadCsv _ _ (Raise _) => true
  | JsonLoaded _ (Raise _) => true
  | _ => false
  end.

(** ** What shows that a file was loaded *)

(** Every cell of the frame is one [convert_values] accepts. *)
Definition convertible (float_of_str : string -> option pyfloat) (df : dataframe) : bool :=
  forallb (fun c =>
             forallb (fun v => match convert_values float_of_str v with
                               | Ok _ => true
                               | Raise _ => false
                               end) (snd c)) df.

(** What the environment answered lets the caller go on: the call
    returned, the utility exited with 0, every fetched row has its first
    field, every cell of the frame read can be normalized, the JSON
    document has a first record. The lines of the console and of the log
    say nothing about that. *)
Definition went_well (float_of_str : string -> option pyfloat) (ev : event) : bool :=
  match ev with
  | Did _ r => match r with None => true | Some _ => false end
  | Listed _ r => match r with Ok _ => true | Raise _ => false end
  | Fetched r =>
      match r with
      | Ok rows => forallb (fun row => match row with [] => false | _ => true end) rows
      | Raise _ => false
      end
  | Ran _ r => match r with Ok z => Z.eqb z 0 | Raise _ => false end
  | ReadCsv _ _ r =>
      match r with Ok df => convertible float_of_str df | Raise _ => false end
  | JsonLoaded _ r => match r with Ok (_ :: _) => true | _ => false end
  | _ => true
  end.

(** The line a load strategy prints on the console when it fails; it is
    not in the log. *)
Definition failure_line (ev : event) : bool :=
  match ev with
  | Printed msg =>
      PyStr.startswith msg "BCP import failed"
      || PyStr.startswith msg "Pandas import failed"
  | _ => false
  end.

(** The next commit or rollback of the trace is a commit that returned,
    and the connection was not closed before it. *)
Fixpoint commit_follows (tr : trace) : bool :=
  match tr with
  | [] => false
  | Did ConnCommit None :: _ => true
  | Did ConnCommit (Some _) :: _ => false
  | Did ConnRollback _ :: _ => false
  | Did ConnClose _ :: _ => false
  | _ :: r => commit_follows r
  end.

(** The call [ev] is in the trace and was committed. *)
Definition committed (ev : event) (tr : trace) : Prop :=
  exists a b, tr = (a ++ ev :: b)%list /\ commit_follows b = true.



(** A JSON file: one INSERT for every record of the document returned and
    was committed. *)
Definition records_loaded (file_path t : string) (seg : trace) : Prop :=
  exists data,
    In (JsonLoaded file_path (Ok data)) seg
    /\ forall item, In item data ->
         committed (Did (CursorExecute (json_insert_query t item)) None) seg.


(** ** The answers of the environment in a trace *)

(** The event is what the environment answers after the history [h]; the
    lines of the console and of the log are not answers. *)
Definition answer_of (env : environment) (h : trace) (ev : event) : Prop :=
  match ev with
  | Did c r => r = on_cmd env h c
  | Probed t b => b = on_test env h t
  | Listed q r => r = on_listing env h q
  | Fetched r => r = on_fetchall env h
  | Ran c r => r = on_run env h c
  | Walked top r => r = on_walk env h top
  | ReadCsv p d r => r = on_read_csv env h p d
  | JsonLoaded p r => r = on_json_load env h p
  | Printed _ | LoggedInfo _ | LoggedError _ => True
  end.



(** From the history [h0] on, whatever the environment is asked, its
    answer is one that went well. *)
Definition calm_from (float_of_str : string -> option pyfloat) (env : environment)
    (h0 : trace) : Prop :=
  forall h' ev, answer_of env (h0 ++ h')%list ev -> went_well float_of_str ev = true.





(** ** One round of schema statements *)

(** The schema statements sent in a trace, in the order they were sent,
    whether they then raised or not. *)
Fixpoint schema_statements (tr : trace) : list string :=
  match tr with
  | [] => []
  | Did (CursorExecute sql) _ :: r =>
      if is_ddl sql then sql :: schema_statements r else schema_statements r
  | _ :: r => schema_statements r
  end.

(** At most one round of [create_table_and_view] for the table [t]: an
    initial part of its four statements, each of them at most once. *)
Definition one_round (t : string) (l : list string) : Prop :=
  exists columns names k,
    l = firstn k [drop_table_query t; create_table_query t columns;
                  drop_view_query t; create_view_query t names].

(** Whatever the state, the action sends at most one round. *)
Definition sends_one_round (t : string) {A} (m : M A) : Prop :=
  forall s, exists seg,
    history (snd (m s)) = (history s ++ seg)%list
    /\ one_round t (schema_statements seg).

(** No rollback and no close ever raises. *)
Definition cleanup_never_raises (env : environment) : Prop :=
  forall h,
    on_cmd env h ConnRollback = None
    /\ on_cmd env h CursorClose = None
    /\ on_cmd env h ConnClose = None.

(** How many times [conn.close()] was called. *)
Definition closes (h : trace) : nat :=
  List.length (filter (fun ev => match ev with Did ConnClose _ => true | _ => false end) h).

(** [base], except that the call of [conn.close()] that comes after [n]
    earlier ones raises [e]. *)
Definition failing_close (base : environment) (n : nat) (e : exn) : environment :=
  mkEnv (fun h c =>
           match c with
           | ConnClose => if Nat.eqb (closes h) n then Some e else on_cmd base h c
           | _ => on_cmd base h c
           end)
        (on_test base) (on_listing base) (on_fetchall base) (on_run base)
        (on_walk base) (on_read_csv base) (on_json_load base).

(** The sample configuration for JSON files. *)
Definition demo_json_config : config :=
  mkConfig "mssql" "srv" "db" "" "" true "," "sales" "_x" "json" "json" true
           "/archive" "2" "1000" "\n" true false false.

(** The candidates of a walk in the order [process_file] meets them, each
    with the directory it is in. *)
Definition candidates (walk : list (string * list string)) : list (string * string) :=
  flat_map (fun entry => map (pair (fst entry)) (snd entry)) walk.

(** ** The fetch filters *)

(** What the specification says of the object-store filter: the name starts
    with the prefix and its extension is one of the configured list. *)
Definition spec_s3_selected (self : config) (file_name : string) : bool :=
  PyStr.startswith file_name (file_prefix self) &&
  existsb (String.eqb (PyStr.slice_1 (snd (OsPath.splitext file_name))))
          (extensionList self).

(** Every [sftp.get] is for a name the SFTP filter selects. *)
Definition sftp_fetch_selected (self : config) (remote_path local_path : string)
    (ev : event) : Prop :=
  match ev with
  | Did (SftpGet r l) _ =>
      exists f, r = OsPath.join remote_path f /\ l = OsPath.join local_path f
                /\ sftp_selected self f = true
  | _ => True
  end.

(** Every [s3.download_file] is for a name the test of the loop selects. *)
Definition s3_fetch_selected (self : config) (s3_folder destination_folder : string)
    (ev : event) : Prop :=
  match ev with
  | Did (S3DownloadFile _ k d) _ =>
      exists f, k = s3_folder ++ f /\ d = OsPath.join destination_folder f
                /\ s3_selected self f = true
  | _ => True
  end.

Definition any_flag (_ : bool) : Prop := True.

(** [base], except that the external utility cannot be started on
    [cmdline]. *)
Definition unrunnable (base : environment) (cmdline : string) (e : exn) : environment :=
  mkEnv (on_cmd base) (on_test base) (on_listing base) (on_fetchall base)
        (fun h c => if String.eqb c cmdline then Raise e else on_run base h c)
        (on_walk base) (on_read_csv base) (on_json_load base).

(** A schema statement that ran. *)
Definition schema_change (ev : event) : bool :=
  match ev with
  | Did (CursorExecute sql) None => is_ddl sql
  | _ => false
  end.

(** ** Further observations on a trace *)

(** [conn.cursor()] returned. *)
Definition cursor_created (ev : event) : bool :=
  match ev with Did ConnCursor None => true | _ => false end.

(** A statement was sent on a cursor, whether it then raised or not. *)
Definition statement_sent (ev : event) : bool :=
  match ev with
  | Did (CursorExecute _) _ => true
  | Did (CursorExecutemany _ _) _ => true
  | _ => false
  end.

(** The line [pandas_import] prints from its handler. *)
Definition pandas_failure_line (ev : event) : bool :=
  match ev with
  | Printed msg => PyStr.startswith msg "Pandas import failed: "
  | _ => false
  end.

(** The state in which [handle_csv] calls [create_table_and_view] for a
    file with a header row. *)
Definition after_header (self : config) (file_path : string) (columns : list string)
    (s : state) : state :=
  mkState ((history s ++ [Printed ("Processing CSV file: " ++ file_path)])
           ++ [Listed (CsvFirstRow file_path (field_delimiter self)) (Ok columns)])%list
          (drop_table_if_exists s) [].

Definition is_pyodbc_connect (c : cmd) : bool :=
  match c with PyodbcConnect _ => true | _ => false end.

(** Any event at all. *)
Definition any_event (_ : event) : Prop := True.

(** A line on the console or in the log. *)
Definition is_message (ev : event) : bool :=
  match ev with
  | Printed _ | LoggedInfo _ | LoggedError _ => true
  | _ => false
  end.

(** The statement of [bulkInsert_import] starts with a line break, eight
    blanks and [BULK INSERT]. *)
Definition is_bulk_insert (sql : string) : bool :=
  PyStr.startswith sql (PyStr.nl ++ "        BULK INSERT ").

Definition no_bulk_insert (ev : event) : Prop :=
  match ev with
  | Did (CursorExecute sql) _ => is_bulk_insert sql = false
  | _ => True
  end.

(** The flag is what it was. *)
Definition flag_is (b0 b : bool) : Prop := b = b0.

Definition only_messages (ev : event) : Prop := is_message ev = true.

(** [cursor.close()] or [conn.close()] was called. *)
Definition is_close (ev : event) : bool :=
  match ev with
  | Did CursorClose _ | Did ConnClose _ => true
  | _ => false
  end.

(** The exception of a call that raised. *)
Definition failure_of (ev : event) : option exn :=
  match ev with
  | Did _ (Some e) => Some e
  | Listed _ (Raise e) => Some e
  | Fetched (Raise e) => Some e
  | Ran _ (Raise e) => Some e
  | ReadCsv _ _ (Raise e) => Some e
  | JsonLoaded _ (Raise e) => Some e
  | _ => None
  end.

(** An action without a handler of its own: it returns when no call
    raised, and otherwise the call that raised is the last thing it did and
    its exception is the outcome. *)
Definition stops_at_first_failure {A} (m : M A) : Prop :=
  forall s, exists seg,
    history (snd (m s)) = (history s ++ seg)%list
    /\ match fst (m s) with
       | Ok _ => existsb raised seg = false
       | Raise e =>
           exists pre ev,
             seg = (pre ++ [ev])%list /\ failure_of ev = Some e
             /\ existsb raised pre = false
       end.

(** * Around the loader: the staging folder, the URL source, notifications
      and the launcher scripts

    [empty_folder_of_zip_csv], [download_from_url], [process_url],
    [EmailUtility.send_email] and the two constructors of [etlModule.py],
    and the [main] functions of [etlLocal.py], [etlS3.py], [etlSFTP.py] and
    [etlurl.py]. They call the methods modelled above and a few more
    libraries (glob, os, shutil, requests, smtplib, configparser, the SSM
    client); their world is the world above with these added. *)

(** ** Two more string methods, for ASCII text *)

(** [s.lower()] *)
Definition lower_char (c : ascii) : ascii :=
  let n := nat_of_ascii c in
  if (65 <=? n)%nat && (n <=? 90)%nat then ascii_of_nat (n + 32) else c.

Fixpoint str_lower (s : string) : string :=
  match s with
  | EmptyString => EmptyString
  | String c r => String (lower_char c) (str_lower r)
  end.

(** The ASCII line boundaries of [str.splitlines]: LF, VT, FF, CR, FS, GS
    and RS; CR LF counts as one. *)
Definition is_linebreak (c : ascii) : bool :=
  let n := nat_of_ascii c in
  ((10 <=? n)%nat && (n <=? 13)%nat) || ((28 <=? n)%nat && (n <=? 30)%nat).

(** [s.splitlines()]: no empty last line after a final boundary. *)
Fixpoint splitlines (s : string) : list string :=
  match s with
  | EmptyString => []
  | String c r =>
      if is_linebreak c then
        EmptyString ::
        match r with
        | String d r' =>
            if Ascii.eqb c "013"%char && Ascii.eqb d "010"%char
            then splitlines r' else splitlines r
        | EmptyString => []
        end
      else match splitlines r with
           | [] => [String c EmptyString]
           | w :: ws => String c w :: ws
           end
  end.

(** [zip(a, b, c)]: as long as the shortest of the three. *)
Fixpoint zip3 {A B C} (a : list A) (b : list B) (c : list C) : list (A * B * C) :=
  match a, b, c with
  | x :: a', y :: b', z :: c' => (x, y, z) :: zip3 a' b' c'
  | _, _, _ => []
  end.

(** ** The parsed configuration

    What [configparser] holds after [read]: the sections with their
    options, looked up by name. *)
Definition options := list (string * string).
Definition ini := list (string * options).

Fixpoint assoc {V} (k : string) (l : list (string * V)) : option V :=
  match l with
  | [] => None
  | (k', v) :: r => if String.eqb k' k then Some v else assoc k r
  end.

(** [str(KeyError(k))] *)
Definition key_error (k : string) : exn := mkExn KeyError ("'" ++ k ++ "'").

(** [config[section][key]] *)
Definition config_item (cfg : ini) (section key : string) : result string :=
  match assoc section cfg with
  | None => Raise (key_error section)
  | Some opts =>
      match assoc key opts with
      | None => Raise (key_error key)
      | Some v => Ok v
      end
  end.

(** [config[section].getboolean(key)]: [None] for an option that is not
    there, [ValueError] for a value that is not one of the eight words. *)
Definition getboolean (cfg : ini) (section key : string) : result (option bool) :=
  match assoc section cfg with
  | None => Raise (key_error section)
  | Some opts =>
      match assoc key opts with
      | None => Ok None
      | Some v =>
          let w := str_lower v in
          if existsb (String.eqb w) ["1"; "yes"; "true"; "on"] then Ok (Some true)
          else if existsb (String.eqb w) ["0"; "no"; "false"; "off"] then Ok (Some false)
          else Raise (mkExn ValueError ("Not a boolean: " ++ v))
      end
  end.

(** Python truth value of an optional boolean and of an optional string. *)
Definition is_true (b : option bool) : bool :=
  match b with Some true => true | _ => false end.

Definition is_set (s : option string) : bool :=
  match s with Some v => PyStr.truthy v | None => false end.

(** ** The wider world *)

(** Calls that return nothing the scripts look at; each may raise. *)
Inductive action :=
| OsRemoveMatch (path : string)
| OsUnlink (path : string)
| ShutilRmtree (path : string)
| RequestsGet (url : string)
| RaiseForStatus (url : string)
| WriteContent (path : string)
| SmtpConnect (server port : string)
| SmtpStarttls
| SmtpLogin (user password : string)
| SmtpSendmail (sender recipient subject body : string)
| SmtpQuit.

(** [os.path.isfile], [os.path.islink], [os.path.isdir]: never raise. *)
Inductive probe :=
| IsFile (path : string)
| IsLink (path : string)
| IsDir (path : string).

Inductive wevent :=
| Core (ev : event)
| Acted (a : action) (r : option exn)
| Asked (p : probe) (b : bool)
| Globbed (pattern : string) (r : list string)
| ListedDir (path : string) (r : result (list string))
| GotParameter (name : string) (r : result string)
| ReadConfig (path : string) (r : ini)
| Timed (seconds : string).

Definition wtrace := list wevent.

(** The wider world answers from the history so far, and says which
    [environment] the loader's methods meet when they are called. [on_clock]
    is the text of the elapsed seconds; [strerror] is the attribute of that
    name of an [OSError]. *)
Record world := mkWorld {
  loader_env : wtrace -> environment;
  on_action : wtrace -> action -> option exn;
  on_probe : wtrace -> probe -> bool;
  on_glob : wtrace -> string -> list string;
  on_listdir : wtrace -> string -> result (list string);
  on_parameter : wtrace -> string -> result string;
  on_config : wtrace -> string -> ini;
  on_clock : wtrace -> string;
  strerror : exn -> string
}.

(** The run state of a script: the history and the reset flag of the
    [ETLProcess] object. *)
Record wstate := mkW {
  whistory : wtrace;
  wflag : bool
}.

Definition W (A : Type) : Type := wstate -> result A * wstate.

Definition wret {A} (a : A) : W A := fun w => (Ok a, w).

Definition wbind {A B} (m : W A) (k : A -> W B) : W B :=
  fun w =>
    match m w with
    | (Ok a, w') => k a w'
    | (Raise e, w') => (Raise e, w')
    end.

Declare Scope script_scope.
Delimit Scope script_scope with script.
Notation "x <- c1 ;; c2" := (wbind c1 (fun x => c2))
  (at level 61, c1 at next level, right associativity) : script_scope.
Notation "c1 ;; c2" := (wbind c1 (fun _ => c2))
  (at level 61, right associativity) : script_scope.
Local Open Scope script_scope.

Definition wraise {A} (e : exn) : W A := fun w => (Raise e, w).

(** A pure computation that may raise. *)
Definition wlift_result {A} (r : result A) : W A := fun w => (r, w).

Definition wrecord (ev : wevent) (w : wstate) : wstate :=
  mkW (whistory w ++ [ev])%list (wflag w).

Definition wemit (ev : wevent) : W unit := fun w => (Ok tt, wrecord ev w).

Definition wprint (msg : string) : W unit := wemit (Core (Printed msg)).
Definition wlogging_info (msg : string) : W unit := wemit (Core (LoggedInfo msg)).
Definition wlogging_error (msg : string) : W unit := wemit (Core (LoggedError msg)).

Definition wset_flag (b : bool) : W unit := fun w => (Ok tt, mkW (whistory w) b).

(** [try: body / except Exception as e: handler e] *)
Definition wtry_except {A} (body : W A) (handler : exn -> W A) : W A :=
  fun w =>
    match body w with
    | (Raise e, w') => handler e w'
    | r => r
    end.

(** [try: body / except cls as e: handler e] *)
Definition wtry_except_cls {A} (cls : exn_class -> bool) (body : W A)
    (handler : exn -> W A) : W A :=
  fun w =>
    match body w with
    | (Raise e, w') => if cls (exn_cls e) then handler e w' else (Raise e, w')
    | r => r
    end.

Fixpoint wfor_each {A} (l : list A) (body : A -> W unit) : W unit :=
  match l with
  | [] => wret tt
  | x :: r => body x ;; wfor_each r body
  end.

Definition is_os_error (c : exn_class) : bool :=
  match c with OSError => true | _ => false end.

Definition is_missing_schema (c : exn_class) : bool :=
  match c with MissingSchema => true | _ => false end.

(** The events of the loader in a history of the wider world. *)
Definition loader_events (h : wtrace) : trace :=
  flat_map (fun ev => match ev with Core e => [e] | _ => [] end) h.

Section Scripts.
Import PyStr.

Variable world_ : world.

Definition act (a : action) : W unit :=
  fun w =>
    match on_action world_ (whistory w) a with
    | None => (Ok tt, wrecord (Acted a None) w)
    | Some e => (Raise e, wrecord (Acted a (Some e)) w)
    end.

Definition ask_probe (p : probe) : W bool :=
  fun w => let b := on_probe world_ (whistory w) p in (Ok b, wrecord (Asked p b) w).

Definition glob_glob (pattern : string) : W (list string) :=
  fun w => let r := on_glob world_ (whistory w) pattern in (Ok r, wrecord (Globbed pattern r) w).

Definition os_listdir (path : string) : W (list string) :=
  fun w => let r := on_listdir world_ (whistory w) path in (r, wrecord (ListedDir path r) w).

Definition ssm_get_parameter (name : string) : W string :=
  fun w =>
    let r := on_parameter world_ (whistory w) name in (r, wrecord (GotParameter name r) w).

Definition config_read (path : string) : W ini :=
  fun w => let r := on_config world_ (whistory w) path in (Ok r, wrecord (ReadConfig path r) w).

Definition elapsed_seconds : W string :=
  fun w => let r := on_clock world_ (whistory w) in (Ok r, wrecord (Timed r) w).

(** A method of the loader, called from a script: it runs in a frame of
    its own, in the environment the world has for it now, on the events of
    the loader so far; what it adds to its history is added to the
    history of the script, and the reset flag is the one it leaves. *)
Definition loader {A} (m : environment -> M A) : W A :=
  fun w =>
    let h := loader_events (whistory w) in
    let (r, s') := m (loader_env world_ (whistory w)) (mkState h (wflag w) []) in
    (r, mkW (whistory w ++ map Core (skipn (List.length h) (history s')))%list
            (drop_table_if_exists s')).

(** *** [empty_folder_of_zip_csv] (etlModule.py, lines 210-243) *)

(** The body of [for filename in glob.glob(full_pattern)]. *)
Definition remove_match (filename : string) : W unit :=
  wtry_except_cls is_os_error
    (act (OsRemoveMatch filename) ;; wprint ("Removed " ++ filename))
    (fun e => wprint ("Error: " ++ strerror world_ e)).

(** The body of [for filename in os.listdir(folder_path)]. *)
Definition delete_entry (folder_path filename : string) : W unit :=
  let file_path := OsPath.join folder_path filename in
  wtry_except
    (is_file <- ask_probe (IsFile file_path) ;;
     is_file_or_link <-
       (if is_file then wret true else ask_probe (IsLink file_path)) ;;
     if is_file_or_link then act (OsUnlink file_path)
     else
       is_dir <- ask_probe (IsDir file_path) ;;
       if is_dir then act (ShutilRmtree file_path) else wret tt)
    (fun e => wprint ("Failed to delete " ++ file_path ++ ". Reason: " ++ exn_msg e)).

(** The first loop, [for pattern in file_patterns]. *)
Definition remove_matches (folder_path : string) : W unit :=
  wfor_each ["*.zip"; "*.csv"] (fun pattern =>
    let full_pattern := OsPath.join folder_path pattern in
    names <- glob_glob full_pattern ;;
    wfor_each names remove_match).

Definition empty_folder_of_zip_csv (folder_path : string) : W unit :=
  remove_matches folder_path ;;
  names <- os_listdir folder_path ;;
  wfor_each names (delete_entry folder_path).

(** *** [download_from_url] (lines 270-290) *)

Definition download_from_url (url targetFile : string) : W unit :=
  wtry_except_cls is_missing_schema
    (act (RequestsGet url) ;;
     act (RaiseForStatus url) ;;
     act (WriteContent targetFile) ;;
     wlogging_info ("File downloaded: " ++ targetFile))
    (fun _ => wlogging_error ("Invalid URL: " ++ url)).

(** *** [EmailUtility] (lines 66-120) *)

Record email_utility := mkEmail {
  smtp_password : string;
  server : string;
  port : string;
  user : option string;
  recipient : string
}.

(** [email_config[key]] *)
Definition option_item (opts : options) (key : string) : result string :=
  match assoc key opts with
  | None => Raise (key_error key)
  | Some v => Ok v
  end.

(** [EmailUtility.__init__]: [email_config] is the section [EMAIL]. *)
Definition EmailUtility (email_config : options) : W email_utility :=
  smtp_password <- ssm_get_parameter "smtp_password" ;;
  server <- wlift_result (option_item email_config "smtp_server") ;;
  port <- wlift_result (option_item email_config "smtp_port") ;;
  let user := assoc "user" email_config in
  recipient <- wlift_result (option_item email_config "recipient") ;;
  wret (mkEmail smtp_password server port user recipient).

(** [self.user if self.user else 'anonymous@example.com'] *)
Definition sender (self : email_utility) : string :=
  match user self with
  | Some u => if truthy u then u else "anonymous@example.com"
  | None => "anonymous@example.com"
  end.

Definition send_email (self : email_utility) (subject body : string) : W unit :=
  act (SmtpConnect (server self) (port self)) ;;
  act SmtpStarttls ;;
  (if is_set (user self) && truthy (smtp_password self)
   then act (SmtpLogin (match user self with Some u => u | None => "" end)
                       (smtp_password self))
   else wret tt) ;;
  act (SmtpSendmail (sender self) (recipient self) subject body) ;;
  act SmtpQuit ;;
  wlogging_info "Email sent successfully".

(** *** [ETLProcess.__init__] (lines 141-198) *)

(** The object [__init__] builds: the attributes the loader reads, the
    parsed configuration and the mailer. *)
Record etl_process := mkETL {
  attributes : config;
  parsed : ini;
  email_util : email_utility
}.

Definition config_section (cfg : ini) (name : string) : result options :=
  match assoc name cfg with
  | None => Raise (key_error name)
  | Some opts => Ok opts
  end.

Definition ETLProcess (config_file : string) : W etl_process :=
  pwd <- ssm_get_parameter "sql_password" ;;
  cfg <- config_read config_file ;;
  email_config <- wlift_result (config_section cfg "EMAIL") ;;
  email_util <- EmailUtility email_config ;;
  db_type <- wlift_result (config_item cfg "ETL" "database_type") ;;
  dbServer <- wlift_result (config_item cfg "MSSQL" "server") ;;
  dbName <- wlift_result (config_item cfg "MSSQL" "database") ;;
  uid <- wlift_result (config_item cfg "MSSQL" "user") ;;
  _ <- wlift_result (config_item cfg "MSSQL" "table_name") ;;
  drop_table_if_exists <- wlift_result (getboolean cfg "MSSQL" "drop_table_if_exists") ;;
  wset_flag (is_true drop_table_if_exists) ;;
  delimiter <- wlift_result (config_item cfg "ETL" "field_delimiter") ;;
  let field_delimiter := if String.eqb delimiter "\t" then tab else delimiter in
  _ <- wlift_result (config_item cfg "ETL" "file_name") ;;
  file_prefix <- wlift_result (config_item cfg "ETL" "file_prefix") ;;
  file_suffix <- wlift_result (config_item cfg "ETL" "file_suffix") ;;
  file_extensions <- wlift_result (config_item cfg "ETL" "file_extensions") ;;
  file_type <- wlift_result (config_item cfg "ETL" "file_type") ;;
  file_has_header <- wlift_result (getboolean cfg "ETL" "file_has_header") ;;
  archive_path <- wlift_result (config_item cfg "ETL" "archive_path") ;;
  bcp_end_of_row <- wlift_result (config_item cfg "ETL" "bcp_end_of_row") ;;
  let self_bcp_end_of_row :=
    if String.eqb bcp_end_of_row "\n"
    then String dquote ("\n" ++ String dquote EmptyString)
    else bcp_end_of_row in
  bcp_row_start <- wlift_result (config_item cfg "ETL" "bcp_row_start") ;;
  bcp_batch_commit_size <- wlift_result (config_item cfg "ETL" "bcp_batch_commit_size") ;;
  self_bcp_end_of_row <- wlift_result (config_item cfg "ETL" "bcp_end_of_row") ;;
  bcp_import_bool <- wlift_result (getboolean cfg "IMPORT_METHOD" "bcp_import") ;;
  bulkInsert_import_bool <- wlift_result (getboolean cfg "IMPORT_METHOD" "bulkInsert_import") ;;
  pandas_import_bool <- wlift_result (getboolean cfg "IMPORT_METHOD" "pandas_import") ;;
  wret (mkETL
          (mkConfig db_type dbServer dbName uid pwd (is_true drop_table_if_exists)
                    field_delimiter file_prefix file_suffix file_extensions file_type
                    (is_true file_has_header) archive_path bcp_row_start
                    bcp_batch_commit_size self_bcp_end_of_row
                    (is_true bcp_import_bool) (is_true bulkInsert_import_bool)
                    (is_true pandas_import_bool))
          cfg email_util).

(** *** [process_url] (lines 920-962) *)

Variable float_of_str : string -> option pyfloat.
Variable astype_str : list pyval -> list string.

(** The column list of line 946. *)
Definition url_columns_sql (column_names : string) : string :=
  join ", "
    (map (fun column => "[" ++ column ++ "] NVARCHAR(MAX)")
         (filter (fun column => truthy (strip_ws column)) (split ","%char column_names))).

(** The body of the loop over the URLs; a blank URL is the [continue] of
    line 934. *)
Definition process_one_url (self : etl_process) (downloadPath archivePath : string)
    (file_has_header : option bool) (entry : string * string * string) : W unit :=
  let '(url, column_names, table_name) := entry in
  if negb (truthy (strip_ws url)) then wret tt
  else
    wtry_except_cls is_missing_schema
      (empty_folder_of_zip_csv downloadPath ;;
       let file_path := OsPath.join downloadPath (last_component url) in
       download_from_url url file_path ;;
       (if negb (is_true file_has_header) then
          let columns_sql := url_columns_sql column_names in
          loader (fun env =>
            create_table_and_view env (attributes self) (ColumnString columns_sql) table_name)
        else wret tt) ;;
       wprint ("Processing file: " ++ file_path) ;;
       loader (fun env =>
         process_file env (attributes self) float_of_str astype_str
           file_path archivePath table_name))
      (fun _ => wlogging_error ("Invalid URL: " ++ url)).

Definition process_url (self : etl_process) : W unit :=
  wtry_except
    (downloadPath <- wlift_result (config_item (parsed self) "ETL" "download_path") ;;
     archivePath <- wlift_result (config_item (parsed self) "ETL" "archive_path") ;;
     file_has_header <- wlift_result (getboolean (parsed self) "ETL" "file_has_header") ;;
     url_links <- wlift_result (config_item (parsed self) "URL_SOURCE" "url_links") ;;
     url_column_names <-
       wlift_result (config_item (parsed self) "URL_SOURCE" "url_column_names") ;;
     url_table_names <-
       wlift_result (config_item (parsed self) "URL_SOURCE" "url_table_names") ;;
     wfor_each (zip3 (splitlines url_links) (splitlines url_column_names)
                     (splitlines url_table_names))
       (process_one_url self downloadPath archivePath file_has_header))
    (fun e => wlogging_error ("Error processing URL: " ++ exn_msg e)).

(** *** The launcher scripts *)

(** The end of every [main]: the notification of success inside the [try]
    block, and the handler that notifies of a failure. *)
Definition notify_success (etl : etl_process) : W unit :=
  execution_time <- elapsed_seconds ;;
  send_email (email_util etl) "ETL Process Successful"
    ("The ETL process completed successfully in " ++ execution_time ++ " seconds.") ;;
  wlogging_info "ETL process completed successfully.".

Definition notify_failure (etl : etl_process) (e : exn) : W unit :=
  wlogging_error ("ETL process failed: " ++ exn_msg e) ;;
  send_email (email_util etl) "ETL Process Failed"
    ("ETL process failed with error: " ++ exn_msg e).

(** [etlurl.py], lines 24-39 *)
Definition main_url (config_file : string) : W unit :=
  etl <- ETLProcess config_file ;;
  wtry_except
    (process_url etl ;; notify_success etl)
    (notify_failure etl).

(** [etlLocal.py], lines 28-53 *)
Definition main_local (config_file : string) : W unit :=
  etl <- ETLProcess config_file ;;
  wtry_except
    (downloadPath <- wlift_result (config_item (parsed etl) "ETL" "download_path") ;;
     empty_folder_of_zip_csv downloadPath ;;
     _ <- wlift_result (config_item (parsed etl) "ETL" "file_name") ;;
     archivePath <- wlift_result (config_item (parsed etl) "ETL" "archive_path") ;;
     tableName <- wlift_result (config_item (parsed etl) "MSSQL" "table_name") ;;
     folderPath <- wlift_result (config_item (parsed etl) "LOCAL_SOURCE" "folder_path") ;;
     wprint (folderPath ++ " " ++ tableName) ;;
     loader (fun env =>
       process_file env (attributes etl) float_of_str astype_str
         folderPath archivePath tableName) ;;
     notify_success etl)
    (notify_failure etl).

(** The body of [for filename in files] of [etlS3.py]. *)
Definition process_listed (etl : etl_process) (downloadPath archivePath tableName : string)
    (filename : string) : W unit :=
  let targetFile := OsPath.join downloadPath filename in
  loader (fun env =>
    process_file env (attributes etl) float_of_str astype_str
      targetFile archivePath tableName) ;;
  empty_folder_of_zip_csv downloadPath.

(** [etlS3.py], lines 34-64 *)
Definition main_s3 (config_file : string) : W unit :=
  etl <- ETLProcess config_file ;;
  wtry_except
    (downloadPath <- wlift_result (config_item (parsed etl) "ETL" "download_path") ;;
     empty_folder_of_zip_csv downloadPath ;;
     _ <- wlift_result (config_item (parsed etl) "ETL" "file_name") ;;
     archivePath <- wlift_result (config_item (parsed etl) "ETL" "archive_path") ;;
     tableName <- wlift_result (config_item (parsed etl) "MSSQL" "table_name") ;;
     s3_bucket <- wlift_result (config_item (parsed etl) "S3_SOURCE" "s3_bucket") ;;
     s3_folder <- wlift_result (config_item (parsed etl) "S3_SOURCE" "s3_folder") ;;
     loader (fun env =>
       download_from_s3 env (attributes etl) s3_bucket s3_folder downloadPath) ;;
     files <- os_listdir downloadPath ;;
     wfor_each files (process_listed etl downloadPath archivePath tableName) ;;
     notify_success etl)
    (notify_failure etl).

(** [etlSFTP.py], lines 38-69 *)
Definition main_sftp (config_file : string) : W unit :=
  etl <- ETLProcess config_file ;;
  sftp_password <- ssm_get_parameter "sftp_password" ;;
  wtry_except
    (downloadPath <- wlift_result (config_item (parsed etl) "ETL" "download_path") ;;
     empty_folder_of_zip_csv downloadPath ;;
     filename <- wlift_result (config_item (parsed etl) "ETL" "file_name") ;;
     archivePath <- wlift_result (config_item (parsed etl) "ETL" "archive_path") ;;
     tableName <- wlift_result (config_item (parsed etl) "MSSQL" "table_name") ;;
     let targetFile := OsPath.join downloadPath filename in
     host <- wlift_result (config_item (parsed etl) "SFTP_SOURCE" "host") ;;
     port <- wlift_result (config_item (parsed etl) "SFTP_SOURCE" "port") ;;
     username <- wlift_result (config_item (parsed etl) "SFTP_SOURCE" "username") ;;
     remote_path <- wlift_result (config_item (parsed etl) "SFTP_SOURCE" "remote_path") ;;
     loader (fun env =>
       download_from_sftp env (attributes etl) host port username sftp_password
         remote_path downloadPath) ;;
     loader (fun env =>
       process_file env (attributes etl) float_of_str astype_str
         targetFile archivePath tableName) ;;
     notify_success etl)
    (notify_failure etl).

End Scripts.

(** Running a script from an empty history. *)
Definition wrun {A} (m : W A) : result A * wtrace :=
  let (r, w) := m (mkW [] false) in (r, whistory w).

(** ** Observations on the scripts *)

(** The script returns, whatever the world does. *)
Definition wnever_raises {A} (m : W A) : Prop :=
  forall w, exists a, fst (m w) = Ok a.

(** From a state whose flag satisfies [J], the script leaves a flag that
    satisfies [J] and only adds events that satisfy [P]. *)
Definition wemits (J : bool -> Prop) (P : wevent -> Prop) {A} (m : W A) : Prop :=
  forall w, J (wflag w) ->
    J (wflag (snd (m w)))
    /\ exists seg, whistory (snd (m w)) = (whistory w ++ seg)%list /\ Forall P seg.

(** A property of the loader's events, any other event allowed. *)
Definition of_loader (P : event -> Prop) (ev : wevent) : Prop :=
  match ev with Core e => P e | _ => True end.

(** The six settings [process_url] reads are there with these values. *)
Definition url_source (cfg : ini) (downloadPath archivePath : string)
    (file_has_header : option bool) (url_links url_column_names url_table_names : string)
  : Prop :=
  config_item cfg "ETL" "download_path" = Ok downloadPath
  /\ config_item cfg "ETL" "archive_path" = Ok archivePath
  /\ getboolean cfg "ETL" "file_has_header" = Ok file_has_header
  /\ config_item cfg "URL_SOURCE" "url_links" = Ok url_links
  /\ config_item cfg "URL_SOURCE" "url_column_names" = Ok url_column_names
  /\ config_item cfg "URL_SOURCE" "url_table_names" = Ok url_table_names.

(** Every request is for a URL of [entries] that is not blank. *)
Definition requests_from (entries : list (string * string * string)) (ev : wevent) : Prop :=
  match ev with
  | Acted (RequestsGet u) _ =>
      PyStr.truthy (PyStr.strip_ws u) = true /\ exists c t, In (u, c, t) entries
  | _ => True
  end.

(** ** Sample worlds *)

Definition demo_ini : ini :=
  [("EMAIL", [("smtp_server", "smtp.example.com"); ("smtp_port", "587");
              ("recipient", "ops@example.com")]);
   ("ETL", [("database_type", "mssql"); ("field_delimiter", "\t");
            ("file_name", "a_x.csv"); ("file_prefix", "sales"); ("file_suffix", "_x");
            ("file_extensions", "csv,zip"); ("file_type", "csv");
            ("file_has_header", "yes"); ("archive_path", "/archive");
            ("download_path", "/stage"); ("bcp_end_of_row", "\n");
            ("bcp_row_start", "2"); ("bcp_batch_commit_size", "1000")]);
   ("MSSQL", [("server", "srv"); ("database", "db"); ("user", "");
              ("table_name", "Sales"); ("drop_table_if_exists", "True")]);
   ("IMPORT_METHOD", [("bcp_import", "True"); ("bulkInsert_import", "False");
                      ("pandas_import", "False")]);
   ("LOCAL_SOURCE", [("folder_path", "/data/in")]);
   ("S3_SOURCE", [("s3_bucket", "bucket"); ("s3_folder", "in/")]);
   ("SFTP_SOURCE", [("host", "host"); ("port", "22"); ("username", "user");
                    ("remote_path", "/out")]);
   ("URL_SOURCE",
    [("url_links", "http://h/a_x.csv" ++ PyStr.nl ++ "h/b_x.csv" ++ PyStr.nl ++ "http://h/c_x.csv");
     ("url_column_names", "id,amount" ++ PyStr.nl ++ "id,amount");
     ("url_table_names", "A" ++ PyStr.nl ++ "B" ++ PyStr.nl ++ "C")])].

Definition demo_etl : etl_process :=
  mkETL demo_config demo_ini
        (mkEmail "secret" "smtp.example.com" "587" None "ops@example.com").

(** Every call returns; the staging folder holds one file and one
    directory. *)
Definition still : world :=
  mkWorld (fun _ => calm)
          (fun _ _ => None)
          (fun _ p => match p with
                      | IsFile path => String.eqb path "/stage/old.csv"
                      | IsLink _ => false
                      | IsDir _ => true
                      end)
          (fun _ _ => [])
          (fun _ _ => Ok ["old.csv"; "tmp"])
          (fun _ _ => Ok "secret")
          (fun _ _ => demo_ini)
          (fun _ => "1.5")
          exn_msg.

(** [base], except that the actions [bad] picks raise [e]. *)
Definition refusing (base : world) (bad : action -> bool) (e : exn) : world :=
  mkWorld (loader_env base)
          (fun h a => if bad a then Some e else on_action base h a)
          (on_probe base) (on_glob base) (on_listdir base) (on_parameter base)
          (on_config base) (on_clock base) (strerror base).

(** [server.login] was called. *)
Definition is_login (ev : wevent) : bool :=
  match ev with Acted (SmtpLogin _ _) _ => true | _ => false end.

Definition is_status_check (a : action) : bool :=
  match a with RaiseForStatus _ => true | _ => false end.

(** The settings [etlLocal.py] reads in its [try] block are there. *)
Definition local_settings (cfg : ini) (downloadPath archivePath tableName folderPath : string)
  : Prop :=
  config_item cfg "ETL" "download_path" = Ok downloadPath
  /\ (exists filename, config_item cfg "ETL" "file_name" = Ok filename)
  /\ config_item cfg "ETL" "archive_path" = Ok archivePath
  /\ config_item cfg "MSSQL" "table_name" = Ok tableName
  /\ config_item cfg "LOCAL_SOURCE" "folder_path" = Ok folderPath.

(** The settings [etlSFTP.py] reads in its [try] block are there. *)
Definition sftp_settings (cfg : ini)
    (downloadPath filename archivePath tableName host port username remote_path : string)
  : Prop :=
  config_item cfg "ETL" "download_path" = Ok downloadPath
  /\ config_item cfg "ETL" "file_name" = Ok filename
  /\ config_item cfg "ETL" "archive_path" = Ok archivePath
  /\ config_item cfg "MSSQL" "table_name" = Ok tableName
  /\ config_item cfg "SFTP_SOURCE" "host" = Ok host
  /\ config_item cfg "SFTP_SOURCE" "port" = Ok port
  /\ config_item cfg "SFTP_SOURCE" "username" = Ok username
  /\ config_item cfg "SFTP_SOURCE" "remote_path" = Ok remote_path.

(** The settings [etlS3.py] reads in its [try] block are there. *)
Definition s3_settings (cfg : ini)
    (downloadPath archivePath tableName s3_bucket s3_folder : string) : Prop :=
  config_item cfg "ETL" "download_path" = Ok downloadPath
  /\ (exists filename, config_item cfg "ETL" "file_name" = Ok filename)
  /\ config_item cfg "ETL" "archive_path" = Ok archivePath
  /\ config_item cfg "MSSQL" "table_name" = Ok tableName
  /\ config_item cfg "S3_SOURCE" "s3_bucket" = Ok s3_bucket
  /\ config_item cfg "S3_SOURCE" "s3_folder" = Ok s3_folder.

(** [base], except that the loader meets the environment [env]. *)
Definition meeting (base : world) (env : environment) : world :=
  mkWorld (fun _ => env) (on_action base) (on_probe base) (on_glob base)
          (on_listdir base) (on_parameter base) (on_config base) (on_clock base)
          (strerror base).

Local Close Scope script_scope.

(** * The parameter file (manageParameterStore.py)

    [process_parameters_from_file] and [parameter_exists], and the line
    that [fetch_and_save_parameters] writes for a parameter. *)

(** ** Splitting once *)

(** [s[n:]] *)
Fixpoint string_drop (n : nat) (s : string) : string :=
  match n, s with
  | S k, String _ r => string_drop k r
  | _, _ => s
  end.

(** [s.rsplit(sep, 1)] for a separator that is not empty: the parts around
    the last occurrence of [sep], [None] when there is none (the list
    [rsplit] returns then has one element). *)
Fixpoint rsplit_once (sep s : string) : option (string * string) :=
  match s with
  | EmptyString => None
  | String c r =>
      match rsplit_once sep r with
      | Some (a, b) => Some (String c a, b)
      | None =>
          if String.prefix sep s
          then Some (EmptyString, string_drop (String.length sep) s)
          else None
      end
  end.

(** [s.split(c, 1)] for one character: the parts around its first
    occurrence. *)
Fixpoint split_once (c : ascii) (s : string) : option (string * string) :=
  match s with
  | EmptyString => None
  | String a r =>
      if Ascii.eqb a c then Some (EmptyString, r)
      else match split_once c r with
           | Some (x, y) => Some (String a x, y)
           | None => None
           end
  end.

(** ** One line of the file *)

(** The line of line 57: [f"{Name} = {Value} (Type: {Type})\n"]. *)
Definition format_line (name value type_name : string) : string :=
  name ++ " = " ++ value ++ " (Type: " ++ type_name ++ ")" ++ PyStr.nl.

(** Unpacking a list of one element into two names. *)
Definition unpack_error : exn :=
  mkExn ValueError "not enough values to unpack (expected 2, got 1)".

(** Lines 84-86, on a stripped line: name, value and type. *)
Definition parse_line (line : string) : result (string * string * string) :=
  match rsplit_once " (Type: " line with
  | None => Raise unpack_error
  | Some (name_value, type_part) =>
      match split_once "="%char name_value with
      | None => Raise unpack_error
      | Some (name, value) =>
          Ok (name, value, PyStr.rstrip (Ascii.eqb ")"%char) type_part)
      end
  end.

(** ** The parameter store *)

Inductive request :=
| DeleteParameter (name : string)
| PutParameter (name value type_name : string) (overwrite : bool).

Inductive pevent :=
| Said (msg : string)
| Looked (name : string) (r : option exn)
| LookedType (name : string) (r : result string)
| Requested (q : request) (r : option exn)
| Opened (path : string) (r : result (list string)).

Definition ptrace := list pevent.

(** The store answers from the history so far: [on_lookup] is
    [ssm.get_parameter(Name=name)], [on_type] is the type that
    [get_parameter] returns with the value, [on_open] is the lines of the
    file; [not_found] tells whether an exception is
    [ssm.exceptions.ParameterNotFound]. *)
Record store := mkStore {
  on_lookup : ptrace -> string -> option exn;
  on_type : ptrace -> string -> result string;
  on_request : ptrace -> request -> option exn;
  on_open : ptrace -> string -> result (list string);
  not_found : exn -> bool
}.

Definition StoreM (A : Type) : Type := ptrace -> result A * ptrace.

Definition pret {A} (a : A) : StoreM A := fun h => (Ok a, h).

Definition pbind {A B} (m : StoreM A) (k : A -> StoreM B) : StoreM B :=
  fun h =>
    match m h with
    | (Ok a, h') => k a h'
    | (Raise e, h') => (Raise e, h')
    end.

Declare Scope store_scope.
Delimit Scope store_scope with store.
Notation "x <- c1 ;; c2" := (pbind c1 (fun x => c2))
  (at level 61, c1 at next level, right associativity) : store_scope.
Notation "c1 ;; c2" := (pbind c1 (fun _ => c2))
  (at level 61, right associativity) : store_scope.
Local Open Scope store_scope.

Definition plift {A} (r : result A) : StoreM A := fun h => (r, h).

Definition say (msg : string) : StoreM unit := fun h => (Ok tt, (h ++ [Said msg])%list).

(** [try: body / except Exception as e: handler e] *)
Definition ptry_except {A} (body : StoreM A) (handler : exn -> StoreM A) : StoreM A :=
  fun h =>
    match body h with
    | (Raise e, h') => handler e h'
    | r => r
    end.

Fixpoint pfor_each {A} (l : list A) (body : A -> StoreM unit) : StoreM unit :=
  match l with
  | [] => pret tt
  | x :: r => body x ;; pfor_each r body
  end.

Section ParameterStore.
Import PyStr.

Variable ssm : store.

Definition get_parameter (name : string) : StoreM unit :=
  fun h =>
    match on_lookup ssm h name with
    | None => (Ok tt, (h ++ [Looked name None])%list)
    | Some e => (Raise e, (h ++ [Looked name (Some e)])%list)
    end.

Definition get_parameter_type (name : string) : StoreM string :=
  fun h => let r := on_type ssm h name in (r, (h ++ [LookedType name r])%list).

Definition send (q : request) : StoreM unit :=
  fun h =>
    match on_request ssm h q with
    | None => (Ok tt, (h ++ [Requested q None])%list)
    | Some e => (Raise e, (h ++ [Requested q (Some e)])%list)
    end.

Definition open_lines (path : string) : StoreM (list string) :=
  fun h => let r := on_open ssm h path in (r, (h ++ [Opened path r])%list).

(** *** [parameter_exists] (lines 143-152) *)

Definition parameter_exists (name : string) : StoreM bool :=
  ptry_except
    (get_parameter name ;; pret true)
    (fun e =>
       if not_found ssm e then pret false
       else
         say ("Error checking parameter existence for " ++ name ++ ": " ++ exn_msg e) ;;
         pret false).

(** *** [process_parameters_from_file] (lines 74-127) *)

(** The body of [for line in file]. *)
Definition process_line (line : string) : StoreM unit :=
  if startswith (strip_ws line) "#" then pret tt
  else
    let line := strip_ws line in
    if truthy line then
      parsed <- plift (parse_line line) ;;
      let '(name, value, type_name) := parsed in
      if String.eqb type_name "DELETE" then
        there <- parameter_exists name ;;
        if there then
          ptry_except
            (send (DeleteParameter name) ;; say ("Deleted parameter: " ++ name))
            (fun e => say ("Error deleting parameter " ++ name ++ ": " ++ exn_msg e))
        else say ("Parameter " ++ name ++ " does not exist. No deletion needed.")
      else if String.eqb type_name "EDIT" then
        there <- parameter_exists name ;;
        if there then
          ptry_except
            (original_type <- get_parameter_type name ;;
             send (PutParameter name (strip_ws value) original_type true) ;;
             say ("Updated value for parameter: " ++ name ++ ", keeping original type: "
                  ++ original_type))
            (fun e => say ("Error updating parameter " ++ name ++ ": " ++ exn_msg e))
        else pret tt
      else
        there <- parameter_exists name ;;
        if negb there then
          ptry_except
            (send (PutParameter name value type_name false) ;;
             say ("Added new parameter: " ++ name ++ " with type: " ++ type_name))
            (fun e => say ("Failed to add " ++ name ++ ": " ++ exn_msg e))
        else say ("Parameter " ++ name ++ " already exists. No action performed.")
    else pret tt.

Definition process_parameters_from_file (folder_path file_name : string) : StoreM unit :=
  let full_path := OsPath.join folder_path file_name in
  lines <- open_lines full_path ;;
  pfor_each lines process_line.

End ParameterStore.

Local Close Scope store_scope.

(** A store in which every parameter is there and every request is
    granted, and the file holds [lines]. *)
Definition granting (lines : list string) : store :=
  mkStore (fun _ _ => None) (fun _ _ => Ok "SecureString") (fun _ _ => None)
          (fun _ _ => Ok lines) (fun _ => false).

(** * Properties *)

(** ** Sanity checks of the string and path helpers *)

Example splitext_csv : OsPath.splitext "/in/sales_2024.csv" = ("/in/sales_2024", ".csv").
Proof. reflexivity. Qed.
Example splitext_hidden : OsPath.splitext "/in/.zip" = ("/in/.zip", "").
Proof. reflexivity. Qed.
Example splitext_none : OsPath.splitext "sales_notes" = ("sales_notes", "").
Proof. reflexivity. Qed.
Example dirname_ex : OsPath.dirname "/stage/in/a.zip" = "/stage/in".
Proof. reflexivity. Qed.
Example basename_ex : OsPath.basename "/stage/in/a.zip" = "a.zip".
Proof. reflexivity. Qed.
Example join_ex : OsPath.join "/archive" "a.zip" = "/archive/a.zip".
Proof. reflexivity. Qed.
Example split_ex : PyStr.split ","%char "csv, zip" = ["csv"; " zip"].
Proof. reflexivity. Qed.
Example strip_ex : PyStr.strip_ws "  zip " = "zip".
Proof. reflexivity. Qed.
Example endswith_ex : PyStr.endswith "a_x.csv" "_x.csv" = true /\ PyStr.endswith "a.csv" "" = true.
Proof. split; reflexivity. Qed.
Example convert_42 :
  convert_values digits_float (PStr "(42)") = Ok (PFloat (FFinite true 42 0)).
Proof. reflexivity. Qed.
Example convert_dash : convert_values digits_float (PStr "-") = Ok PNone.
Proof. reflexivity. Qed.
Example convert_text : convert_values digits_float (PStr "abc") = Ok (PStr "abc").
Proof. reflexivity. Qed.
Example convert_bad :
  convert_values digits_float (PStr "(abc)") = Raise (float_error "abc").
Proof. reflexivity. Qed.
Example split_str_ex : PyStr.split_str ", " "[a] T, [b] T" = ["[a] T"; "[b] T"].
Proof. reflexivity. Qed.
Example str_of_nat_ex : PyStr.str_of_nat 120 = "120" /\ PyStr.str_of_nat 0 = "0".
Proof. split; reflexivity. Qed.

(** ** Facts about the string helpers *)

Module PyStrFacts.
Import PyStr.

Lemma append_nil_r (s : string) : s ++ "" = s.
Proof. induction s as [|c r IH]; simpl; [reflexivity | now rewrite IH]. Qed.

Lemma append_assoc (a b c : string) : (a ++ b) ++ c = a ++ (b ++ c).
Proof. induction a as [|x r IH]; simpl; [reflexivity | now rewrite IH]. Qed.

Lemma length_append (a b : string) :
  String.length (a ++ b) = String.length a + String.length b.
Proof. induction a as [|x r IH]; simpl; [reflexivity | now rewrite IH]. Qed.

Lemma prefix_append (p r : string) : String.prefix p (p ++ r) = true.
Proof.
  induction p as [|c p IH]; simpl.
  - now destruct r.
  - destruct (ascii_dec c c) as [_|ne]; [exact IH | now elim ne].
Qed.

Lemma prefix_inv (p s : string) :
  String.prefix p s = true -> exists r, s = p ++ r.
Proof.
  revert s; induction p as [|c p IH]; intros s H.
  - now exists s.
  - destruct s as [|d s]; simpl in H; [discriminate|].
    destruct (ascii_dec c d) as [->|]; [|discriminate].
    destruct (IH _ H) as [r ->]. now exists r.
Qed.

Lemma startswith_iff (s p : string) :
  startswith s p = true <-> exists r, s = p ++ r.
Proof.
  split; [apply prefix_inv | intros [r ->]; apply prefix_append].
Qed.

Lemma endswith_cons (c : ascii) (s p : string) :
  endswith (String c s) p = String.eqb (String c s) p || endswith s p.
Proof. reflexivity. Qed.

Lemma endswith_iff (s p : string) :
  endswith s p = true <-> exists l, s = l ++ p.
Proof.
  induction s as [|c s IH].
  - split.
    + intros H. destruct p; [now exists ""|discriminate].
    + intros [l H]. destruct l; simpl in H; [subst p; reflexivity | discriminate].
  - rewrite endswith_cons, orb_true_iff, IH. split.
    + intros [H | [l ->]].
      * apply String.eqb_eq in H. subst p. now exists "".
      * now exists (String c l).
    + intros [l H]. destruct l as [|d l]; simpl in H.
      * left. subst p. apply String.eqb_refl.
      * right. injection H as _ ->. now exists l.
Qed.


(** [lstrip] and [rstrip] take away a run of stripped characters and leave
    a string that neither starts nor ends with one. *)
Lemma lstrip_decompose (s : string) :
  exists n, s = replicate n dquote ++ lstrip is_dquote s.
Proof.
  induction s as [|c s [n IH]]; simpl.
  - now exists 0.
  - destruct (is_dquote c) eqn:E.
    + apply Ascii.eqb_eq in E. subst c. exists (S n). simpl. now rewrite <- IH.
    + now exists 0.
Qed.

Lemma rstrip_decompose (s : string) :
  exists m, s = rstrip is_dquote s ++ replicate m dquote.
Proof.
  induction s as [|c s [m IH]]; simpl.
  - now exists 0.
  - destruct (rstrip is_dquote s) as [|d r] eqn:E.
    + destruct (is_dquote c) eqn:Ec.
      * apply Ascii.eqb_eq in Ec. subst c. exists (S m). simpl in *. now rewrite <- IH.
      * exists m. simpl in *. now rewrite <- IH.
    + exists m. simpl in *. now rewrite <- IH.
Qed.

Lemma false_of_not_true (b : bool) : b <> true -> b = false.
Proof. now destruct b. Qed.

Lemma is_dquote_true (c : ascii) : is_dquote c = true -> c = dquote.
Proof. apply Ascii.eqb_eq. Qed.

Lemma lstrip_head (s : string) :
  startswith (lstrip is_dquote s) (String dquote "") = false.
Proof.
  apply false_of_not_true. rewrite startswith_iff. intros [r H].
  induction s as [|c s IH]; cbn [lstrip] in H; [discriminate|].
  destruct (is_dquote c) eqn:E; [now apply IH|].
  cbn [append] in H. injection H as -> _.
  unfold is_dquote in E. now rewrite Ascii.eqb_refl in E.
Qed.

Lemma rstrip_last (s : string) :
  endswith (rstrip is_dquote s) (String dquote "") = false.
Proof.
  apply false_of_not_true. rewrite endswith_iff. intros [l H].
  revert l H. induction s as [|c s IH]; intros l H; cbn [rstrip] in H.
  - destruct l; discriminate.
  - destruct (rstrip is_dquote s) as [|d r] eqn:E.
    + destruct (is_dquote c) eqn:Ec.
      * destruct l; discriminate.
      * destruct l as [|x l]; cbn [append] in H.
        -- injection H as ->. unfold is_dquote in Ec. now rewrite Ascii.eqb_refl in Ec.
        -- injection H as _ H. destruct l; discriminate.
    + destruct l as [|x l]; cbn [append] in H; [discriminate|].
      injection H as _ H. now apply (IH l).
Qed.

(** Stripping the head of a string does not change how it ends. *)
Lemma lstrip_keeps_last (s : string) :
  endswith s (String dquote "") = false ->
  endswith (lstrip is_dquote s) (String dquote "") = false.
Proof.
  induction s as [|c s IH]; intros H; cbn [lstrip]; [reflexivity|].
  destruct (is_dquote c) eqn:E; [|exact H].
  apply IH. rewrite endswith_cons in H. apply orb_false_iff in H. apply H.
Qed.

Lemma strip_dquotes_decompose (s : string) :
  exists n m,
    s = replicate n dquote ++ strip_dquotes s ++ replicate m dquote
    /\ startswith (strip_dquotes s) (String dquote "") = false
    /\ endswith (strip_dquotes s) (String dquote "") = false.
Proof.
  destruct (rstrip_decompose s) as [m Hm].
  destruct (lstrip_decompose (rstrip is_dquote s)) as [n Hn].
  exists n, m. unfold strip_dquotes, strip. repeat split.
  - rewrite <- append_assoc, <- Hn. exact Hm.
  - apply lstrip_head.
  - apply lstrip_keeps_last, rstrip_last.
Qed.



End PyStrFacts.

(** ** Cell normalization *)

Section ConvertValues.
Import PyStr PyStrFacts.

Variable float_of_str : string -> option pyfloat.




End ConvertValues.


(** ** [connect_to_database] *)

Section Connect.
Import PyStr.

Variable env : environment.
Variable self : config.

Lemma truthy_true (s : string) : truthy s = true <-> s <> "".
Proof.
  unfold truthy. rewrite negb_true_iff. apply String.eqb_neq.
Qed.

(** C10: [connect_to_database] raises [ValueError] without asking the
    driver for a connection exactly when the configured database type is
    not [mssql]. When it is [mssql], the driver is asked once, with the
    string [conn_str], and the method returns whenever the driver does;
    that string carries [UID=] and [PWD=] with the configured values when
    both are non-empty, and [Trusted_Connection=yes;] otherwise. *)
Theorem connect_to_database_spec (s : state) :
  let base := "DRIVER={SQL Server};SERVER=" ++ dbServer self
              ++ ";DATABASE=" ++ dbName self ++ ";" in
  ((exists e, fst (connect_to_database env self s) = Raise e /\ exn_cls e = ValueError)
   /\ history (snd (connect_to_database env self s)) = history s
   <-> db_type self <> "mssql")
  /\ (db_type self = "mssql" ->
      history (snd (connect_to_database env self s))
        = (history s
           ++ [Did (PyodbcConnect (conn_str self))
                   (on_cmd env (history s) (PyodbcConnect (conn_str self)))])%list
      /\ (on_cmd env (history s) (PyodbcConnect (conn_str self)) = None ->
          fst (connect_to_database env self s) = Ok tt)
      /\ (uid self <> "" /\ pwd self <> "" ->
          conn_str self = base ++ "UID=" ++ uid self ++ ";PWD=" ++ pwd self)
      /\ (uid self = "" \/ pwd self = "" ->
          conn_str self = base ++ "Trusted_Connection=yes;")).
Proof.
  cbv zeta. unfold connect_to_database. split.
  - destruct (String.eqb (db_type self) "mssql") eqn:E.
    + apply String.eqb_eq in E. split; [|congruence].
      intros [_ H]. exfalso. unfold do_cmd in H.
      destruct (on_cmd env (history s) (PyodbcConnect (conn_str self)));
        cbn in H; apply (f_equal (@List.length event)) in H;
        rewrite length_app in H; cbn in H; lia.
    + apply String.eqb_neq in E. split; [intros _; exact E|].
      intros _. split; [|reflexivity].
      eexists. split; reflexivity.
  - intros E. apply String.eqb_eq in E. rewrite E. unfold do_cmd.
    repeat split.
    + now destruct (on_cmd env (history s) (PyodbcConnect (conn_str self))).
    + intros H. now rewrite H.
    + intros [Hu Hp]. unfold conn_str.
      apply truthy_true in Hu, Hp. now rewrite Hu, Hp.
    + intros H. unfold conn_str.
      assert (F : truthy (uid self) && truthy (pwd self) = false).
      { destruct H as [H|H]; rewrite H; cbn; [reflexivity | apply andb_false_r]. }
      now rewrite F.
Qed.

End Connect.

(** ** What the three load strategies write to *)

Section LoadTargets.
Import PyStr PyStrFacts.

Lemma no_space_cons (c : ascii) (t : string) :
  no_space (String c t) = true -> is_space c = false /\ no_space t = true.
Proof.
  unfold no_space. cbn [list_ascii_of_string existsb].
  rewrite negb_orb, andb_true_iff, negb_true_iff. tauto.
Qed.

Lemma no_space_append (a b : string) :
  no_space a = true -> no_space b = true -> no_space (a ++ b) = true.
Proof.
  intros Ha Hb. induction a as [|c a IH]; [exact Hb|].
  apply no_space_cons in Ha. destruct Ha as [Hc Ha].
  specialize (IH Ha). unfold no_space in *. cbn [append list_ascii_of_string existsb].
  rewrite Hc. exact IH.
Qed.

Lemma words_from_cons (c : ascii) (r : string) :
  words_from (String c r) =
    if is_space c
    then (EmptyString,
          match fst (words_from r) with
          | EmptyString => snd (words_from r)
          | w => w :: snd (words_from r)
          end)
    else (String c (fst (words_from r)), snd (words_from r)).
Proof. cbn [words_from]. now destruct (words_from r) as [[|d w] ws], (is_space c). Qed.

Lemma words_from_word (t r : string) :
  no_space t = true ->
  words_from (t ++ r) = (t ++ fst (words_from r), snd (words_from r)).
Proof.
  induction t as [|c t IH]; intros H.
  - cbn [append]. now destruct (words_from r).
  - apply no_space_cons in H. destruct H as [Hc Ht].
    cbn [append]. rewrite words_from_cons, Hc, (IH Ht). reflexivity.
Qed.

Lemma words_unfold (s : string) :
  words s = match fst (words_from s) with
            | EmptyString => snd (words_from s)
            | w => w :: snd (words_from s)
            end.
Proof. unfold words. now destruct (words_from s) as [[|d w] ws]. Qed.

(** Leading white space is dropped. *)
Lemma words_space (c : ascii) (r : string) :
  is_space c = true -> words (String c r) = words r.
Proof.
  intros H. rewrite !words_unfold, words_from_cons, H. reflexivity.
Qed.

(** A word up to the next white space is the first word. *)
Lemma words_word (t : string) (c : ascii) (r : string) :
  t <> "" -> no_space t = true -> is_space c = true ->
  words (t ++ String c r) = t :: words r.
Proof.
  intros Hne Ht Hc.
  rewrite words_unfold, (words_from_word _ _ Ht), words_from_cons, Hc.
  cbn [fst snd]. rewrite append_nil_r.
  destruct t; [now elim Hne|]. now rewrite words_unfold.
Qed.

Lemma view_name_differs (t : string) : t <> view_name t.
Proof.
  intros H. apply (f_equal String.length) in H.
  unfold view_name in H. rewrite length_append in H. cbn in H. lia.
Qed.

Lemma append_not_nil_r (a b : string) : b <> "" -> a ++ b <> "".
Proof. intros H. destruct a; [exact H | discriminate]. Qed.

Variable self : config.

Lemma bulk_insert_sql_words (file_path t : string) :
  t <> "" -> no_space t = true ->
  exists rest, words (bulk_insert_sql self file_path t) = "BULK" :: "INSERT" :: t :: rest.
Proof.
  intros Hne Ht. unfold bulk_insert_sql, nl.
  set (tail := "        FROM '" ++ _).
  change (String "010" "" ++ "        BULK INSERT " ++ t ++ String "010" "" ++ tail)
    with (String "010" (String " " (String " " (String " " (String " " (String " "
          (String " " (String " " (String " "
            ("BULK" ++ String " " ("INSERT" ++ String " " (t ++ String "010" tail))))))))))))%char.
  rewrite !words_space by reflexivity.
  rewrite words_word by (reflexivity || discriminate).
  rewrite words_word by (reflexivity || discriminate).
  rewrite words_word by (assumption || reflexivity).
  now eexists.
Qed.

Lemma bcp_command_words (file_path t : string) :
  no_space (dbName self) = true -> no_space t = true ->
  exists rest,
    words (bcp_command self file_path t)
      = "bcp" :: (dbName self ++ ".dbo." ++ view_name t) :: "IN" :: rest.
Proof.
  intros Hd Ht.
  assert (H : exists tail,
             bcp_command self file_path t
             = "bcp" ++ String " "%char
                 ((dbName self ++ ".dbo." ++ view_name t) ++ String " "%char
                    ("IN" ++ String " "%char tail))).
  { unfold bcp_command. cbv zeta.
    destruct (truthy (uid self)); eexists;
      rewrite !append_assoc; cbn [append]; reflexivity. }
  destruct H as [tail ->].
  rewrite words_word by (reflexivity || discriminate).
  rewrite words_word.
  - rewrite words_word by (reflexivity || discriminate). now eexists.
  - apply append_not_nil_r. discriminate.
  - unfold view_name. repeat apply no_space_append; trivial.
  - reflexivity.
Qed.

Lemma insert_query_words (t columns : string) (width : nat) :
  no_space t = true ->
  exists rest,
    words (insert_query t columns width) = "INSERT" :: "INTO" :: view_name t :: rest.
Proof.
  intros Ht. unfold insert_query.
  change ("INSERT INTO " ++ view_name t ++ " (" ++ columns ++ ") VALUES ("
          ++ join ", " (repeat "?" width) ++ ")")
    with ("INSERT" ++ String " "%char ("INTO" ++ String " "%char
            (view_name t ++ String " "%char
               ("(" ++ columns ++ ") VALUES (" ++ join ", " (repeat "?" width) ++ ")")))).
  rewrite words_word by (reflexivity || discriminate).
  rewrite words_word by (reflexivity || discriminate).
  rewrite words_word.
  - now eexists.
  - unfold view_name. apply append_not_nil_r. discriminate.
  - unfold view_name. now apply no_space_append.
  - reflexivity.
Qed.

End LoadTargets.

(** C1: on every table name that is one word, the command of [bcp_import]
    and the statement of [pandas_import] name the view [<tableName>_View]
    as the object written, while the statement of [bulkInsert_import] names
    the table itself, which is a different object. *)
Theorem load_strategies_written_objects
    (self : config) (file_path t columns : string) (width : nat) :
  t <> "" -> no_space t = true -> no_space (dbName self) = true ->
  written_object (words (bcp_command self file_path t))
    = Some (dbName self ++ ".dbo." ++ view_name t)
  /\ written_object (words (insert_query t columns width)) = Some (view_name t)
  /\ written_object (words (bulk_insert_sql self file_path t)) = Some t
  /\ t <> view_name t.
Proof.
  intros Hne Ht Hd. repeat split.
  - destruct (bcp_command_words self file_path t Hd Ht) as [rest ->]. reflexivity.
  - destruct (insert_query_words t columns width Ht) as [rest ->]. reflexivity.
  - destruct (bulk_insert_sql_words self file_path t Hne Ht) as [rest ->]. reflexivity.
  - apply view_name_differs.
Qed.

Lemma load_strategies_written_objects_witness :
  written_object (words (bulk_insert_sql demo_config "/stage/a_x.csv" "Sales")) = Some "Sales"
  /\ written_object (words (bcp_command demo_config "/stage/a_x.csv" "Sales"))
       = Some "db.dbo.Sales_View".
Proof.
  destruct (load_strategies_written_objects demo_config "/stage/a_x.csv" "Sales"
              "[id], [amount]" 2) as (Hb & _ & Hk & _);
    [discriminate | reflexivity | reflexivity |].
  split; [exact Hk | exact Hb].
Defined.

(** ** Running the methods: symbolic execution *)

Ltac exec :=
  unfold print, logging_info, logging_error;
  unfold bind, ret, raise, emit, get_flag, set_flag,
    assign, use, call_method, try_except, try_except_cls, try_except_else, try_finally,
    do_cmd, do_test, do_listing, cursor_fetchall, subprocess_run, os_walk, pd_read_csv,
    json_load;
  unfold record;
  cbn [fst snd history drop_table_if_exists locals
       existsb var_eqb orb andb negb any_exception is_pyodbc_error exn_cls exn_msg].

Ltac tidy := repeat rewrite <- app_assoc; cbn [app].

(** *** [bcp_import] *)

(** C8: whatever return code the bcp utility exits with, non-zero included,
    [bcp_import] returns without raising, and what it records after the run
    is the line [BCP import succeeded]: a non-zero exit is not reported as
    a failure. *)
Theorem bcp_import_nonzero_exit
    (env : environment) (self : config) (file_path t : string) (s : state) (rc : Z) :
  rc <> 0%Z ->
  on_run env (history s) (bcp_command self file_path t) = Ok rc ->
  bcp_import env self file_path t s
  = (Ok tt,
     mkState (history s ++ [Ran (bcp_command self file_path t) (Ok rc);
                            Printed "BCP import succeeded"])%list
             (drop_table_if_exists s) (locals s)).
Proof.
  intros _ H. unfold bcp_import. exec. rewrite H. exec. tidy. reflexivity.
Qed.

Lemma bcp_import_nonzero_exit_witness :
  run demo_config (bcp_import (exiting calm 1) demo_config "/stage/a_x.csv" "Sales")
  = (Ok tt, [Ran (bcp_command demo_config "/stage/a_x.csv" "Sales") (Ok 1%Z);
             Printed "BCP import succeeded"]).
Proof.
  unfold run.
  rewrite (bcp_import_nonzero_exit (exiting calm 1) demo_config "/stage/a_x.csv" "Sales"
             (initial demo_config) 1%Z); [reflexivity | discriminate | reflexivity].
Defined.

(** *** [download_from_sftp] *)

(** C9: when [ssh.connect] raises, the handler prints the failure, the
    [finally] block then reads [sftp], which was never bound, and the
    method ends with [UnboundLocalError]: neither [sftp.close()] nor
    [ssh.close()] is called. *)
Theorem download_from_sftp_connect_failure
    (env : environment) (self : config)
    (host port username password remote_path local_path : string)
    (s : state) (e : exn) :
  on_cmd env (history s) (SshConnect host port username password) = Some e ->
  download_from_sftp env self host port username password remote_path local_path s
  = (Raise (unbound v_sftp),
     mkState (history s ++ [Did (SshConnect host port username password) (Some e);
                            Printed ("Failed to download files: " ++ exn_msg e)])%list
             (drop_table_if_exists s) (locals s)).
Proof.
  intros H. unfold download_from_sftp. exec. rewrite H. exec. tidy. reflexivity.
Qed.

Lemma download_from_sftp_connect_failure_witness :
  run demo_config
      (download_from_sftp (failing calm is_ssh_connect (mkExn SSHException "refused"))
         demo_config "host" "22" "user" "secret" "/out" "/stage")
  = (Raise (unbound v_sftp),
     [Did (SshConnect "host" "22" "user" "secret") (Some (mkExn SSHException "refused"));
      Printed "Failed to download files: refused"]).
Proof.
  unfold run.
  rewrite (download_from_sftp_connect_failure
             (failing calm is_ssh_connect (mkExn SSHException "refused")) demo_config
             "host" "22" "user" "secret" "/out" "/stage" (initial demo_config)
             (mkExn SSHException "refused")); reflexivity.
Defined.

(** On the sample run where everything succeeds both handles are closed. *)
Example download_from_sftp_calm_closes :
  exists pre,
    snd (run demo_config
           (download_from_sftp calm demo_config "host" "22" "user" "secret" "/out" "/stage"))
    = (pre ++ [Did SftpClose None; Did SshClose None])%list.
Proof. eexists (_ :: _ :: _ :: _ :: _ :: _ :: _ :: _ :: _ :: []). vm_compute. reflexivity. Qed.

(** *** Asking the environment, and looking into explicit histories *)

(** [first_fields] reads rows and leaves the state alone. *)
Lemma first_fields_pure (rows : list (list string)) (s : state) :
  snd (first_fields rows s) = s.
Proof.
  induction rows as [|row rows IH]; [reflexivity|].
  destruct row as [|x row]; [reflexivity|].
  cbn [first_fields]. unfold bind, ret.
  destruct (first_fields rows s) as [[l|e] s'] eqn:E; cbn in *; congruence.
Qed.

Ltac ask :=
  match goal with
  | |- context [first_fields ?rows ?s] =>
      let H := fresh "H" in
      pose proof (first_fields_pure rows s) as H;
      let Eff := fresh "Eff" in
      destruct (first_fields rows s) as [[?|?] ?] eqn:Eff; cbn [snd] in H; subst
  | |- context [match on_cmd ?e ?h ?c with _ => _ end] =>
      let E := fresh "E" in destruct (on_cmd e h c) eqn:E
  | |- context [on_fetchall ?e ?h] =>
      let E := fresh "E" in destruct (on_fetchall e h) eqn:E
  | |- context [on_listing ?e ?h ?q] =>
      let E := fresh "E" in destruct (on_listing e h q) eqn:E
  | |- context [on_run ?e ?h ?q] =>
      let E := fresh "E" in destruct (on_run e h q) eqn:E
  | |- context [on_test ?e ?h ?q] =>
      let E := fresh "E" in destruct (on_test e h q) eqn:E
  end; exec.

(** Membership in an explicit list of events, decided by looking. *)
Ltac in_list :=
  cbn [In];
  repeat (first [ left; reflexivity | right ]).

(** Some event of an explicit list satisfies a boolean test. *)
Ltac in_some := (left; reflexivity) + (right; in_some).

Ltac by_cases H :=
  cbn [In] in H;
  repeat match type of H with
         | _ \/ _ => destruct H as [H|H]
         | False => destruct H
         end;
  try discriminate H.

(** *** [download_from_sftp] once the session is open *)

(** One fetched file leaves the local variables as they are and only adds
    to the history. *)
Lemma sftp_fetch_frame (env : environment) (remote_path local_path file_name : string)
    (s : state) :
  let out := sftp_fetch env remote_path local_path file_name s in
  locals (snd out) = locals s
  /\ exists seg, history (snd out) = (history s ++ seg)%list.
Proof.
  cbv zeta. unfold sftp_fetch. exec.
  destruct (on_cmd env (history s) _) eqn:E1; exec;
    [split; [reflexivity | now eexists]|].
  destruct (on_test env _ _) eqn:E2; exec.
  - destruct (on_cmd env _ (ZipExtractall _ _)) eqn:E3; exec;
      (split; [reflexivity | tidy; now eexists]).
  - split; [reflexivity | tidy; now eexists].
Qed.

Lemma sftp_fetch_all_frame (env : environment) (remote_path local_path : string)
    (files : list string) (s : state) :
  let out := for_each files (sftp_fetch env remote_path local_path) s in
  locals (snd out) = locals s
  /\ exists seg, history (snd out) = (history s ++ seg)%list.
Proof.
  cbv zeta. revert s. induction files as [|f files IH]; intros s.
  - split; [reflexivity | exists []; cbn; now rewrite app_nil_r].
  - cbn [for_each]. unfold bind.
    destruct (sftp_fetch_frame env remote_path local_path f s) as (Hl & seg & Hh).
    destruct (sftp_fetch env remote_path local_path f s) as [[[]|e] s1];
      cbn [fst snd] in *.
    + destruct (IH s1) as (Hl' & seg' & Hh'). split; [congruence|].
      exists (seg ++ seg')%list. now rewrite Hh', Hh, app_assoc.
    + split; [exact Hl | now exists seg].
Qed.

(** X10: once the session is open, the [finally] block does call
    [sftp.close()], whatever happened while listing or transferring, and
    [ssh.close()] after it when [sftp.close()] returns: they are the last
    events of the history. *)
Lemma download_from_sftp_closes_when_opened
    (env : environment) (self : config)
    (host port username password remote_path local_path : string) (s : state) :
  on_cmd env (history s) (SshConnect host port username password) = None ->
  on_cmd env (history s ++ [Did (SshConnect host port username password) None])%list
    SshOpenSftp = None ->
  let out := download_from_sftp env self host port username password
               remote_path local_path s in
  (exists r earlier,
     rev (history (snd out)) = Did SshClose r :: Did SftpClose None :: earlier)
  \/ (exists e earlier,
        rev (history (snd out)) = Did SftpClose (Some e) :: earlier
        /\ fst out = Raise e).
Proof.
  intros H1 H2. cbv zeta. unfold download_from_sftp. exec. rewrite H1. exec.
  rewrite H2. exec.
  destruct (on_listing env _ _) as [files|e] eqn:E; exec.
  - match goal with
    | |- context [for_each ?l ?b ?st] =>
        destruct (sftp_fetch_all_frame env remote_path local_path l st) as (Hl & seg & Hh);
        destruct (for_each l b st) as [[[]|e] s1]
    end; cbn [fst snd history locals] in *; exec; rewrite Hl; exec.
    all: repeat (repeat ask; rewrite ?Hl; exec).
    all: rewrite Hh; rewrite !rev_app_distr; cbn [rev app].
    all: first [ left; eexists; eexists; reflexivity
               | right; eexists; eexists; split; reflexivity ].
  - repeat ask; rewrite !rev_app_distr; cbn [rev app].
    all: first [ left; eexists; eexists; reflexivity
               | right; eexists; eexists; split; reflexivity ].
Qed.

(** *** [extract_file_if_compressed] and the head of [process_file] *)

Section ArchiveExpansion.
Import PyStr.

Variable env : environment.
Variable self : config.
Variable float_of_str : string -> option pyfloat.
Variable astype_str : list pyval -> list string.

Lemma extract_file_if_compressed_spec (file_path : string) (s : state) :
  snd (OsPath.splitext file_path) = ".zip" ->
  let dest := OsPath.join (archive_path self) (OsPath.basename file_path) in
  let move := ShutilMove file_path (archive_path self) in
  let out := extract_file_if_compressed env self file_path s in
  exists x seg,
    history (snd out)
      = (history s ++ Did (ZipExtractall file_path (OsPath.dirname file_path)) x :: seg)%list
    /\ (forall e, x = Some e -> fst out = Raise e /\ seg = [])
    /\ (forall r, In (Did move r) seg ->
          exists seg1 b,
            seg = (seg1 ++ [Did move r])%list
            /\ In (Probed (OsPathExists dest) b) seg1
            /\ (b = true -> In (Did (OsRemove dest) None) seg1)
            /\ (forall e, r = Some e -> fst out = Raise e)
            /\ (r = None -> fst out = Ok tt))
    /\ (fst out = Ok tt -> In (Did move None) seg).
Proof.
  intros Hext. cbv zeta. unfold extract_file_if_compressed. rewrite Hext.
  change (String.eqb ".zip" ".zip") with true. cbv iota. exec.
  repeat ask; tidy; eexists; eexists; (split; [reflexivity|]).
  all: split; [|split].
  all: try (intros ? H; discriminate H).
  all: try (intros H; discriminate H).
  all: try (intros ? H; injection H as <-; split; reflexivity).
  all: try (intros _; in_list; fail).
  all: intros r H; by_cases H; injection H as <-.
  all: match goal with
       | |- exists seg1 b, ?l = _ /\ _ =>
           exists (removelast l); cbn [removelast]; eexists;
           split; [reflexivity|]; split; [in_list|]
       end.
  all: repeat split; try discriminate; try congruence; try (intros _; in_list).
Qed.

Lemma extract_file_if_compressed_frame (file_path : string) (s : state) :
  drop_table_if_exists (snd (extract_file_if_compressed env self file_path s))
    = drop_table_if_exists s
  /\ locals (snd (extract_file_if_compressed env self file_path s)) = locals s.
Proof.
  unfold extract_file_if_compressed.
  destruct (String.eqb (snd (OsPath.splitext file_path)) ".zip"); exec; [|now split].
  repeat ask; now split.
Qed.

Lemma process_file_extract_raises (file_path archive tableName : string) (s : state) (e : exn) :
  endswith file_path ".zip" = true ->
  fst (extract_file_if_compressed env self file_path (before_extract file_path s)) = Raise e ->
  process_file env self float_of_str astype_str file_path archive tableName s
  = (Ok tt,
     mkState
       (history (snd (extract_file_if_compressed env self file_path
                        (before_extract file_path s)))
        ++ [LoggedError ("Error in process_file method: " ++ exn_msg e)])%list
       (drop_table_if_exists s) (locals s)).
Proof.
  intros Hzip Hraise. unfold process_file. rewrite Hzip. exec.
  destruct (extract_file_if_compressed_frame file_path (before_extract file_path s))
    as [Hflag _].
  unfold before_extract in *.
  destruct (extract_file_if_compressed env self file_path _)
    as [[[]|e'] s'] eqn:E; cbn [fst snd] in *; [discriminate|].
  injection Hraise as ->. cbn in Hflag. now rewrite Hflag.
Qed.

(** An extension is a suffix of the path. *)
Lemma substring_all (p : string) : substring 0 (String.length p) p = p.
Proof. induction p as [|c p IH]; cbn; [reflexivity | now rewrite IH]. Qed.

Lemma substring_suffix (p : string) (n : nat) :
  exists l, p = l ++ substring n (String.length p - n) p.
Proof.
  revert n. induction p as [|c p IH]; intros n.
  - exists "". now destruct n.
  - destruct n as [|n].
    + exists "". change (String.length (String c p) - 0) with (S (String.length p)).
      cbn [substring append]. now rewrite substring_all.
    + destruct (IH n) as [l Hl]. exists (String c l).
      cbn [String.length Nat.sub substring append]. now rewrite <- Hl.
Qed.

Lemma skip_leading_dots_some (fuel : nat) (p : string) (i d : Z) (r : string * string) :
  OsPath.skip_leading_dots fuel p i d = Some r -> r = (take d p, drop d p).
Proof.
  revert i. induction fuel as [|k IH]; intros i H; cbn [OsPath.skip_leading_dots] in H.
  - discriminate.
  - destruct (i <? d)%Z; [|discriminate].
    destruct (negb _); [now injection H as <- | now apply (IH (i + 1)%Z)].
Qed.

Lemma splitext_endswith (p ext : string) :
  snd (OsPath.splitext p) = ext -> endswith p ext = true.
Proof.
  intros H. apply PyStrFacts.endswith_iff. unfold OsPath.splitext in H.
  destruct (_ <? _)%Z.
  - destruct (OsPath.skip_leading_dots _ _ _ _) as [r|] eqn:E.
    + apply skip_leading_dots_some in E. subst r. cbn [snd] in H. subst ext.
      apply substring_suffix.
    + cbn [snd] in H. subst ext. exists p. now rewrite PyStrFacts.append_nil_r.
  - cbn [snd] in H. subst ext. exists p. now rewrite PyStrFacts.append_nil_r.
Qed.

(** C7, as amended: for a path whose extension is [.zip],
    [extract_file_if_compressed] first extracts into the directory of the
    file; if that raises, nothing else is done and the exception leaves
    the method. When the container is moved, the move is the last step, it
    comes after the test for a same-named file in the archive and, when
    there is one, after its removal; a move that raises leaves the method
    as an exception too. In [process_file] any exception of
    [extract_file_if_compressed], from the extraction or from the move, is
    logged by the outer handler and ends the call: the directory is not
    walked and nothing extracted is processed. *)
Theorem archive_expansion_failures (file_path archive tableName : string) (s : state) :
  snd (OsPath.splitext file_path) = ".zip" ->
  let dest := OsPath.join (archive_path self) (OsPath.basename file_path) in
  let move := ShutilMove file_path (archive_path self) in
  let out := extract_file_if_compressed env self file_path (before_extract file_path s) in
  (exists x seg,
     history (snd out)
       = (history (before_extract file_path s)
          ++ Did (ZipExtractall file_path (OsPath.dirname file_path)) x :: seg)%list
     /\ (forall e, x = Some e -> fst out = Raise e /\ seg = [])
     /\ (forall r, In (Did move r) seg ->
           exists seg1 b,
             seg = (seg1 ++ [Did move r])%list
             /\ In (Probed (OsPathExists dest) b) seg1
             /\ (b = true -> In (Did (OsRemove dest) None) seg1)
             /\ (forall e, r = Some e -> fst out = Raise e)
             /\ (r = None -> fst out = Ok tt))
     /\ (fst out = Ok tt -> In (Did move None) seg))
  /\ (forall e, fst out = Raise e ->
        process_file env self float_of_str astype_str file_path archive tableName s
        = (Ok tt,
           mkState (history (snd out)
                    ++ [LoggedError ("Error in process_file method: " ++ exn_msg e)])%list
                   (drop_table_if_exists s) (locals s))).
Proof.
  intros Hext. cbv zeta. split.
  - exact (extract_file_if_compressed_spec file_path (before_extract file_path s) Hext).
  - intros e He. apply process_file_extract_raises; [|exact He].
    now apply splitext_endswith.
Qed.

End ArchiveExpansion.

Lemma archive_expansion_failures_witness :
  process_file (failing calm (is_move_of "/stage/batch.zip") (mkExn OSError "disk full"))
    demo_config digits_float sample_astype_str "/stage/batch.zip" "/archive" "Sales"
    (initial demo_config)
  = (Ok tt,
     mkState [Printed "Processing file: /stage/batch.zip";
              Printed "Extracting file: /stage/batch.zip";
              Did (ZipExtractall "/stage/batch.zip" "/stage") None;
              LoggedInfo "Extracted /stage/batch.zip";
              Probed (OsPathExists "/archive/batch.zip") false;
              Printed "Moving /stage/batch.zip to the archive folder /archive ...";
              Did (ShutilMove "/stage/batch.zip" "/archive")
                  (Some (mkExn OSError "disk full"));
              LoggedError "Error in process_file method: disk full"]
             true []).
Proof.
  destruct (archive_expansion_failures
              (failing calm (is_move_of "/stage/batch.zip") (mkExn OSError "disk full"))
              demo_config digits_float sample_astype_str
              "/stage/batch.zip" "/archive" "Sales" (initial demo_config) eq_refl)
    as [_ H].
  rewrite (H (mkExn OSError "disk full") eq_refl). reflexivity.
Defined.

(** C7, the claim as written fails: when the move of the container into
    the archive raises after a successful extraction, [process_file] logs
    the error and stops; the directory is never walked, so the extracted
    files are not processed. *)
Lemma move_failure_stops_processing :
  let env := failing calm (is_move_of "/stage/batch.zip") (mkExn OSError "disk full") in
  let tr := snd (run demo_config
                   (process_file env demo_config digits_float sample_astype_str
                      "/stage/batch.zip" "/archive" "Sales")) in
  In (Did (ZipExtractall "/stage/batch.zip" "/stage") None) tr
  /\ In (Did (ShutilMove "/stage/batch.zip" "/archive") (Some (mkExn OSError "disk full"))) tr
  /\ existsb is_walked tr = false
  /\ last tr (Printed "") = LoggedError "Error in process_file method: disk full".
Proof. vm_compute. repeat split; auto 10. Qed.

(** *** [create_table_and_view] *)

Section CreateTableAndView.

Variable env : environment.
Variable self : config.

Ltac leaf := tidy; eexists; split; [reflexivity|].

(** The method changes neither the flag nor the caller's locals. *)
Lemma create_table_and_view_frame (columns_sql : columns_arg) (t : string) (s : state) :
  let out := create_table_and_view env self columns_sql t s in
  drop_table_if_exists (snd out) = drop_table_if_exists s
  /\ locals (snd out) = locals s.
Proof.
  cbv zeta. unfold create_table_and_view, connect_to_database.
  destruct (String.eqb (db_type self) "mssql"); [|exec; auto].
  destruct (drop_table_if_exists s) eqn:F.
  all: exec; try rewrite F; exec.
  all: repeat ask.
  all: auto.
Qed.

(** When a statement, a commit or the fetch raises, the error is logged, a
    rollback is issued, cursor and connection are closed, and, these three
    not raising, the method returns normally. *)
Lemma create_table_and_view_step_failure
    (columns_sql : columns_arg) (t : string) (s : state) :
  let out := create_table_and_view env self columns_sql t s in
  exists seg,
    history (snd out) = (history s ++ seg)%list
    /\ (existsb failed_step seg = true -> existsb failed_cleanup seg = false ->
        fst out = Ok tt
        /\ existsb is_error_log seg = true
        /\ In (Did ConnRollback None) seg
        /\ In (Did CursorClose None) seg
        /\ In (Did ConnClose None) seg).
Proof.
  cbv zeta. unfold create_table_and_view, connect_to_database.
  destruct (String.eqb (db_type self) "mssql");
    [|exec; leaf; intros H; discriminate H].
  destruct (drop_table_if_exists s) eqn:F.
  all: exec; try rewrite F; exec.
  all: repeat ask.
  all: leaf.
  all: intros H1 H2;
       cbn [existsb failed_step failed_cleanup orb] in H1, H2;
       try discriminate H1; try discriminate H2.
  all: repeat split; try reflexivity; in_list.
Qed.

End CreateTableAndView.

(** ** Actions that never raise *)

Section NeverRaises.

Lemma never_raises_ret {A} (a : A) : never_raises (ret a).
Proof. intros s. now exists a. Qed.

Lemma never_raises_emit (ev : event) : never_raises (emit ev).
Proof. intros s. now exists tt. Qed.

Lemma never_raises_set_flag (b : bool) : never_raises (set_flag b).
Proof. intros s. now exists tt. Qed.

Lemma never_raises_bind {A B} (m : M A) (k : A -> M B) :
  never_raises m -> (forall a, never_raises (k a)) -> never_raises (bind m k).
Proof.
  intros Hm Hk s. unfold bind. destruct (Hm s) as [a Ha].
  destruct (m s) as [[a'|e] s']; cbn in Ha; [|discriminate].
  apply Hk.
Qed.

Lemma never_raises_try_except {A} (body : M A) (handler : exn -> M A) :
  (forall e, never_raises (handler e)) -> never_raises (try_except body handler).
Proof.
  intros Hh s. unfold try_except.
  destruct (body s) as [[a|e] s']; [now exists a | apply Hh].
Qed.

Lemma never_raises_call_method {A} (m : M A) :
  never_raises m -> never_raises (call_method m).
Proof.
  intros Hm s. unfold call_method.
  destruct (Hm (mkState (history s) (drop_table_if_exists s) [])) as [a Ha].
  destruct (m _) as [r s']. now exists a.
Qed.

Lemma never_raises_for_each {A} (l : list A) (body : A -> M unit) :
  (forall x, never_raises (body x)) -> never_raises (for_each l body).
Proof.
  intros Hb. induction l as [|x l IH]; cbn [for_each].
  - apply never_raises_ret.
  - apply never_raises_bind; [apply Hb | intros _; exact IH].
Qed.

Variable env : environment.
Variable self : config.
Variable float_of_str : string -> option pyfloat.
Variable astype_str : list pyval -> list string.

Lemma handle_csv_never_raises (file_path t : string) :
  never_raises (handle_csv env self float_of_str astype_str file_path t).
Proof.
  unfold handle_csv. apply never_raises_call_method.
  apply never_raises_bind; [apply never_raises_emit | intros _].
  apply never_raises_try_except. intros e. apply never_raises_emit.
Qed.

Lemma process_candidate_never_raises (archive t root file : string) :
  never_raises (process_candidate env self float_of_str astype_str archive t root file).
Proof.
  unfold process_candidate.
  apply never_raises_bind; [apply never_raises_emit | intros _].
  destruct (PyStr.endswith file _).
  - apply never_raises_bind; [apply never_raises_emit | intros _].
    apply never_raises_bind.
    + apply never_raises_try_except. intros e.
      apply never_raises_bind; [apply never_raises_emit | intros _; apply never_raises_ret].
    + intros [|]; [|apply never_raises_ret].
      apply never_raises_try_except. intros e. apply never_raises_emit.
  - apply never_raises_bind; [apply never_raises_emit | intros _; apply never_raises_emit].
Qed.

Lemma process_walk_never_raises (archive t : string) (walk : list (string * list string)) :
  never_raises (process_walk env self float_of_str astype_str archive t walk).
Proof.
  unfold process_walk. apply never_raises_for_each. intros entry.
  apply never_raises_for_each. intros file. apply process_candidate_never_raises.
Qed.

Lemma process_file_never_raises (file_path archive t : string) :
  never_raises (process_file env self float_of_str astype_str file_path archive t).
Proof.
  unfold process_file. apply never_raises_call_method.
  apply never_raises_try_except. intros e. apply never_raises_emit.
Qed.

End NeverRaises.

(** ** A failed schema step does not stop the load *)

Section SchemaFailure.

Variable env : environment.
Variable self : config.
Variable float_of_str : string -> option pyfloat.
Variable astype_str : list pyval -> list string.

Lemma handle_csv_after_schema_failure (file_path t : string) (s : state) :
  file_has_header self = true -> bcp_import_bool self = true ->
  let out := handle_csv env self float_of_str astype_str file_path t s in
  exists seg,
    history (snd out) = (history s ++ seg)%list
    /\ (existsb failed_step seg = true -> existsb failed_cleanup seg = false ->
        existsb is_error_log seg = true
        /\ In (Did ConnRollback None) seg
        /\ In (Did CursorClose None) seg
        /\ In (Did ConnClose None) seg
        /\ exists r, In (Ran (bcp_command self file_path t) r) seg).
Proof.
  intros Hh Hb. cbv zeta. unfold handle_csv, bcp_import. rewrite Hh, Hb. exec.
  ask.
  - match goal with
    | |- context [create_table_and_view ?e ?c ?cols ?tn ?st] =>
        destruct (create_table_and_view_step_failure e c cols tn st) as (seg & Hseg & Hfail);
        destruct (create_table_and_view e c cols tn st) as [r s1]
    end.
    cbn [fst snd history] in Hseg, Hfail.
    destruct r as [[]|e]; exec; [ask|]; rewrite Hseg; tidy;
      (eexists; split; [reflexivity|]);
      intros H1 H2;
      cbn [existsb failed_step failed_cleanup orb] in H1, H2;
      rewrite existsb_app in H1, H2;
      cbn [existsb failed_step failed_cleanup orb] in H1, H2;
      rewrite orb_false_r in H1, H2;
      destruct (Hfail H1 H2) as (Hok & Hlog & Hrb & Hcc & Hcl);
      try discriminate Hok.
    all: repeat split.
    all: try (cbn [existsb is_error_log orb]; rewrite existsb_app, Hlog; reflexivity).
    all: try (right; right; apply in_or_app; left; assumption).
    all: eexists; right; right; apply in_or_app; right; in_list.
  - tidy. eexists. split; [reflexivity|]. intros H; discriminate H.
Qed.

(** C2, as amended: [handle_csv] never raises, and [process_file] and its
    loop over the candidates never raise either. With a header row and the
    bcp strategy configured, if a statement, a commit or the fetch of the
    create/replace sequence raises (rollback and close not raising), the
    error is logged, a rollback is issued, cursor and connection are
    closed, and [handle_csv] still runs the bcp load for that file: the
    failure reaches no caller and the run goes on. *)
Theorem schema_failure_is_swallowed (file_path archive t : string)
    (walk : list (string * list string)) (s : state) :
  file_has_header self = true -> bcp_import_bool self = true ->
  let out := handle_csv env self float_of_str astype_str file_path t s in
  fst out = Ok tt
  /\ (exists seg,
        history (snd out) = (history s ++ seg)%list
        /\ (existsb failed_step seg = true -> existsb failed_cleanup seg = false ->
            existsb is_error_log seg = true
            /\ In (Did ConnRollback None) seg
            /\ In (Did CursorClose None) seg
            /\ In (Did ConnClose None) seg
            /\ exists r, In (Ran (bcp_command self file_path t) r) seg))
  /\ fst (process_walk env self float_of_str astype_str archive t walk s) = Ok tt
  /\ fst (process_file env self float_of_str astype_str file_path archive t s) = Ok tt.
Proof.
  intros Hh Hb. cbv zeta. repeat split.
  - destruct (handle_csv_never_raises env self float_of_str astype_str file_path t s)
      as [[] H]. exact H.
  - now apply handle_csv_after_schema_failure.
  - destruct (process_walk_never_raises env self float_of_str astype_str archive t walk s)
      as [[] H]. exact H.
  - destruct (process_file_never_raises env self float_of_str astype_str file_path archive t s)
      as [[] H]. exact H.
Qed.

End SchemaFailure.

Lemma schema_failure_is_swallowed_witness :
  fst (handle_csv (failing calm is_create_table (mkExn PyodbcError "permission denied"))
         demo_config digits_float sample_astype_str "/stage/a_x.csv" "Sales"
         (initial demo_config)) = Ok tt.
Proof.
  exact (proj1 (schema_failure_is_swallowed
                  (failing calm is_create_table (mkExn PyodbcError "permission denied"))
                  demo_config digits_float sample_astype_str
                  "/stage/a_x.csv" "/archive" "Sales" [] (initial demo_config)
                  eq_refl eq_refl)).
Defined.

(** C2, the claim as written fails: with [CREATE TABLE] refused on the
    reset file, [create_table_and_view] returns normally, the table drop
    it committed before stays durable after the rollback, the bcp load of
    that file is run all the same, and the run goes on to load and archive
    the next file. *)
Lemma failed_create_table_is_not_fatal :
  let env := failing calm is_create_table (mkExn PyodbcError "permission denied") in
  let schema := run demo_config
                  (create_table_and_view env demo_config
                     (ColumnList ["[id] varchar(max)"; "[amount] varchar(max)"]) "Sales") in
  let batch := run demo_config
                 (process_file env demo_config digits_float sample_astype_str
                    "/stage/a_x.csv" "/archive" "Sales") in
  fst schema = Ok tt
  /\ durable (snd schema) = [drop_table_query "Sales"]
  /\ In (Did ConnRollback None) (snd schema)
  /\ fst batch = Ok tt
  /\ existsb (ran_with (bcp_command demo_config "/stage/a_x.csv" "Sales") 0) (snd batch) = true
  /\ existsb (moved "/stage/a_x.csv" "/archive/a_x.csv") (snd batch) = true
  /\ existsb (ran_with (bcp_command demo_config "/stage/b_x.csv" "Sales") 0) (snd batch) = true
  /\ existsb (moved "/stage/b_x.csv" "/archive/b_x.csv") (snd batch) = true.
Proof. vm_compute. repeat split; auto 10. Qed.

(** ** What an action adds to the history *)

Section Emits.

Variable J : bool -> Prop.
Variable P : event -> Prop.

Lemma emits_ret {A} (a : A) : emits J P (ret a).
Proof.
  intros s H. split; [exact H|]. exists []. now rewrite app_nil_r.
Qed.

Lemma emits_raise {A} (e : exn) : emits J P (@raise A e).
Proof.
  intros s H. split; [exact H|]. exists []. now rewrite app_nil_r.
Qed.

Lemma emits_emit (ev : event) : P ev -> emits J P (emit ev).
Proof.
  intros Hev s H. split; [exact H|]. exists [ev]. cbn. auto.
Qed.

Lemma emits_assign (x : var) : emits J P (assign x).
Proof.
  intros s H. split; [exact H|]. exists []. cbn. now rewrite app_nil_r.
Qed.

Lemma emits_use (x : var) : emits J P (use x).
Proof.
  intros s H. unfold use. destruct (existsb _ _); (split; [exact H|]);
    exists []; cbn; now rewrite app_nil_r.
Qed.

Lemma emits_set_flag (b : bool) : J b -> emits J P (set_flag b).
Proof.
  intros Hb s H. split; [exact Hb|]. exists []. cbn. now rewrite app_nil_r.
Qed.

Lemma emits_bind {A B} (m : M A) (k : A -> M B) :
  emits J P m -> (forall a, emits J P (k a)) -> emits J P (bind m k).
Proof.
  intros Hm Hk s H. unfold bind. destruct (Hm s H) as (H1 & seg1 & E1 & F1).
  destruct (m s) as [[a|e] s1]; cbn [fst snd] in *.
  - destruct (Hk a s1 H1) as (H2 & seg2 & E2 & F2). split; [exact H2|].
    exists (seg1 ++ seg2)%list. rewrite E2, E1, app_assoc. split; [reflexivity | apply Forall_app; auto].
  - split; [exact H1|]. now exists seg1.
Qed.

Lemma emits_get_flag {B} (k : bool -> M B) :
  (forall b, J b -> emits J P (k b)) -> emits J P (bind get_flag k).
Proof. intros Hk s H. unfold bind, get_flag. now apply Hk. Qed.

Lemma emits_try_except {A} (body : M A) (handler : exn -> M A) :
  emits J P body -> (forall e, emits J P (handler e)) ->
  emits J P (try_except body handler).
Proof.
  intros Hm Hk s H. unfold try_except. destruct (Hm s H) as (H1 & seg1 & E1 & F1).
  destruct (body s) as [[a|e] s1]; cbn [fst snd] in *.
  - split; [exact H1|]. now exists seg1.
  - destruct (Hk e s1 H1) as (H2 & seg2 & E2 & F2). split; [exact H2|].
    exists (seg1 ++ seg2)%list. rewrite E2, E1, app_assoc. split; [reflexivity | apply Forall_app; auto].
Qed.

Lemma emits_try_except_else {A B} (cls : exn_class -> bool) (body : M A)
    (handler : exn -> M B) (orelse : A -> M B) :
  emits J P body -> (forall e, emits J P (handler e)) ->
  (forall a, emits J P (orelse a)) ->
  emits J P (try_except_else cls body handler orelse).
Proof.
  intros Hm Hk Ho s H. unfold try_except_else.
  destruct (Hm s H) as (H1 & seg1 & E1 & F1).
  destruct (body s) as [[a|e] s1]; cbn [fst snd] in *.
  - destruct (Ho a s1 H1) as (H2 & seg2 & E2 & F2). split; [exact H2|].
    exists (seg1 ++ seg2)%list. rewrite E2, E1, app_assoc. split; [reflexivity | apply Forall_app; auto].
  - destruct (cls (exn_cls e)).
    + destruct (Hk e s1 H1) as (H2 & seg2 & E2 & F2). split; [exact H2|].
      exists (seg1 ++ seg2)%list. rewrite E2, E1, app_assoc. split; [reflexivity | apply Forall_app; auto].
    + split; [exact H1|]. now exists seg1.
Qed.

Lemma emits_try_finally {A} (body : M A) (cleanup : M unit) :
  emits J P body -> emits J P cleanup -> emits J P (try_finally body cleanup).
Proof.
  intros Hm Hc s H. unfold try_finally. destruct (Hm s H) as (H1 & seg1 & E1 & F1).
  destruct (body s) as [r s1]; cbn [fst snd] in *.
  destruct (Hc s1 H1) as (H2 & seg2 & E2 & F2).
  destruct (cleanup s1) as [[u|e] s2]; cbn [fst snd] in *;
    (split; [exact H2|]);
    exists (seg1 ++ seg2)%list; rewrite E2, E1, app_assoc; (split; [reflexivity | apply Forall_app; auto]).
Qed.

Lemma emits_call_method {A} (m : M A) : emits J P m -> emits J P (call_method m).
Proof.
  intros Hm s H. unfold call_method.
  destruct (Hm (mkState (history s) (drop_table_if_exists s) []) H) as (H1 & seg & E & F).
  destruct (m _) as [r s1]; cbn [fst snd history drop_table_if_exists] in *.
  split; [exact H1|]. now exists seg.
Qed.

Lemma emits_for_each {A} (l : list A) (body : A -> M unit) :
  (forall x, emits J P (body x)) -> emits J P (for_each l body).
Proof.
  intros Hb. induction l as [|x l IH]; cbn [for_each].
  - apply emits_ret.
  - apply emits_bind; [apply Hb | intros _; exact IH].
Qed.

Variable env : environment.

Lemma emits_do_cmd (c : cmd) :
  (forall r, P (Did c r) ) -> emits J P (do_cmd env c).
Proof.
  intros Hc s H. unfold do_cmd.
  destruct (on_cmd env (history s) c) as [e|]; (split; [exact H|]);
    eexists [_]; cbn; auto.
Qed.

Lemma emits_do_test (t : test) :
  (forall b, P (Probed t b) ) -> emits J P (do_test env t).
Proof.
  intros Hc s H. split; [exact H|]. eexists [_]. cbn. auto.
Qed.

Lemma emits_do_listing (q : listing) :
  (forall r, P (Listed q r) ) -> emits J P (do_listing env q).
Proof.
  intros Hc s H. split; [exact H|]. eexists [_]. cbn. auto.
Qed.

Lemma emits_cursor_fetchall :
  (forall r, P (Fetched r) ) -> emits J P (cursor_fetchall env).
Proof.
  intros Hc s H. split; [exact H|]. eexists [_]. cbn. auto.
Qed.

Lemma emits_subprocess_run (cmdline : string) :
  (forall r, P (Ran cmdline r) ) -> emits J P (subprocess_run env cmdline).
Proof.
  intros Hc s H. split; [exact H|]. eexists [_]. cbn. auto.
Qed.

Lemma emits_os_walk (top : string) :
  (forall r, P (Walked top r) ) -> emits J P (os_walk env top).
Proof.
  intros Hc s H. split; [exact H|]. eexists [_]. cbn. auto.
Qed.

Lemma emits_pd_read_csv (path delimiter : string) :
  (forall r, P (ReadCsv path delimiter r) ) ->
  emits J P (pd_read_csv env path delimiter).
Proof.
  intros Hc s H. split; [exact H|]. eexists [_]. cbn. auto.
Qed.

Lemma emits_json_load (path : string) :
  (forall r, P (JsonLoaded path r) ) -> emits J P (json_load env path).
Proof.
  intros Hc s H. split; [exact H|]. eexists [_]. cbn. auto.
Qed.

Lemma emits_first_fields (rows : list (list string)) : emits J P (first_fields rows).
Proof.
  intros s H. rewrite first_fields_pure. split; [exact H|].
  exists []. now rewrite app_nil_r.
Qed.

End Emits.

(** ** Create once, append thereafter *)

Lemma apply_convert_values_pure (f : string -> option pyfloat) (col : list pyval) (s : state) :
  snd (apply_convert_values f col s) = s.
Proof.
  induction col as [|v col IH]; [reflexivity|].
  cbn [apply_convert_values]. destruct (convert_values f v); [|reflexivity].
  unfold bind, ret. destruct (apply_convert_values f col s) as [[l|e] s'];
    cbn in *; congruence.
Qed.

Lemma df_apply_pure (f : string -> option pyfloat) (df : dataframe) (s : state) :
  snd (df_apply f df s) = s.
Proof.
  induction df as [|[name col] df IH]; [reflexivity|].
  cbn [df_apply]. unfold bind, ret.
  pose proof (apply_convert_values_pure f col s) as Hc.
  destruct (apply_convert_values f col s) as [[l|e] s1]; cbn in *; subst s1; [|reflexivity].
  destruct (df_apply f df s) as [[l'|e] s2]; cbn in *; congruence.
Qed.

Lemma emits_df_apply (J : bool -> Prop) (P : event -> Prop)
    (f : string -> option pyfloat) (df : dataframe) :
  emits J P (df_apply f df).
Proof.
  intros s H. rewrite df_apply_pure. split; [exact H|].
  exists []. now rewrite app_nil_r.
Qed.

Ltac emits_step :=
  lazymatch goal with
  | |- emits _ _ (bind get_flag _) =>
      apply emits_get_flag; let b := fresh "b" in intros b ->; cbv iota
  | |- emits _ _ (bind _ _) => apply emits_bind; [|intros ?]
  | |- emits _ _ (ret _) => apply emits_ret
  | |- emits _ _ (raise _) => apply emits_raise
  | |- emits _ _ (print _) => apply emits_emit; exact I
  | |- emits _ _ (logging_info _) => apply emits_emit; exact I
  | |- emits _ _ (logging_error _) => apply emits_emit; exact I
  | |- emits _ _ (assign _) => apply emits_assign
  | |- emits _ _ (use _) => apply emits_use
  | |- emits _ _ (set_flag false) => apply emits_set_flag; reflexivity
  | |- emits _ _ (call_method _) => apply emits_call_method
  | |- emits _ _ (try_except _ _) => apply emits_try_except; [|intros ?]
  | |- emits _ _ (try_except_else _ _ _ _) =>
      apply emits_try_except_else; [|intros ?|intros ?]
  | |- emits _ _ (try_finally _ _) => apply emits_try_finally
  | |- emits _ _ (for_each _ _) => apply emits_for_each; intros ?
  | |- emits _ _ (do_cmd _ _) => apply emits_do_cmd; intros ?; first [exact I | reflexivity]
  | |- emits _ _ (do_test _ _) => apply emits_do_test; intros ?; first [exact I | reflexivity]
  | |- emits _ _ (do_listing _ _) => apply emits_do_listing; intros ?; first [exact I | reflexivity]
  | |- emits _ _ (cursor_fetchall _) => apply emits_cursor_fetchall; intros ?; first [exact I | reflexivity]
  | |- emits _ _ (subprocess_run _ _) => apply emits_subprocess_run; intros ?; first [exact I | reflexivity]
  | |- emits _ _ (os_walk _ _) => apply emits_os_walk; intros ?; first [exact I | reflexivity]
  | |- emits _ _ (pd_read_csv _ _ _) => apply emits_pd_read_csv; intros ?; first [exact I | reflexivity]
  | |- emits _ _ (json_load _ _) => apply emits_json_load; intros ?; first [exact I | reflexivity]
  | |- emits _ _ (first_fields _) => apply emits_first_fields
  | |- emits _ _ (df_apply _ _) => apply emits_df_apply
  | |- emits _ _ (if ?b then _ else _) => destruct b
  | |- emits _ _ (match ?x with _ => _ end) => destruct x
  end.

(** [emits_step] for an invariant that does not look at the flag. *)
Ltac emits_any :=
  first [ apply emits_get_flag; intros [] _
        | apply emits_set_flag; exact I
        | emits_step ].

Section CreateOnce.

Variable env : environment.
Variable self : config.
Variable float_of_str : string -> option pyfloat.
Variable astype_str : list pyval -> list string.

(** With the flag false, [create_table_and_view] sends no statement and
    commits nothing. *)
Lemma create_table_and_view_skips (columns_sql : columns_arg) (t : string) :
  emits flag_down no_statement (create_table_and_view env self columns_sql t).
Proof.
  unfold create_table_and_view, connect_to_database, flag_down. cbv zeta.
  repeat emits_step.
Qed.

Lemma create_table_and_view_keeps_schema (columns_sql : columns_arg) (t : string) :
  emits flag_down no_schema_change (create_table_and_view env self columns_sql t).
Proof.
  unfold create_table_and_view, connect_to_database, flag_down. cbv zeta.
  repeat emits_step.
Qed.

Lemma bcp_import_keeps_schema (file_path t : string) :
  emits flag_down no_schema_change (bcp_import env self file_path t).
Proof. unfold bcp_import. repeat emits_step. Qed.

Lemma pandas_import_keeps_schema (file_path t : string) :
  emits flag_down no_schema_change
    (pandas_import env self float_of_str astype_str file_path t).
Proof.
  unfold pandas_import, connect_to_database. cbv zeta. repeat emits_step.
Qed.

Lemma handle_csv_keeps_schema (file_path t : string) :
  emits flag_down no_schema_change
    (handle_csv env self float_of_str astype_str file_path t).
Proof.
  unfold handle_csv. cbv zeta.
  repeat first [ apply create_table_and_view_keeps_schema
               | apply bcp_import_keeps_schema
               | apply pandas_import_keeps_schema
               | emits_step ].
Qed.

Lemma handle_json_keeps_schema (file_path t : string) :
  emits flag_down no_schema_change (handle_json env self file_path t).
Proof.
  unfold handle_json, insert_items, connect_to_database. cbv zeta.
  repeat first [ apply create_table_and_view_keeps_schema | emits_step ].
Qed.

Lemma file_type_handlers_cases (key : string) (h : string -> string -> M unit) :
  file_type_handlers env self float_of_str astype_str key = Some h ->
  h = handle_csv env self float_of_str astype_str \/ h = handle_json env self.
Proof.
  unfold file_type_handlers. intros H.
  repeat match type of H with
         | (if ?b then _ else _) = _ => destruct b
         end; inversion H; auto.
Qed.

Lemma process_candidate_keeps_schema (archive t root file : string) :
  emits flag_down no_schema_change
    (process_candidate env self float_of_str astype_str archive t root file).
Proof.
  unfold process_candidate. cbv zeta.
  destruct (file_type_handlers env self float_of_str astype_str (file_type self))
    as [h|] eqn:E.
  - destruct (file_type_handlers_cases _ _ E) as [-> | ->];
      repeat first [ apply handle_csv_keeps_schema
                   | apply handle_json_keeps_schema
                   | emits_step ].
  - repeat emits_step.
Qed.

Lemma process_walk_keeps_schema (archive t : string) (walk : list (string * list string)) :
  emits flag_down no_schema_change
    (process_walk env self float_of_str astype_str archive t walk).
Proof.
  unfold process_walk.
  repeat first [ apply process_candidate_keeps_schema | emits_step ].
Qed.

Lemma extract_file_if_compressed_keeps_schema (file_path : string) :
  emits flag_down no_schema_change (extract_file_if_compressed env self file_path).
Proof. unfold extract_file_if_compressed. cbv zeta. repeat emits_step. Qed.

Lemma process_file_keeps_schema (file_path archive t : string) :
  emits flag_down no_schema_change
    (process_file env self float_of_str astype_str file_path archive t).
Proof.
  unfold process_file. cbv zeta.
  repeat first [ apply process_walk_keeps_schema
               | apply extract_file_if_compressed_keeps_schema
               | emits_step ].
Qed.

End CreateOnce.

(** ** Batch isolation *)

Lemma first_fields_ok (rows : list (list string)) (s : state) :
  forallb (fun row => match row with [] => false | _ => true end) rows = true ->
  exists l, first_fields rows s = (Ok l, s).
Proof.
  induction rows as [|row rows IH]; intros H.
  - now exists [].
  - cbn [forallb] in H. apply andb_true_iff in H. destruct H as [Hr H].
    destruct row as [|x row]; [discriminate|].
    destruct (IH H) as [l E]. exists (x :: l).
    cbn [first_fields]. unfold bind, ret. now rewrite E.
Qed.





(** *** Calls that were committed *)


Lemma committed_here (ev : event) (b : trace) :
  commit_follows b = true -> committed ev (ev :: b).
Proof. intros H. now exists [], b. Qed.

Lemma committed_cons (ev x : event) (tr : trace) :
  committed ev tr -> committed ev (x :: tr).
Proof. intros (a & b & -> & H). now exists (x :: a), b. Qed.

Lemma committed_app_l (ev : event) (a tr : trace) :
  committed ev tr -> committed ev (a ++ tr)%list.
Proof.
  intros (a' & b & -> & H). exists (a ++ a')%list, b. now rewrite app_assoc.
Qed.


(** The INSERT statements of a loop that went through, followed by a
    commit. *)
Lemma inserts_committed (t : string) (data : records) (rest : trace)
    (item : list (string * string)) :
  In item data ->
  committed (Did (CursorExecute (json_insert_query t item)) None)
    (map (fun item => Did (CursorExecute (json_insert_query t item)) None) data
     ++ Did ConnCommit None :: rest)%list.
Proof.
  intros Hin. apply in_split in Hin. destruct Hin as (l1 & l2 & ->).
  rewrite map_app. cbn [map]. rewrite <- app_assoc. cbn [app].
  apply committed_app_l. apply committed_here.
  induction l2 as [|x l2 IH]; [reflexivity | exact IH].
Qed.

(** What was loaded in a part of a trace was loaded in the whole. *)
Section LoadedInContext.

Variable float_of_str : string -> option pyfloat.
Variable astype_str : list pyval -> list string.
Variable self : config.
Variable file_path t : string.







End LoadedInContext.

(** *** Actions that record the answers of the environment *)



Section Faithful.

Variable env : environment.
























End Faithful.


Ltac leaf := tidy; eexists; split; [reflexivity|].

Ltac ask_more :=
  match goal with
  | |- context [df_apply ?f ?df ?s] =>
      let H := fresh "H" in
      let Edf := fresh "Edf" in
      pose proof (df_apply_pure f df s) as H;
      destruct (df_apply f df s) as [[?|?] ?] eqn:Edf; cbn [snd] in H; subst
  | |- context [on_read_csv ?e ?h ?p ?d] =>
      let E := fresh "E" in destruct (on_read_csv e h p d) eqn:E
  | |- context [on_json_load ?e ?h ?p] =>
      let E := fresh "E" in destruct (on_json_load e h p) eqn:E
  end; exec.

Ltac in_some2 :=
  assumption + (left; reflexivity) + (right; in_some2)
  + (apply in_or_app; ((left; in_some2) + (right; in_some2))).

(** *** What a call does when all goes well, and about a call that raises *)

Ltac look H :=
  cbn [forallb existsb went_well raised is_error_log failure_line andb orb Z.eqb] in H;
  try discriminate H.

Ltac split_well H :=
  repeat match type of H with
         | (_ && _)%bool = true =>
             let H' := fresh "H" in
             apply andb_true_iff in H; destruct H as [H H']; try discriminate H'
         end.

Ltac rows_ok :=
  match goal with
  | Eff : first_fields ?rows ?st = (Raise _, _),
    H : forallb _ ?rows = true |- _ =>
      let El := fresh "El" in
      destruct (first_fields_ok rows st H) as [? El];
      rewrite El in Eff; discriminate Eff
  end.


Ltac split_all :=
  repeat match goal with
         | H : (_ && _)%bool = true |- _ =>
             apply andb_true_iff in H; destruct H as [? ?]
         end;
  try match goal with H : false = true |- _ => discriminate H end.

Ltac norm_well H :=
  repeat (cbn [forallb went_well andb Z.eqb] in H; rewrite ?forallb_app in H);
  split_all.

Ltac norm_raised H :=
  repeat (cbn [existsb raised orb] in H; rewrite ?existsb_app in H);
  rewrite ?orb_false_r in H.

Ltac found_by Hr :=
  apply existsb_exists in Hr;
  let x := fresh "x" in
  let Hin := fresh "Hin" in
  let Hx := fresh "Hx" in
  destruct Hr as (x & Hin & Hx);
  apply existsb_exists; exists x; split; [cbn [In]; in_some2 | exact Hx].

Ltac found_here :=
  apply existsb_exists; eexists; split; [cbn [In]; in_some2 | reflexivity].



Section Runs.

Variable env : environment.
Variable self : config.
Variable float_of_str : string -> option pyfloat.
Variable astype_str : list pyval -> list string.

Lemma create_table_and_view_run (columns_sql : columns_arg) (t : string) (s : state) :
  let out := create_table_and_view env self columns_sql t s in
  exists seg,
    history (snd out) = (history s ++ seg)%list
    /\ (db_type self = "mssql" -> forallb (went_well float_of_str) seg = true ->
        fst out = Ok tt)
    /\ (existsb raised seg = true ->
        existsb is_error_log seg = true \/ exists e, fst out = Raise e).
Proof.
  cbv zeta. unfold create_table_and_view, connect_to_database.
  destruct (String.eqb (db_type self) "mssql") eqn:Hdb.
  2: { exec. leaf. split; [intros Hm; rewrite Hm in Hdb; discriminate Hdb|].
       intros H; discriminate H. }
  destruct (drop_table_if_exists s) eqn:F.
  all: exec; try rewrite F; exec.
  all: repeat ask.
  all: leaf.
  all: split; [intros _ H | intros H]; look H; try reflexivity.
  all: try (left; reflexivity).
  all: try (right; eexists; reflexivity).
  all: split_well H; rows_ok.
Qed.


Ltac call_ctv :=
  match goal with
  | |- context [create_table_and_view ?e ?c ?cols ?tn ?st] =>
      let seg := fresh "seg" in
      let Hseg := fresh "Hseg" in
      let Hok := fresh "Hok" in
      let Hrep := fresh "Hrep" in
      let Hfl := fresh "Hfl" in
      let Hloc := fresh "Hloc" in
      let r := fresh "r" in
      let s1 := fresh "s" in
      destruct (create_table_and_view_run cols tn st) as (seg & Hseg & Hok & Hrep);
      destruct (create_table_and_view_frame e c cols tn st) as (Hfl & Hloc);
      destruct (create_table_and_view e c cols tn st) as [r s1];
      cbn [fst snd history locals drop_table_if_exists] in Hseg, Hok, Hrep, Hfl, Hloc;
      destruct r as [[]|?]; exec; rewrite ?Hloc; exec
  end.


(** In a run that went well: the parts went well, so they returned and
    did their work. *)
Ltac use_parts Hm :=
  repeat match goal with
         | Hk : db_type _ = "mssql" -> _ |- _ => specialize (Hk Hm)
         end;
  repeat match goal with
         | Hp : forallb (went_well _) ?sg = true,
           Hk : forallb (went_well _) ?sg = true -> _ |- _ => specialize (Hk Hp)
         end;
  try match goal with Hk : Raise _ = Ok tt |- _ => discriminate Hk end;
  try match goal with Hk : Raise _ = Ok tt /\ _ |- _ => destruct Hk as [Hk _]; discriminate Hk end;
  repeat match goal with Hk : Ok tt = Ok tt /\ _ |- _ => destruct Hk as [_ Hk] end;
  repeat match goal with
         | Hz : (_ =? 0)%Z = true |- _ => apply Z.eqb_eq in Hz; subst
         end.

Ltac settle_found Hf :=
  lazymatch type of Hf with
  | exists _, _ => let Hbad := fresh "Hbad" in destruct Hf as [? Hbad]; discriminate Hbad
  | _ => first [ found_by Hf | left; found_by Hf | right; found_by Hf ]
  end.

Ltac settle_raised H :=
  norm_raised H;
  repeat match goal with
         | Hor : (_ || _)%bool = true |- _ =>
             apply orb_true_iff in Hor; destruct Hor
         end;
  match goal with
  | Hr : existsb raised ?sg = true,
    Hk : existsb raised ?sg = true -> exists _, _ |- _ =>
      let Hbad := fresh "Hbad" in
      destruct (Hk Hr) as [? Hbad]; discriminate Hbad
  | Hr : existsb raised ?sg = true,
    Hk : existsb raised ?sg = true -> _ \/ _ |- _ =>
      let Hf := fresh "Hf" in
      destruct (Hk Hr) as [Hf|Hf]; settle_found Hf
  end.


Lemma file_type_handlers_inv (key : string) (h : string -> string -> M unit) :
  file_type_handlers env self float_of_str astype_str key = Some h ->
  ((key = "csv" \/ key = "txt") /\ h = handle_csv env self float_of_str astype_str)
  \/ (key = "json" /\ h = handle_json env self).
Proof.
  unfold file_type_handlers. intros H.
  destruct (String.eqb key "txt") eqn:E1;
    [apply String.eqb_eq in E1; inversion H; auto|].
  destruct (String.eqb key "csv") eqn:E2;
    [apply String.eqb_eq in E2; inversion H; auto|].
  destruct (String.eqb key "json") eqn:E; [|discriminate].
  apply String.eqb_eq in E. inversion H. auto.
Qed.




Lemma insert_items_run (t : string) (data : records) (s : state) :
  let out := insert_items env t data s in
  exists seg,
    history (snd out) = (history s ++ seg)%list
    /\ locals (snd out) = locals s
    /\ (forallb (went_well float_of_str) seg = true ->
        fst out = Ok tt
        /\ seg = map (fun item => Did (CursorExecute (json_insert_query t item)) None) data)
    /\ (existsb raised seg = true -> exists e, fst out = Raise e).
Proof.
  cbv zeta. unfold insert_items. revert s. induction data as [|item data IH]; intros s.
  - exists []. cbn. rewrite app_nil_r. repeat split; auto. discriminate.
  - cbn [for_each]. unfold bind.
    destruct (do_cmd env (CursorExecute (json_insert_query t item)) s) as [r s0] eqn:E.
    unfold do_cmd in E.
    destruct (on_cmd env (history s) _) as [e|]; injection E as <- <-.
    + eexists [_]. split; [reflexivity|]. split; [reflexivity|].
      split; [intros H; discriminate H | intros _; now eexists].
    + match goal with
      | |- context [for_each data ?b ?st] =>
          destruct (IH st) as (seg & Hseg & Hloc & Hok & Hr);
          destruct (for_each data b st) as [r s1]
      end.
      unfold record in *. cbn [fst snd history locals] in *. rewrite Hseg. leaf.
      split; [exact Hloc|].
      split; intros H; cbn [forallb existsb went_well raised andb orb] in H; auto.
      destruct (Hok H) as [Hr' ->]. split; [exact Hr' | reflexivity].
Qed.

Ltac call_insert_items :=
  match goal with
  | |- context [insert_items ?e ?tn ?data ?st] =>
      let seg := fresh "seg" in
      let Hseg := fresh "Hseg" in
      let Hok := fresh "Hok" in
      let Hrep := fresh "Hrep" in
      let Hloc := fresh "Hloc" in
      let r := fresh "r" in
      let s1 := fresh "s" in
      destruct (insert_items_run tn data st) as (seg & Hseg & Hloc & Hok & Hrep);
      destruct (insert_items e tn data st) as [r s1];
      cbn [fst snd history locals] in Hseg, Hok, Hrep, Hloc;
      destruct r as [[]|?]; exec; rewrite ?Hloc; exec
  end.

Ltac early_leaf :=
  repeat ask; leaf;
  (split; [intros Hm H; look H | intros H]);
  first [right; eexists; reflexivity | left; found_here].

Lemma handle_json_run (file_path t : string) (s : state) :
  let out := handle_json env self file_path t s in
  exists seg,
    history (snd out) = (history s ++ seg)%list
    /\ (db_type self = "mssql" -> forallb (went_well float_of_str) seg = true ->
        fst out = Ok tt /\ records_loaded file_path t seg)
    /\ (existsb raised seg = true ->
        existsb is_error_log seg = true \/ exists e, fst out = Raise e).
Proof.
  cbv zeta. unfold handle_json, connect_to_database.
  destruct (String.eqb (db_type self) "mssql") eqn:Hdb; exec.
  2: { leaf. split; [intros Hm; rewrite Hm in Hdb; discriminate Hdb|].
       intros H; discriminate H. }
  do 2 (ask; [early_leaf|]).
  ask_more; [|early_leaf].
  match goal with
  | |- context [match ?d with [] => _ | _ :: _ => _ end] =>
      destruct d as [|first rest]
  end; exec; [early_leaf|].
  call_ctv.
  all: try call_insert_items.
  all: rewrite ?Hloc; exec.
  all: repeat (repeat ask; rewrite ?Hloc0, ?Hloc; exec).
  all: rewrite ?Hseg0; rewrite ?Hseg; leaf.
  all: split; [intros Hm H; norm_well H; use_parts Hm | intros H].
  all: try (right; eexists; reflexivity).
  all: try (left; found_here; fail).
  all: try (left; settle_raised H; fail).
  split; [reflexivity|].
  match goal with Hk : _ = map _ _ |- _ => rewrite Hk end.
  exists (first :: rest). split; [cbn [In]; in_some2|].
  intros item Hi.
  repeat first [ apply inserts_committed; exact Hi
               | apply committed_cons
               | apply committed_app_l ].
Qed.




End Runs.

Section FaithfulLoader.

Variable env : environment.
Variable self : config.
Variable float_of_str : string -> option pyfloat.
Variable astype_str : list pyval -> list string.




End FaithfulLoader.


Lemma calm_on_is_calm (listing : list (string * list string)) (h0 : trace) :
  calm_from digits_float (calm_on listing) h0.
Proof.
  intros h' ev H. destruct ev; cbn in H; subst; try reflexivity.
  destruct q; reflexivity.
Qed.



Section Loops.

Lemma for_each_app {A} (l1 l2 : list A) (body : A -> M unit) (s : state) :
  for_each (l1 ++ l2) body s = bind (for_each l1 body) (fun _ => for_each l2 body) s.
Proof.
  revert s. induction l1 as [|x l1 IH]; intros s.
  - reflexivity.
  - cbn [app for_each]. unfold bind.
    destruct (body x s) as [[[]|e] s1]; [|reflexivity].
    rewrite IH. reflexivity.
Qed.

Lemma for_each_map {A B} (f : A -> B) (l : list A) (body : B -> M unit) (s : state) :
  for_each (map f l) body s = for_each l (fun x => body (f x)) s.
Proof.
  revert s. induction l as [|x l IH]; intros s; [reflexivity|].
  cbn [map for_each]. unfold bind. destruct (body (f x) s) as [[[]|e] s1];
    [apply IH | reflexivity].
Qed.


Variable env : environment.
Variable self : config.
Variable float_of_str : string -> option pyfloat.
Variable astype_str : list pyval -> list string.

(** The two nested loops of [process_file] are one loop over the
    candidates. *)
Lemma process_walk_candidates (archive t : string) (walk : list (string * list string))
    (s : state) :
  process_walk env self float_of_str astype_str archive t walk s
  = for_each (candidates walk)
      (fun c => process_candidate env self float_of_str astype_str archive t (fst c) (snd c))
      s.
Proof.
  unfold process_walk. revert s. induction walk as [|[root files] walk IH]; intros s.
  - reflexivity.
  - cbn [for_each candidates flat_map fst snd]. rewrite for_each_app.
    unfold bind. rewrite for_each_map. cbn [fst snd].
    destruct (for_each files _ s) as [[[]|e] s1]; [apply IH | reflexivity].
Qed.


End Loops.



(** Three candidates, the utility cannot be started for the second: the
    first and the third are loaded and archived, the failure of the second
    is on the console and not in the log, and the second is archived as
    well. *)
Example three_files_second_fails :
  let env := unrunnable (calm_on [("/stage", ["a_x.csv"; "b_x.csv"; "c_x.csv"])])
               (bcp_command demo_config "/stage/b_x.csv" "Sales")
               (mkExn OSError "bcp: not found") in
  let tr := snd (run demo_config
                   (process_file env demo_config digits_float sample_astype_str
                      "/stage/a_x.csv" "/archive" "Sales")) in
  existsb (ran_with (bcp_command demo_config "/stage/a_x.csv" "Sales") 0) tr = true
  /\ existsb (moved "/stage/a_x.csv" "/archive/a_x.csv") tr = true
  /\ existsb (ran_with (bcp_command demo_config "/stage/b_x.csv" "Sales") 0) tr = false
  /\ existsb failure_line tr = true
  /\ existsb is_error_log tr = false
  /\ existsb (moved "/stage/b_x.csv" "/archive/b_x.csv") tr = true
  /\ existsb (ran_with (bcp_command demo_config "/stage/c_x.csv" "Sales") 0) tr = true
  /\ existsb (moved "/stage/c_x.csv" "/archive/c_x.csv") tr = true.
Proof. vm_compute. repeat split. Qed.

(** ** One round of schema statements in a run *)

Lemma schema_statements_app (a b : trace) :
  schema_statements (a ++ b)%list = (schema_statements a ++ schema_statements b)%list.
Proof.
  induction a as [|ev a IH]; [reflexivity|].
  destruct ev as [| | |c r| | | | | | |]; cbn [app schema_statements]; try exact IH.
  destruct c; try exact IH.
  destruct (is_ddl sql); cbn [app]; now rewrite IH.
Qed.

Lemma no_schema_statements (seg : trace) :
  Forall no_schema_change seg -> schema_statements seg = [].
Proof.
  induction 1 as [|ev seg H _ IH]; [reflexivity|].
  destruct ev as [| | |c r| | | | | | |]; cbn [schema_statements]; try exact IH.
  destruct c; try exact IH.
  cbn [no_schema_change] in H. now rewrite H.
Qed.

Lemma one_round_nil (t : string) : one_round t [].
Proof. exists [], [], 0. reflexivity. Qed.

Lemma is_ddl_drop_table (t : string) : is_ddl (drop_table_query t) = true.
Proof. reflexivity. Qed.

Lemma is_ddl_create_table (t : string) (columns : list string) :
  is_ddl (create_table_query t columns) = true.
Proof. reflexivity. Qed.

Lemma is_ddl_drop_view (t : string) : is_ddl (drop_view_query t) = true.
Proof. reflexivity. Qed.

Lemma is_ddl_create_view (t : string) (names : list string) :
  is_ddl (create_view_query t names) = true.
Proof. reflexivity. Qed.

Lemma is_ddl_table_columns (t : string) : is_ddl (table_columns_query t) = false.
Proof. reflexivity. Qed.

(** The rules that carry [sends_one_round] through the control structures:
    one part of the action may send a round, the others send no schema
    statement. *)
Section OneRoundRules.

Variable t : string.

Lemma sends_one_round_quiet {A} (m : M A) : emits any_flag no_schema_change m -> sends_one_round t m.
Proof.
  intros Hm s. destruct (Hm s I) as (_ & seg & E & F).
  exists seg. split; [exact E|]. rewrite (no_schema_statements seg F). apply one_round_nil.
Qed.

Lemma sends_one_round_bind_l {A B} (m : M A) (k : A -> M B) :
  emits any_flag no_schema_change m -> (forall a, sends_one_round t (k a)) -> sends_one_round t (bind m k).
Proof.
  intros Hm Hk s. unfold bind. destruct (Hm s I) as (_ & seg1 & E1 & F1).
  destruct (m s) as [[a|e] s1]; cbn [fst snd] in *.
  - destruct (Hk a s1) as (seg2 & E2 & R2). exists (seg1 ++ seg2)%list.
    rewrite E2, E1, app_assoc. split; [reflexivity|].
    now rewrite schema_statements_app, (no_schema_statements seg1 F1).
  - exists seg1. split; [exact E1|].
    rewrite (no_schema_statements seg1 F1). apply one_round_nil.
Qed.

Lemma sends_one_round_bind_r {A B} (m : M A) (k : A -> M B) :
  sends_one_round t m -> (forall a, emits any_flag no_schema_change (k a)) -> sends_one_round t (bind m k).
Proof.
  intros Hm Hk s. unfold bind. destruct (Hm s) as (seg1 & E1 & R1).
  destruct (m s) as [[a|e] s1]; cbn [fst snd] in *.
  - destruct (Hk a s1 I) as (_ & seg2 & E2 & F2). exists (seg1 ++ seg2)%list.
    rewrite E2, E1, app_assoc. split; [reflexivity|].
    now rewrite schema_statements_app, (no_schema_statements seg2 F2), app_nil_r.
  - now exists seg1.
Qed.

Lemma sends_one_round_try_except {A} (body : M A) (handler : exn -> M A) :
  sends_one_round t body -> (forall e, emits any_flag no_schema_change (handler e)) ->
  sends_one_round t (try_except body handler).
Proof.
  intros Hm Hk s. unfold try_except. destruct (Hm s) as (seg1 & E1 & R1).
  destruct (body s) as [[a|e] s1]; cbn [fst snd] in *.
  - now exists seg1.
  - destruct (Hk e s1 I) as (_ & seg2 & E2 & F2). exists (seg1 ++ seg2)%list.
    rewrite E2, E1, app_assoc. split; [reflexivity|].
    now rewrite schema_statements_app, (no_schema_statements seg2 F2), app_nil_r.
Qed.

Lemma sends_one_round_try_finally {A} (body : M A) (cleanup : M unit) :
  sends_one_round t body -> emits any_flag no_schema_change cleanup -> sends_one_round t (try_finally body cleanup).
Proof.
  intros Hm Hc s. unfold try_finally. destruct (Hm s) as (seg1 & E1 & R1).
  destruct (body s) as [r s1]; cbn [fst snd] in *.
  destruct (Hc s1 I) as (_ & seg2 & E2 & F2).
  destruct (cleanup s1) as [[u|e] s2]; cbn [fst snd] in *;
    exists (seg1 ++ seg2)%list; rewrite E2, E1, app_assoc; (split; [reflexivity|]);
    now rewrite schema_statements_app, (no_schema_statements seg2 F2), app_nil_r.
Qed.

Lemma sends_one_round_call_method {A} (m : M A) :
  sends_one_round t m -> sends_one_round t (call_method m).
Proof.
  intros Hm s. unfold call_method.
  destruct (Hm (mkState (history s) (drop_table_if_exists s) [])) as (seg & E & R).
  destruct (m _) as [r s1]; cbn [fst snd history] in *. now exists seg.
Qed.

End OneRoundRules.

Ltac quiet_steps := cbv zeta; repeat emits_any.

Section OneRound.
Import PyStr.

Variable env : environment.
Variable self : config.
Variable float_of_str : string -> option pyfloat.
Variable astype_str : list pyval -> list string.

(** A call of [create_table_and_view] sends an initial part of its four
    statements, in their order. *)
Lemma create_table_and_view_one_round (columns_sql : columns_arg) (t : string) :
  sends_one_round t (create_table_and_view env self columns_sql t).
Proof.
  intros s. unfold create_table_and_view, connect_to_database.
  destruct (String.eqb (db_type self) "mssql");
    [|exec; tidy; eexists; split; [reflexivity | apply one_round_nil]].
  destruct (drop_table_if_exists s) eqn:F.
  all: exec; try rewrite F; exec.
  all: repeat ask.
  all: tidy; eexists; (split; [reflexivity|]).
  all: cbn [schema_statements].
  all: try apply one_round_nil.
  all: rewrite ?is_ddl_drop_table, ?is_ddl_create_table, ?is_ddl_drop_view,
         ?is_ddl_create_view, ?is_ddl_table_columns.
  all: unfold one_round.
  all: first [ exists [], [], 0; reflexivity
             | exists [], [], 1; reflexivity
             | eexists _, [], 2; reflexivity
             | eexists _, [], 3; reflexivity
             | eexists _, _, 4; reflexivity ].
Qed.

Lemma bcp_import_no_schema (file_path t : string) :
  emits any_flag no_schema_change (bcp_import env self file_path t).
Proof. unfold bcp_import. quiet_steps. Qed.

Lemma pandas_import_no_schema (file_path t : string) :
  emits any_flag no_schema_change
    (pandas_import env self float_of_str astype_str file_path t).
Proof. unfold pandas_import, connect_to_database. quiet_steps. Qed.

Lemma insert_items_no_schema (t : string) (data : records) :
  emits any_flag no_schema_change (insert_items env t data).
Proof. unfold insert_items. quiet_steps. Qed.

Lemma handle_csv_one_round (file_path t : string) :
  sends_one_round t (handle_csv env self float_of_str astype_str file_path t).
Proof.
  unfold handle_csv. cbv zeta.
  apply sends_one_round_call_method.
  apply sends_one_round_bind_l; [quiet_steps | intros _].
  apply sends_one_round_try_except; [|intros e; quiet_steps].
  apply sends_one_round_bind_r.
  - destruct (file_has_header self).
    + apply sends_one_round_bind_l; [quiet_steps | intros columns].
      apply create_table_and_view_one_round.
    + apply sends_one_round_quiet. quiet_steps.
  - intros _. apply emits_bind; [quiet_steps | intros _].
    apply emits_try_except; [|intros e; quiet_steps].
    destruct (bcp_import_bool self); [apply bcp_import_no_schema|].
    destruct (pandas_import_bool self); [apply pandas_import_no_schema | quiet_steps].
Qed.

Lemma handle_json_one_round (file_path t : string) :
  sends_one_round t (handle_json env self file_path t).
Proof.
  unfold handle_json, connect_to_database. cbv zeta.
  apply sends_one_round_call_method.
  apply sends_one_round_try_finally; [|quiet_steps].
  apply sends_one_round_try_except; [|intros e; quiet_steps].
  do 5 (apply sends_one_round_bind_l; [quiet_steps | intros ?]).
  match goal with |- sends_one_round _ (match ?d with _ => _ end) => destruct d end.
  - apply sends_one_round_quiet. quiet_steps.
  - apply sends_one_round_bind_r; [apply create_table_and_view_one_round | intros _].
    apply emits_bind; [apply insert_items_no_schema | intros _]. quiet_steps.
Qed.

Lemma handle_csv_keeps_flag (b : bool) (file_path t : string) :
  emits (flag_is b) any_event (handle_csv env self float_of_str astype_str file_path t).
Proof.
  unfold handle_csv, create_table_and_view, bcp_import, pandas_import, connect_to_database.
  cbv zeta. repeat emits_any.
Qed.

Lemma handle_json_keeps_flag (b : bool) (file_path t : string) :
  emits (flag_is b) any_event (handle_json env self file_path t).
Proof.
  unfold handle_json, insert_items, create_table_and_view, connect_to_database.
  cbv zeta. repeat emits_any.
Qed.

Section Cleanup.

Hypothesis Hclean : cleanup_never_raises env.

Ltac calm_cleanup :=
  exec;
  repeat (first [ rewrite (proj1 (Hclean _))
                | rewrite (proj1 (proj2 (Hclean _)))
                | rewrite (proj2 (proj2 (Hclean _))) ];
          exec).

Ltac whole_ctv :=
  match goal with
  | |- context [create_table_and_view ?e ?c ?cols ?tn ?st] =>
      let Hfl := fresh "Hfl" in
      let Hloc := fresh "Hloc" in
      let r := fresh "r" in
      let s1 := fresh "s" in
      destruct (create_table_and_view_frame e c cols tn st) as (Hfl & Hloc);
      destruct (create_table_and_view e c cols tn st) as [r s1];
      cbn [fst snd history locals drop_table_if_exists] in Hfl, Hloc;
      destruct r as [[]|?]; exec; rewrite ?Hloc; exec
  end.

Ltac whole_insert_items :=
  match goal with
  | |- context [insert_items ?e ?tn ?data ?st] =>
      let seg := fresh "seg" in
      let Hseg := fresh "Hseg" in
      let Hloc := fresh "Hloc" in
      let r := fresh "r" in
      let s1 := fresh "s" in
      destruct (insert_items_run e float_of_str tn data st) as (seg & Hseg & Hloc & _ & _);
      destruct (insert_items e tn data st) as [r s1];
      cbn [fst snd history locals] in Hseg, Hloc;
      destruct r as [[]|?]; exec; rewrite ?Hloc; exec
  end.

(** When no rollback and no close raises, [handle_json] raises only for a
    connection or a cursor it could not open, and so before it has sent any
    statement. *)
Lemma handle_json_raises_before_schema (file_path t : string) (s : state) :
  let out := handle_json env self file_path t s in
  fst out = Ok tt
  \/ exists seg,
       history (snd out) = (history s ++ seg)%list /\ schema_statements seg = [].
Proof.
  cbv zeta. unfold handle_json, connect_to_database.
  destruct (String.eqb (db_type self) "mssql"); exec.
  2: { right. tidy. eexists. split; reflexivity. }
  do 2 (ask; calm_cleanup; [right; tidy; eexists; split; reflexivity|]).
  left.
  ask_more; calm_cleanup; [|reflexivity].
  match goal with
  | |- context [match ?d with [] => _ | _ :: _ => _ end] =>
      destruct d as [|first rest]
  end; exec; calm_cleanup; [reflexivity|].
  whole_ctv.
  all: try whole_insert_items.
  all: repeat (calm_cleanup; try ask; rewrite ?Hloc0, ?Hloc; exec).
  all: reflexivity.
Qed.

End Cleanup.

(** One candidate: either it lowers the flag and sends at most one round,
    or it leaves the flag as it was and sends no schema statement. *)
Lemma process_candidate_round (archive t root file : string) (s : state) :
  (file_type self = "json" -> cleanup_never_raises env) ->
  let out := process_candidate env self float_of_str astype_str archive t root file s in
  exists seg,
    history (snd out) = (history s ++ seg)%list
    /\ ((drop_table_if_exists (snd out) = false /\ one_round t (schema_statements seg))
        \/ (drop_table_if_exists (snd out) = drop_table_if_exists s
            /\ schema_statements seg = [])).
Proof.
  intros Hclean. cbv zeta. unfold process_candidate.
  destruct (endswith file _); exec.
  2: { tidy. eexists. split; [reflexivity|]. right. split; reflexivity. }
  destruct (file_type_handlers env self float_of_str astype_str (file_type self))
    as [h|] eqn:Eh; exec.
  2: { tidy. eexists. split; [reflexivity|]. right. split; reflexivity. }
  match goal with
  | |- context [h ?p ?tn ?st] =>
      assert (Hone : exists seg, history (snd (h p tn st)) = (history st ++ seg)%list
                                 /\ one_round tn (schema_statements seg));
      [|assert (Hflag : drop_table_if_exists (snd (h p tn st)) = drop_table_if_exists st);
        [|assert (Hret : fst (h p tn st) = Ok tt
                         \/ exists seg, history (snd (h p tn st)) = (history st ++ seg)%list
                                        /\ schema_statements seg = []);
          [|destruct Hone as (seg & Hseg & Hone);
            destruct (h p tn st) as [r s1];
            cbn [fst snd history drop_table_if_exists] in Hseg, Hflag, Hret]]]
  end.
  - destruct (file_type_handlers_inv _ _ _ _ _ _ Eh) as [[_ ->] | [_ ->]];
      [apply handle_csv_one_round | apply handle_json_one_round].
  - destruct (file_type_handlers_inv _ _ _ _ _ _ Eh) as [[_ ->] | [_ ->]].
    + exact (proj1 (handle_csv_keeps_flag _ _ _ _ eq_refl)).
    + exact (proj1 (handle_json_keeps_flag _ _ _ _ eq_refl)).
  - destruct (file_type_handlers_inv _ _ _ _ _ _ Eh) as [[_ ->] | [Hj ->]].
    + left. match goal with
            | |- fst (handle_csv ?e ?c ?f ?a ?p ?tn ?st) = _ =>
                destruct (handle_csv_never_raises e c f a p tn st) as [[] H]; exact H
            end.
    + apply handle_json_raises_before_schema. exact (Hclean Hj).
  - destruct r as [[]|e]; exec.
    + ask.
      all: rewrite Hseg; tidy; eexists; (split; [reflexivity|]).
      all: left; split; [reflexivity|].
      all: cbn [schema_statements]; rewrite schema_statements_app;
           cbn [schema_statements]; rewrite app_nil_r; exact Hone.
    + rewrite Hseg. tidy. eexists. split; [reflexivity|].
      right. split; [exact Hflag|].
      destruct Hret as [Hret | (seg' & Hseg' & Hnone)]; [discriminate Hret|].
      rewrite Hseg in Hseg'. apply app_inv_head in Hseg'. subst seg'.
      cbn [schema_statements]. rewrite schema_statements_app, Hnone. reflexivity.
Qed.

(** The loop over the candidates sends at most one round. *)
Lemma candidates_one_round (archive t : string) (cs : list (string * string)) :
  (file_type self = "json" -> cleanup_never_raises env) ->
  sends_one_round t
    (for_each cs (fun c => process_candidate env self float_of_str astype_str archive t
                             (fst c) (snd c))).
Proof.
  intros Hclean. induction cs as [|c cs IH]; intros s.
  - exists []. cbn. rewrite app_nil_r. split; [reflexivity | apply one_round_nil].
  - cbn [for_each]. unfold bind.
    destruct (process_candidate_round archive t (fst c) (snd c) s Hclean)
      as (seg1 & E1 & Hc).
    destruct (process_candidate_never_raises env self float_of_str astype_str archive t
                (fst c) (snd c) s) as [[] Hret].
    destruct (process_candidate env self float_of_str astype_str archive t (fst c) (snd c) s)
      as [r s1].
    cbn [fst snd] in *. subst r.
    destruct Hc as [[Hdown Hone] | [_ Hnone]].
    + assert (Hrest : emits flag_down no_schema_change
                        (for_each cs (fun c => process_candidate env self float_of_str
                                                 astype_str archive t (fst c) (snd c)))).
      { apply emits_for_each. intros x. apply process_candidate_keeps_schema. }
      destruct (Hrest s1 Hdown) as (_ & seg2 & E2 & F2).
      exists (seg1 ++ seg2)%list. rewrite E2, E1, app_assoc. split; [reflexivity|].
      now rewrite schema_statements_app, (no_schema_statements seg2 F2), app_nil_r.
    + destruct (IH s1) as (seg2 & E2 & Hone).
      exists (seg1 ++ seg2)%list. rewrite E2, E1, app_assoc. split; [reflexivity|].
      now rewrite schema_statements_app, Hnone.
Qed.

Lemma process_walk_one_round (archive t : string) (walk : list (string * list string)) :
  (file_type self = "json" -> cleanup_never_raises env) ->
  sends_one_round t (process_walk env self float_of_str astype_str archive t walk).
Proof.
  intros Hclean s. rewrite process_walk_candidates.
  now apply candidates_one_round.
Qed.

Lemma process_file_one_round (file_path archive t : string) :
  (file_type self = "json" -> cleanup_never_raises env) ->
  sends_one_round t (process_file env self float_of_str astype_str file_path archive t).
Proof.
  intros Hclean. unfold process_file. cbv zeta.
  apply sends_one_round_call_method.
  apply sends_one_round_try_except; [|intros e; quiet_steps].
  apply sends_one_round_bind_l; [quiet_steps | intros _].
  apply sends_one_round_bind_l.
  { destruct (endswith file_path ".zip"); [|quiet_steps].
    apply emits_bind; [quiet_steps | intros _].
    unfold extract_file_if_compressed. quiet_steps. }
  intros _.
  apply sends_one_round_bind_l; [quiet_steps | intros _].
  apply sends_one_round_bind_l; [quiet_steps | intros walk].
  now apply process_walk_one_round.
Qed.

End OneRound.

(** ** Create once, append thereafter: the whole run *)

Section ResetFlag.
Import PyStr.

Variable env : environment.
Variable self : config.
Variable float_of_str : string -> option pyfloat.
Variable astype_str : list pyval -> list string.

(** The four statements of [create_table_and_view] are the schema
    statements [no_schema_change] excludes. *)
Lemma schema_statements_are_ddl (t : string) (columns : list string) :
  is_ddl (drop_table_query t) = true
  /\ is_ddl (create_table_query t columns) = true
  /\ is_ddl (drop_view_query t) = true
  /\ is_ddl (create_view_query t columns) = true.
Proof. repeat split. Qed.

Lemma process_candidate_lowers_flag
    (archive t root file : string) (h : string -> string -> M unit) (s : state) :
  endswith file (file_suffix self ++ "." ++ file_type self) = true ->
  file_type_handlers env self float_of_str astype_str (file_type self) = Some h ->
  fst (h (OsPath.join root file) t (before_handler self root file s)) = Ok tt ->
  drop_table_if_exists
    (snd (process_candidate env self float_of_str astype_str archive t root file s))
  = false.
Proof.
  intros Hm Hh Hok. unfold process_candidate. rewrite Hm, Hh. exec.
  unfold before_handler in Hok.
  destruct (h (OsPath.join root file) t _) as [[[]|e] s1]; cbn [fst] in Hok;
    [|discriminate].
  exec. ask; reflexivity.
Qed.

Lemma process_candidate_lowers_flag_delimited
    (archive t root file : string) (s : state) :
  endswith file (file_suffix self ++ "." ++ file_type self) = true ->
  file_type self = "csv" \/ file_type self = "txt" ->
  drop_table_if_exists
    (snd (process_candidate env self float_of_str astype_str archive t root file s))
  = false.
Proof.
  intros Hm Ht.
  apply (process_candidate_lowers_flag archive t root file
           (handle_csv env self float_of_str astype_str)); [exact Hm| |].
  - unfold file_type_handlers. destruct Ht as [-> | ->]; reflexivity.
  - destruct (handle_csv_never_raises env self float_of_str astype_str
                (OsPath.join root file) t (before_handler self root file s)) as [[] H].
    exact H.
Qed.

(** The flag after a candidate: lowered when the handler returned, left as
    it was when the handler raised. *)
Lemma process_candidate_flag
    (archive t root file : string) (h : string -> string -> M unit) (s : state) :
  endswith file (file_suffix self ++ "." ++ file_type self) = true ->
  file_type_handlers env self float_of_str astype_str (file_type self) = Some h ->
  let out := h (OsPath.join root file) t (before_handler self root file s) in
  let s' := snd (process_candidate env self float_of_str astype_str archive t root file s) in
  (fst out = Ok tt -> drop_table_if_exists s' = false)
  /\ (forall e, fst out = Raise e -> drop_table_if_exists s' = drop_table_if_exists s).
Proof.
  intros Hm Hh. cbv zeta. unfold process_candidate. rewrite Hm, Hh. exec.
  unfold before_handler.
  match goal with
  | |- context [h ?p ?tn ?st] =>
      assert (Hflag : drop_table_if_exists (snd (h p tn st)) = drop_table_if_exists st);
      [|destruct (h p tn st) as [[[]|e] s1]; cbn [fst snd drop_table_if_exists] in *]
  end.
  - destruct (file_type_handlers_inv _ _ _ _ _ _ Hh) as [[_ ->] | [_ ->]].
    + exact (proj1 (handle_csv_keeps_flag _ _ _ _ _ _ _ _ eq_refl)).
    + exact (proj1 (handle_json_keeps_flag _ _ _ _ _ _ eq_refl)).
  - split; [intros _ | intros e H; discriminate H]. exec. ask; reflexivity.
  - split; [intros H; discriminate H | intros e' _]. exec. exact Hflag.
Qed.

(** C3: with the flag false, a call of [create_table_and_view] sends no
    statement and commits nothing, and with any flag it sends at most one
    round of its four statements. A candidate lowers the flag when its
    handler returns and leaves the flag as it was when its handler raises;
    the handler of delimited files always returns. From a false flag, the
    loop over the candidates and any later call of [process_file] keep the
    flag false and send no statement that drops or creates a table or a
    view. So a run of [process_file] over delimited files sends at most
    one round of schema statements, and a run over JSON files does when no
    rollback and no close raises. *)
Theorem create_once_append_thereafter :
  (forall columns_sql t,
     emits flag_down no_statement (create_table_and_view env self columns_sql t))
  /\ (forall columns_sql t,
        sends_one_round t (create_table_and_view env self columns_sql t))
  /\ (forall archive t root file h s,
        endswith file (file_suffix self ++ "." ++ file_type self) = true ->
        file_type_handlers env self float_of_str astype_str (file_type self) = Some h ->
        let out := h (OsPath.join root file) t (before_handler self root file s) in
        let s' := snd (process_candidate env self float_of_str astype_str
                         archive t root file s) in
        (fst out = Ok tt -> drop_table_if_exists s' = false)
        /\ (forall e, fst out = Raise e ->
            drop_table_if_exists s' = drop_table_if_exists s))
  /\ (forall archive t root file s,
        endswith file (file_suffix self ++ "." ++ file_type self) = true ->
        file_type self = "csv" \/ file_type self = "txt" ->
        drop_table_if_exists
          (snd (process_candidate env self float_of_str astype_str archive t root file s))
        = false)
  /\ (forall archive t walk,
        emits flag_down no_schema_change
          (process_walk env self float_of_str astype_str archive t walk))
  /\ (forall file_path archive t,
        emits flag_down no_schema_change
          (process_file env self float_of_str astype_str file_path archive t))
  /\ ((file_type self = "json" -> cleanup_never_raises env) ->
      forall file_path archive t,
        sends_one_round t
          (process_file env self float_of_str astype_str file_path archive t))
  /\ (forall t columns,
        is_ddl (drop_table_query t) = true
        /\ is_ddl (create_table_query t columns) = true
        /\ is_ddl (drop_view_query t) = true
        /\ is_ddl (create_view_query t columns) = true).
Proof.
  repeat apply conj.
  - apply create_table_and_view_skips.
  - apply create_table_and_view_one_round.
  - apply process_candidate_flag.
  - apply process_candidate_lowers_flag_delimited.
  - apply process_walk_keeps_schema.
  - apply process_file_keeps_schema.
  - intros Hclean file_path archive t. now apply process_file_one_round.
  - apply schema_statements_are_ddl.
Qed.

End ResetFlag.

Lemma create_once_append_thereafter_witness :
  one_round "Sales"
    (schema_statements
       (snd (run demo_config
               (process_file (calm_on [("/stage", ["a_x.csv"; "b_x.csv"; "c_x.csv"])])
                  demo_config digits_float sample_astype_str
                  "/stage/a_x.csv" "/archive" "Sales"))))
  /\ one_round "Sales"
       (schema_statements
          (snd (run demo_json_config
                  (process_file (calm_on [("/stage", ["a_x.json"; "b_x.json"])])
                     demo_json_config digits_float sample_astype_str
                     "/stage/a_x.json" "/archive" "Sales")))).
Proof.
  split.
  - destruct (create_once_append_thereafter
                (calm_on [("/stage", ["a_x.csv"; "b_x.csv"; "c_x.csv"])])
                demo_config digits_float sample_astype_str)
      as (_ & _ & _ & _ & _ & _ & Hrun & _).
    destruct (Hrun (fun H => match Bool.diff_false_true
                                     (f_equal (String.eqb "json") H) with end)
                "/stage/a_x.csv" "/archive" "Sales" (initial demo_config))
      as (seg & Hseg & Hone).
    unfold run.
    destruct (process_file _ _ _ _ _ _ _ (initial demo_config)) as [r s1].
    cbn [fst snd] in *. rewrite Hseg. exact Hone.
  - destruct (create_once_append_thereafter
                (calm_on [("/stage", ["a_x.json"; "b_x.json"])])
                demo_json_config digits_float sample_astype_str)
      as (_ & _ & _ & _ & _ & _ & Hrun & _).
    destruct (Hrun (fun _ h => conj eq_refl (conj eq_refl eq_refl))
                "/stage/a_x.json" "/archive" "Sales" (initial demo_json_config))
      as (seg & Hseg & Hone).
    unfold run.
    destruct (process_file _ _ _ _ _ _ _ (initial demo_json_config)) as [r s1].
    cbn [fst snd] in *. rewrite Hseg. exact Hone.
Defined.

(** Two JSON files; for the first, the [conn.close()] of [handle_json]
    raises after its rows were committed. The handler raises, so the flag
    stays up, and the second file drops and creates the table and the view
    again: two rounds of schema statements in one run. *)
Lemma json_close_failure_recreates_schema :
  let env := failing_close (calm_on [("/stage", ["a_x.json"; "b_x.json"])]) 1
               (mkExn PyodbcError "connection is busy") in
  let first := process_candidate env demo_json_config digits_float sample_astype_str
                 "/archive" "Sales" "/stage" "a_x.json" (initial demo_json_config) in
  let out := run demo_json_config
               (process_file env demo_json_config digits_float sample_astype_str
                  "/stage/a_x.json" "/archive" "Sales") in
  let round := [drop_table_query "Sales";
                create_table_query "Sales" ["[id] NVARCHAR(MAX)"; "[amount] NVARCHAR(MAX)"];
                drop_view_query "Sales";
                create_view_query "Sales" ["[id]"; "[amount]"]] in
  drop_table_if_exists (snd first) = true
  /\ fst out = Ok tt
  /\ schema_statements (snd out) = (round ++ round)%list
  /\ List.length (filter schema_change (snd out)) = 8
  /\ ~ one_round "Sales" (schema_statements (snd out)).
Proof.
  cbv zeta. repeat apply conj; try (vm_compute; reflexivity).
  intros (columns & names & k & H).
  apply (f_equal (@List.length string)) in H.
  rewrite length_firstn in H. cbn [List.length] in H.
  pose proof (Nat.le_min_r k 4) as Hk. rewrite <- H in Hk.
  vm_compute in Hk. lia.
Qed.

(** ** The fetch filters *)

Section FetchFilters.
Import PyStr.

Variable env : environment.
Variable self : config.

Lemma emits_for_each_in (J : bool -> Prop) (P : event -> Prop) {A}
    (l : list A) (body : A -> M unit) :
  (forall x, In x l -> emits J P (body x)) -> emits J P (for_each l body).
Proof.
  induction l as [|x l IH]; intros Hb; cbn [for_each].
  - apply emits_ret.
  - apply emits_bind; [apply Hb; now left | intros _].
    apply IH. intros y Hy. apply Hb. now right.
Qed.

(** The SFTP filter is the disjunction of the claim. *)
Lemma sftp_selected_iff (f : string) :
  sftp_selected self f = true
  <-> startswith f (file_prefix self) = true
      \/ exists ext, In ext (extensionList self)
                     /\ endswith f (file_suffix self ++ "." ++ ext) = true.
Proof.
  unfold sftp_selected. rewrite orb_true_iff, existsb_exists. reflexivity.
Qed.

Lemma download_from_sftp_fetches_selected
    (host port username password remote_path local_path : string) :
  emits any_flag (sftp_fetch_selected self remote_path local_path)
    (download_from_sftp env self host port username password remote_path local_path).
Proof.
  unfold download_from_sftp. cbv zeta.
  apply emits_call_method. apply emits_bind; [apply emits_assign | intros _].
  apply emits_try_finally; [|repeat emits_step].
  apply emits_try_except; [|intros e; repeat emits_step].
  do 3 (apply emits_bind; [repeat emits_step | intros ?]).
  apply emits_bind; [repeat emits_step | intros files].
  apply emits_for_each_in. intros f Hf. apply filter_In in Hf. destruct Hf as [_ Hf].
  unfold sftp_fetch. cbv zeta. apply emits_bind.
  - apply emits_do_cmd. intros r. exists f. auto.
  - intros _. repeat emits_step.
Qed.

Lemma download_from_s3_fetches_selected (s3_bucket s3_folder destination_folder : string) :
  emits any_flag (s3_fetch_selected self s3_folder destination_folder)
    (download_from_s3 env self s3_bucket s3_folder destination_folder).
Proof.
  unfold download_from_s3. cbv zeta.
  apply emits_call_method. apply emits_bind; [repeat emits_step | intros keys].
  apply emits_for_each. intros f.
  destruct (startswith f (file_prefix self)) eqn:Hp; [|apply emits_ret].
  destruct (contains _ (file_extensions self)) eqn:He; [|apply emits_ret].
  apply emits_bind; [|intros _; repeat emits_step].
  apply emits_do_cmd. intros r. exists f. unfold s3_selected. rewrite Hp, He. auto.
Qed.

End FetchFilters.

(** C6: the SFTP fetch downloads only names that start with the prefix or
    end with the suffix, a dot and one of the configured extensions, and
    the object-store fetch downloads only names that pass its test; but
    that test asks whether the extension occurs in the configured string,
    not whether it is one of the configured extensions: with the prefix
    [sales] and the extensions [csv,zip], the object [sales_notes], which
    has no extension, is downloaded. *)
Theorem fetch_filters :
  (forall self f,
     sftp_selected self f = true
     <-> PyStr.startswith f (file_prefix self) = true
         \/ exists ext, In ext (extensionList self)
                        /\ PyStr.endswith f (file_suffix self ++ "." ++ ext) = true)
  /\ (forall env self host port username password remote_path local_path,
        emits any_flag (sftp_fetch_selected self remote_path local_path)
          (download_from_sftp env self host port username password remote_path local_path))
  /\ (forall env self s3_bucket s3_folder destination_folder,
        emits any_flag (s3_fetch_selected self s3_folder destination_folder)
          (download_from_s3 env self s3_bucket s3_folder destination_folder))
  /\ s3_selected demo_config "sales_notes" = true
  /\ spec_s3_selected demo_config "sales_notes" = false
  /\ extensionList demo_config = ["csv"; "zip"]
  /\ In (Did (S3DownloadFile "bucket" "in/sales_notes" "/stage/sales_notes") None)
        (snd (run demo_config (download_from_s3 calm demo_config "bucket" "in/" "/stage"))).
Proof.
  repeat apply conj.
  - apply sftp_selected_iff.
  - apply download_from_sftp_fetches_selected.
  - apply download_from_s3_fetches_selected.
  - reflexivity.
  - reflexivity.
  - reflexivity.
  - vm_compute. auto 10.
Qed.

(** A batch of three delimited files on the sample run: the four schema
    statements are sent once, all of them before the first load. *)
Example three_files_one_schema :
  let env := calm_on [("/stage", ["a_x.csv"; "b_x.csv"; "c_x.csv"])] in
  let tr := snd (run demo_config
                   (process_file env demo_config digits_float sample_astype_str
                      "/stage/a_x.csv" "/archive" "Sales")) in
  map (fun ev => match ev with Did (CursorExecute sql) _ => sql | _ => "" end)
      (filter schema_change tr)
  = [drop_table_query "Sales";
     create_table_query "Sales" ["[id] varchar(max)"; "[amount] varchar(max)"];
     drop_view_query "Sales";
     create_view_query "Sales" ["[id]"; "[amount]"]]
  /\ List.length (filter (fun ev => match ev with Ran _ _ => true | _ => false end) tr) = 3.
Proof. vm_compute. split; reflexivity. Qed.

(** ** Normalizing a cell twice *)

Section ConvertTwice.
Import PyStr PyStrFacts.
Variable float_of_str : string -> option pyfloat.

Lemma lstrip_fixed (s : string) :
  startswith s (String dquote "") = false -> lstrip is_dquote s = s.
Proof.
  destruct s as [|c r]; [reflexivity|]. intros H. cbn [lstrip].
  destruct (is_dquote c) eqn:E; [|reflexivity].
  apply is_dquote_true in E. subst c.
  assert (T : startswith (String dquote r) (String dquote "") = true).
  { apply startswith_iff. now exists r. }
  congruence.
Qed.

Lemma rstrip_fixed (s : string) :
  endswith s (String dquote "") = false -> rstrip is_dquote s = s.
Proof.
  induction s as [|c r IH]; [reflexivity|]. intros H.
  rewrite endswith_cons in H. apply orb_false_iff in H. destruct H as [H1 H2].
  cbn [rstrip]. rewrite (IH H2).
  destruct r as [|d r']; [|reflexivity].
  destruct (is_dquote c) eqn:E; [|reflexivity].
  apply is_dquote_true in E. subst c. now rewrite String.eqb_refl in H1.
Qed.

Lemma strip_dquotes_fixed (s : string) :
  strip_dquotes (strip_dquotes s) = strip_dquotes s.
Proof.
  destruct (strip_dquotes_decompose s) as (n & m & _ & Hh & Hl).
  unfold strip_dquotes at 1. unfold strip.
  rewrite (rstrip_fixed _ Hl). now apply lstrip_fixed.
Qed.

(** X1: [convert_values] is idempotent: a value it returns is returned
    unchanged when it is normalized again, so a second pass over a frame
    changes nothing. *)
Theorem convert_values_idempotent (v v' : pyval) :
  convert_values float_of_str v = Ok v' ->
  convert_values float_of_str v' = Ok v'.
Proof.
  destruct v as [s|z|x|]; try (intros H; injection H as <-; reflexivity).
  unfold convert_values at 1. cbv zeta.
  destruct (startswith (strip_dquotes s) "(" && endswith (strip_dquotes s) ")") eqn:W.
  - destruct (float_of_str _); intros H; [injection H as <-; reflexivity | discriminate].
  - destruct (String.eqb (strip_dquotes s) "-") eqn:E1;
      [intros H; injection H as <-; reflexivity|].
    destruct (String.eqb (strip_dquotes s) "<NA>") eqn:E2;
      [intros H; injection H as <-; reflexivity|].
    intros H. injection H as <-.
    unfold convert_values. cbv zeta. rewrite strip_dquotes_fixed, W, E1, E2. reflexivity.
Qed.

End ConvertTwice.

Lemma convert_values_idempotent_witness :
  let q := String PyStr.dquote "" in
  convert_values digits_float (PStr (q ++ "abc" ++ q)) = Ok (PStr "abc")
  /\ convert_values digits_float (PStr "abc") = Ok (PStr "abc").
Proof.
  cbv zeta. split; [reflexivity|].
  apply (convert_values_idempotent digits_float
           (PStr (String PyStr.dquote "" ++ "abc" ++ String PyStr.dquote ""))).
  reflexivity.
Defined.

(** ** When the database cannot be reached *)

Section Unreachable.

Variable env : environment.
Variable self : config.
Variable float_of_str : string -> option pyfloat.
Variable astype_str : list pyval -> list string.

(** [connect_to_database] looks at the history only. *)
Lemma connect_to_database_history (s : state) (l : list var) (b : bool) :
  connect_to_database env self (mkState (history s) b l)
  = (fst (connect_to_database env self s),
     mkState (history (snd (connect_to_database env self s))) b l).
Proof.
  unfold connect_to_database. destruct (String.eqb _ _); exec; [|reflexivity].
  destruct (on_cmd _ _ _); reflexivity.
Qed.

Lemma create_table_and_view_without_connection
    (columns_sql : columns_arg) (t : string) (s : state) (e : exn) :
  fst (connect_to_database env self s) = Raise e ->
  create_table_and_view env self columns_sql t s
  = (Raise (unbound v_cursor),
     mkState (history (snd (connect_to_database env self s))
              ++ [LoggedError ("An error occurred while creating or verifying the table "
                               ++ t ++ ": " ++ exn_msg e)])%list
             (drop_table_if_exists s) (locals s)).
Proof.
  intros H. unfold create_table_and_view. unfold call_method at 1.
  unfold try_finally, try_except. unfold bind at 1. unfold call_method.
  cbn [history drop_table_if_exists locals].
  rewrite connect_to_database_history. rewrite H. exec. reflexivity.
Qed.

(** X2: when the connection cannot be opened, [create_table_and_view] and
    [handle_json] log the error of the connection and then end with
    [UnboundLocalError] for [cursor]: the handler reads [conn] and the
    [finally] block reads [cursor], neither of which was bound, so no
    rollback and no close is called and the caller sees the wrong error. *)
Theorem connection_failure_masked
    (columns_sql : columns_arg) (t file_path : string) (s : state) (e : exn) :
  fst (connect_to_database env self s) = Raise e ->
  let h := history (snd (connect_to_database env self s)) in
  create_table_and_view env self columns_sql t s
  = (Raise (unbound v_cursor),
     mkState (h ++ [LoggedError ("An error occurred while creating or verifying the table "
                               ++ t ++ ": " ++ exn_msg e)])%list
             (drop_table_if_exists s) (locals s))
  /\ handle_json env self file_path t s
  = (Raise (unbound v_cursor),
     mkState (h ++ [LoggedError ("Error processing file " ++ file_path ++ ": "
                                 ++ exn_msg e)])%list
             (drop_table_if_exists s) (locals s)).
Proof.
  intros H. cbv zeta. split.
  - now apply create_table_and_view_without_connection.
  - unfold handle_json. unfold call_method at 1.
    unfold try_finally, try_except. unfold bind at 1. unfold call_method at 1.
    cbn [history drop_table_if_exists locals].
    rewrite connect_to_database_history. rewrite H. exec. reflexivity.
Qed.

(** X3: if [pandas_import] never gets its cursor (the file cannot be read,
    a cell is not a number, the connection or [conn.cursor()] fails), it
    prints its failure line and then raises [UnboundLocalError] from the
    [finally] block; no statement has been sent. *)
Theorem pandas_import_needs_cursor (file_path t : string) (s : state) (seg : trace) :
  let out := pandas_import env self float_of_str astype_str file_path t s in
  history (snd out) = (history s ++ seg)%list ->
  existsb cursor_created seg = false ->
  fst out = Raise (unbound v_cursor)
  /\ existsb pandas_failure_line seg = true
  /\ existsb statement_sent seg = false.
Proof.
  cbv zeta. unfold pandas_import, connect_to_database. exec.
  ask_more; [ask_more|].
  all: destruct (String.eqb (db_type self) "mssql"); exec.
  all: repeat ask.
  all: tidy; intros Hseg; apply app_inv_head in Hseg; subst seg.
  all: intros Hc; try discriminate Hc.
  all: repeat split; try reflexivity.
  all: apply existsb_exists; eexists;
    (split; [cbn [In]; in_some
            | cbn [pandas_failure_line]; apply PyStrFacts.prefix_append]).
Qed.

(** X4: a delimited file with a header row, when the connection cannot be
    opened: [handle_csv] logs the failure of [create_table_and_view] and
    returns without calling any load strategy. *)
Theorem handle_csv_skips_load_when_unreachable
    (file_path t : string) (columns : list string) (s : state) (e : exn) :
  file_has_header self = true ->
  on_listing env (history s ++ [Printed ("Processing CSV file: " ++ file_path)])%list
    (CsvFirstRow file_path (field_delimiter self)) = Ok columns ->
  fst (connect_to_database env self (after_header self file_path columns s)) = Raise e ->
  handle_csv env self float_of_str astype_str file_path t s
  = (Ok tt,
     mkState (history (snd (connect_to_database env self
                              (after_header self file_path columns s)))
              ++ [LoggedError ("An error occurred while creating or verifying the table "
                               ++ t ++ ": " ++ exn_msg e);
                  LoggedError ("Error processing CSV file " ++ file_path ++ ": "
                               ++ exn_msg (unbound v_cursor))])%list
             (drop_table_if_exists s) (locals s)).
Proof.
  intros Hh Hl Hc. unfold handle_csv. rewrite Hh. cbv zeta.
  unfold call_method at 1. unfold bind at 1. unfold print at 1. unfold emit at 1.
  unfold record at 1. cbn [history drop_table_if_exists locals].
  unfold try_except at 1. unfold bind at 1. unfold bind at 1. unfold bind at 1.
  unfold do_listing at 1. cbn [history]. rewrite Hl. unfold record at 1.
  cbn [history drop_table_if_exists locals].
  fold (after_header self file_path columns s).
  rewrite (create_table_and_view_without_connection _ _ _ e Hc).
  exec. tidy. reflexivity.
Qed.

End Unreachable.

Lemma connection_failure_masked_witness :
  let env := failing calm is_pyodbc_connect (mkExn PyodbcError "login timeout") in
  fst (create_table_and_view env demo_config (ColumnList ["[id] varchar(max)"]) "Sales"
         (initial demo_config)) = Raise (unbound v_cursor)
  /\ fst (handle_json env demo_config "/stage/a_x.json" "Sales" (initial demo_config))
     = Raise (unbound v_cursor).
Proof.
  cbv zeta.
  destruct (connection_failure_masked
              (failing calm is_pyodbc_connect (mkExn PyodbcError "login timeout"))
              demo_config (ColumnList ["[id] varchar(max)"]) "Sales" "/stage/a_x.json"
              (initial demo_config) (mkExn PyodbcError "login timeout"))
    as [-> ->]; [reflexivity|].
  split; reflexivity.
Defined.

Lemma pandas_import_needs_cursor_witness :
  let env := failing calm is_pyodbc_connect (mkExn PyodbcError "login timeout") in
  fst (pandas_import env demo_config digits_float sample_astype_str "/stage/a_x.csv" "Sales"
         (initial demo_config)) = Raise (unbound v_cursor).
Proof.
  cbv zeta.
  apply (pandas_import_needs_cursor
           (failing calm is_pyodbc_connect (mkExn PyodbcError "login timeout"))
           demo_config digits_float sample_astype_str "/stage/a_x.csv" "Sales"
           (initial demo_config)
           [ReadCsv "/stage/a_x.csv" ","
              (Ok [("id", [PInt 1; PInt 2]); ("amount", [PStr "(5)"; PStr "-"])]);
            Did (PyodbcConnect (conn_str demo_config))
                (Some (mkExn PyodbcError "login timeout"));
            Printed "Pandas import failed: login timeout"]);
    reflexivity.
Defined.

Lemma handle_csv_skips_load_when_unreachable_witness :
  let env := failing calm is_pyodbc_connect (mkExn PyodbcError "login timeout") in
  existsb statement_sent
    (history (snd (handle_csv env demo_config digits_float sample_astype_str
                     "/stage/a_x.csv" "Sales" (initial demo_config)))) = false.
Proof.
  cbv zeta.
  rewrite (handle_csv_skips_load_when_unreachable
             (failing calm is_pyodbc_connect (mkExn PyodbcError "login timeout"))
             demo_config digits_float sample_astype_str "/stage/a_x.csv" "Sales"
             ["id"; "amount"] (initial demo_config) (mkExn PyodbcError "login timeout"));
    reflexivity.
Defined.

(** ** Files that are archived without having been loaded *)

Section Archived.

Variable env : environment.
Variable self : config.
Variable float_of_str : string -> option pyfloat.
Variable astype_str : list pyval -> list string.

Lemma handle_csv_extends (file_path t : string) :
  emits any_flag any_event (handle_csv env self float_of_str astype_str file_path t).
Proof.
  unfold handle_csv, create_table_and_view, bcp_import, pandas_import, connect_to_database.
  cbv zeta. repeat emits_any.
Qed.

(** X5: a delimited file with the configured suffix is always handed to
    [shutil.move] and the reset flag is always lowered, whatever happened to
    its load: [handle_csv] never raises, so [process_file] takes every such
    file as processed. *)
Theorem delimited_file_always_archived (archive t root file : string) (s : state) :
  PyStr.endswith file (file_suffix self ++ "." ++ file_type self) = true ->
  file_type self = "csv" \/ file_type self = "txt" ->
  let out := process_candidate env self float_of_str astype_str archive t root file s in
  fst out = Ok tt
  /\ drop_table_if_exists (snd out) = false
  /\ exists seg r,
       history (snd out) = (history s ++ seg)%list
       /\ In (Did (ShutilMove (OsPath.join root file) (OsPath.join archive file)) r) seg.
Proof.
  intros Hm Ht. cbv zeta. unfold process_candidate. rewrite Hm.
  assert (Hh : file_type_handlers env self float_of_str astype_str (file_type self)
               = Some (handle_csv env self float_of_str astype_str)).
  { unfold file_type_handlers. destruct Ht as [-> | ->]; reflexivity. }
  rewrite Hh. exec.
  match goal with
  | |- context [handle_csv ?e ?c ?f ?a ?p ?tn ?st] =>
      destruct (handle_csv_never_raises e c f a p tn st) as [[] Hret];
      destruct (handle_csv_extends p tn st I) as (_ & seg & Hseg & _);
      destruct (handle_csv e c f a p tn st) as [r s1];
      cbn [fst snd history] in Hseg, Hret; subst r; exec
  end.
  ask.
  all: rewrite Hseg; split; [reflexivity|]; split; [reflexivity|].
  all: tidy; eexists; eexists; (split; [reflexivity|]).
  all: cbn [In]; in_some2.
Qed.

End Archived.

Lemma delimited_file_always_archived_witness :
  let env := failing calm is_pyodbc_connect (mkExn PyodbcError "login timeout") in
  let out := process_candidate env demo_config digits_float sample_astype_str
               "/archive" "Sales" "/stage" "a_x.csv" (initial demo_config) in
  fst out = Ok tt /\ drop_table_if_exists (snd out) = false
  /\ existsb statement_sent (history (snd out)) = false.
Proof.
  cbv zeta.
  destruct (delimited_file_always_archived
              (failing calm is_pyodbc_connect (mkExn PyodbcError "login timeout"))
              demo_config digits_float sample_astype_str
              "/archive" "Sales" "/stage" "a_x.csv" (initial demo_config))
    as (H1 & H2 & _); [reflexivity | left; reflexivity |].
  split; [exact H1|]. split; [exact H2 | reflexivity].
Defined.

(** ** Files that are left alone *)

Section Rejected.

Variable env : environment.
Variable self : config.
Variable float_of_str : string -> option pyfloat.
Variable astype_str : list pyval -> list string.

Lemma no_handler :
  file_type self <> "txt" -> file_type self <> "csv" -> file_type self <> "json" ->
  file_type_handlers env self float_of_str astype_str (file_type self) = None.
Proof.
  intros H1 H2 H3. unfold file_type_handlers.
  apply String.eqb_neq in H1, H2, H3. now rewrite H1, H2, H3.
Qed.

Lemma process_candidate_rejects (b0 : bool) (archive t root file : string) :
  file_type self <> "txt" -> file_type self <> "csv" -> file_type self <> "json" ->
  emits (flag_is b0) only_messages
    (process_candidate env self float_of_str astype_str archive t root file).
Proof.
  intros H1 H2 H3. unfold process_candidate. rewrite (no_handler H1 H2 H3). cbv zeta.
  unfold print, logging_info, logging_error.
  repeat first [ apply emits_emit; reflexivity | emits_step ].
Qed.

(** X6: with a [file_type] that has no handler (anything but [txt], [csv]
    and [json]), the loop of [process_file] returns without a single call
    to the outside: each file that matches the suffix costs one [KeyError]
    in the log, nothing is loaded or moved, and the reset flag stays as it
    was. *)
Theorem unsupported_file_type_touches_nothing
    (archive t : string) (walk : list (string * list string)) (s : state) :
  file_type self <> "txt" -> file_type self <> "csv" -> file_type self <> "json" ->
  let out := process_walk env self float_of_str astype_str archive t walk s in
  fst out = Ok tt
  /\ drop_table_if_exists (snd out) = drop_table_if_exists s
  /\ exists seg,
       history (snd out) = (history s ++ seg)%list /\ forallb is_message seg = true.
Proof.
  intros H1 H2 H3. cbv zeta.
  destruct (process_walk_never_raises env self float_of_str astype_str archive t walk s)
    as [[] Hret].
  split; [exact Hret|].
  assert (He : emits (flag_is (drop_table_if_exists s)) only_messages
                 (process_walk env self float_of_str astype_str archive t walk)).
  { unfold process_walk.
    repeat first [ apply (process_candidate_rejects _ _ _ _ _ H1 H2 H3) | emits_step ]. }
  destruct (He s eq_refl) as (Hf & seg & Hseg & Hall).
  split; [exact Hf|]. exists seg. split; [exact Hseg|].
  apply forallb_forall. intros ev Hin.
  rewrite Forall_forall in Hall. exact (Hall ev Hin).
Qed.

End Rejected.

Lemma unsupported_file_type_touches_nothing_witness :
  let self := mkConfig "mssql" "srv" "db" "" "" true "," "sales" "_x" "xml" "xml" true
                       "/archive" "2" "1000" "\n" true false false in
  snd (run self (process_walk calm self digits_float sample_astype_str "/archive" "Sales"
                   [("/stage", ["a_x.xml"; "readme.txt"])]))
  = [Printed "Processing file: a_x.xml";
     Printed "Valid file found: /stage/a_x.xml";
     LoggedError "Error processing file /stage/a_x.xml: 'xml'";
     Printed "Processing file: readme.txt";
     Printed "Invalid file found: readme.txt";
     Printed "Expected file suffix: _x.xml"].
Proof.
  cbv zeta.
  pose proof (unsupported_file_type_touches_nothing calm
                (mkConfig "mssql" "srv" "db" "" "" true "," "sales" "_x" "xml" "xml" true
                          "/archive" "2" "1000" "\n" true false false)
                digits_float sample_astype_str "/archive" "Sales"
                [("/stage", ["a_x.xml"; "readme.txt"])]
                (initial (mkConfig "mssql" "srv" "db" "" "" true "," "sales" "_x" "xml" "xml"
                                   true "/archive" "2" "1000" "\n" true false false))) as H.
  cbv zeta in H. destruct H as (_ & _ & seg & _ & _); [discriminate ..|].
  reflexivity.
Defined.

(** ** The bulk-insert strategy *)

Section BulkInsert.

Variable env : environment.
Variable self : config.
Variable float_of_str : string -> option pyfloat.
Variable astype_str : list pyval -> list string.

Lemma create_table_and_view_no_bulk_insert (columns_sql : columns_arg) (t : string) :
  emits any_flag no_bulk_insert (create_table_and_view env self columns_sql t).
Proof.
  unfold create_table_and_view, connect_to_database. cbv zeta. repeat emits_any.
Qed.

Lemma handle_csv_no_bulk_insert (file_path t : string) :
  emits any_flag no_bulk_insert (handle_csv env self float_of_str astype_str file_path t).
Proof.
  unfold handle_csv, bcp_import, pandas_import, connect_to_database. cbv zeta.
  repeat first [ apply create_table_and_view_no_bulk_insert | emits_any ].
Qed.

Lemma json_insert_no_bulk_insert (t : string) (item : list (string * string)) :
  is_bulk_insert (json_insert_query t item) = false.
Proof. reflexivity. Qed.

Lemma handle_json_no_bulk_insert (file_path t : string) :
  emits any_flag no_bulk_insert (handle_json env self file_path t).
Proof.
  unfold handle_json, insert_items, connect_to_database. cbv zeta.
  repeat first [ apply create_table_and_view_no_bulk_insert | emits_any ].
Qed.

Lemma process_candidate_no_bulk_insert (archive t root file : string) :
  emits any_flag no_bulk_insert
    (process_candidate env self float_of_str astype_str archive t root file).
Proof.
  unfold process_candidate. cbv zeta.
  destruct (file_type_handlers env self float_of_str astype_str (file_type self))
    as [h|] eqn:E.
  - destruct (file_type_handlers_cases _ _ _ _ _ _ E) as [-> | ->];
      repeat first [ apply handle_csv_no_bulk_insert
                   | apply handle_json_no_bulk_insert
                   | emits_any ].
  - repeat emits_any.
Qed.

Lemma process_file_no_bulk_insert (file_path archive t : string) :
  emits any_flag no_bulk_insert
    (process_file env self float_of_str astype_str file_path archive t).
Proof.
  unfold process_file, process_walk, extract_file_if_compressed. cbv zeta.
  repeat first [ apply process_candidate_no_bulk_insert | emits_any ].
Qed.

(** X7: whatever the configuration says, [bulkInsert_import_bool] set
    included, [process_file] never sends the statement that
    [bulkInsert_import] builds: the dispatch of [handle_csv] only knows the
    bcp and the pandas strategies. *)
Theorem process_file_never_bulk_inserts (file_path archive t : string) :
  (forall f tn, is_bulk_insert (bulk_insert_sql self f tn) = true)
  /\ emits any_flag no_bulk_insert
       (process_file env self float_of_str astype_str file_path archive t).
Proof.
  split; [|apply process_file_no_bulk_insert].
  intros f tn. apply PyStrFacts.startswith_iff. eexists. reflexivity.
Qed.

End BulkInsert.

Section BulkInsertOutcomes.

Variable env : environment.
Variable self : config.

(** X8: [bulkInsert_import] opens the connection and the cursor before its
    [try] block. If the cursor is not obtained the error reaches the caller
    and nothing is closed, an open connection included; once it is, the
    cursor is closed and, that returning, the connection, and the only errors
    that reach the caller are those of the two closes and those that are not
    [pyodbc.Error]. *)
Theorem bulkInsert_import_outcomes (file_path t : string) (s : state) :
  let out := bulkInsert_import env self file_path t s in
  exists seg,
    history (snd out) = (history s ++ seg)%list
    /\ (existsb cursor_created seg = false ->
        (exists e, fst out = Raise e) /\ existsb is_close seg = false)
    /\ (existsb cursor_created seg = true ->
        (exists x, In (Did CursorClose x) seg
                   /\ (x = None -> exists y, In (Did ConnClose y) seg))
        /\ (forall e, fst out = Raise e ->
              In (Did CursorClose (Some e)) seg \/ In (Did ConnClose (Some e)) seg
              \/ is_pyodbc_error (exn_cls e) = false)).
Proof.
  cbv zeta. unfold bulkInsert_import, connect_to_database.
  destruct (String.eqb (db_type self) "mssql"); exec.
  2: { exists []. rewrite app_nil_r. split; [reflexivity|]. split; [|discriminate].
       intros _. split; [now eexists | reflexivity]. }
  do 2 (ask; [leaf; (split; [|discriminate]); intros _; split; [now eexists | reflexivity]|]).
  ask; [|ask].
  1, 2: destruct (is_pyodbc_error (exn_cls e)) eqn:Hp; exec.
  all: repeat ask; leaf; (split; [discriminate|]); intros _.
  all: (split;
        [eexists; split;
         [cbn [In]; in_some
         | first [discriminate | intros _; eexists; cbn [In]; in_some]]|]).
  all: intros x Hx; try discriminate Hx; injection Hx as <-.
  all: first [ left; cbn [In]; in_some; fail
             | right; left; cbn [In]; in_some; fail
             | right; right; assumption ].
Qed.

End BulkInsertOutcomes.

(** ** Fetching without a handler *)

Section FailFast.

Lemma stops_ret {A} (a : A) : stops_at_first_failure (ret a).
Proof. intros s. exists []. cbn. now rewrite app_nil_r. Qed.

Lemma stops_print (msg : string) : stops_at_first_failure (print msg).
Proof. intros s. now exists [Printed msg]. Qed.

Lemma stops_bind {A B} (m : M A) (k : A -> M B) :
  stops_at_first_failure m -> (forall a, stops_at_first_failure (k a)) ->
  stops_at_first_failure (bind m k).
Proof.
  intros Hm Hk s. unfold bind. destruct (Hm s) as (seg1 & E1 & R1).
  destruct (m s) as [[a|e] s1]; cbn [fst snd] in *.
  - destruct (Hk a s1) as (seg2 & E2 & R2). exists (seg1 ++ seg2)%list.
    rewrite E2, E1, app_assoc. split; [reflexivity|].
    destruct (fst (k a s1)) as [b|e].
    + now rewrite existsb_app, R1, R2.
    + destruct R2 as (pre & ev & -> & Hev & Hpre). exists (seg1 ++ pre)%list, ev.
      rewrite app_assoc. split; [reflexivity|]. split; [exact Hev|].
      now rewrite existsb_app, R1, Hpre.
  - now exists seg1.
Qed.

Lemma stops_for_each {A} (l : list A) (body : A -> M unit) :
  (forall x, stops_at_first_failure (body x)) -> stops_at_first_failure (for_each l body).
Proof.
  intros Hb. induction l as [|x l IH]; cbn [for_each].
  - apply stops_ret.
  - apply stops_bind; [apply Hb | intros _; exact IH].
Qed.

Lemma stops_call_method {A} (m : M A) :
  stops_at_first_failure m -> stops_at_first_failure (call_method m).
Proof.
  intros Hm s. unfold call_method.
  destruct (Hm (mkState (history s) (drop_table_if_exists s) [])) as (seg & E & R).
  destruct (m _) as [r s1]; cbn [fst snd history] in *. now exists seg.
Qed.

Variable env : environment.

Lemma stops_do_cmd (c : cmd) : stops_at_first_failure (do_cmd env c).
Proof.
  intros s. unfold do_cmd. destruct (on_cmd env (history s) c) as [e|].
  - exists [Did c (Some e)]. split; [reflexivity|]. now exists [], (Did c (Some e)).
  - now exists [Did c None].
Qed.

Lemma stops_do_listing (q : listing) : stops_at_first_failure (do_listing env q).
Proof.
  intros s. unfold do_listing. cbn [fst snd].
  destruct (on_listing env (history s) q) as [l|e].
  - now exists [Listed q (Ok l)].
  - exists [Listed q (Raise e)]. split; [reflexivity|]. now exists [], (Listed q (Raise e)).
Qed.

Variable self : config.

(** X9: [download_from_s3] has no handler. It returns only when the
    listing and every download returned; otherwise the call that raised is
    the last thing it did (the files after it are not downloaded) and the
    exception reaches the caller. *)
Theorem download_from_s3_stops_at_first_failure
    (s3_bucket s3_folder destination_folder : string) :
  stops_at_first_failure (download_from_s3 env self s3_bucket s3_folder destination_folder).
Proof.
  unfold download_from_s3. cbv zeta.
  apply stops_call_method. apply stops_bind; [apply stops_do_listing|].
  intros keys. apply stops_for_each. intros file_name.
  destruct (PyStr.startswith _ _); [|apply stops_ret].
  destruct (PyStr.contains _ _); [|apply stops_ret].
  apply stops_bind; [apply stops_do_cmd | intros _; apply stops_print].
Qed.

End FailFast.

(** On the sample listing, a refused download of the first selected object
    ends the call: the second selected object is not asked for. *)
Example download_from_s3_first_refused :
  run demo_config
    (download_from_s3
       (failing calm (fun c => match c with S3DownloadFile _ _ _ => true | _ => false end)
                (mkExn ClientError "AccessDenied"))
       demo_config "bucket" "in/" "/stage")
  = (Raise (mkExn ClientError "AccessDenied"),
     [Listed (S3ListKeys "bucket" "in/")
        (Ok ["in/"; "in/sales_1.csv"; "in/sales_notes"; "in/other.csv"]);
      Did (S3DownloadFile "bucket" "in/sales_1.csv" "/stage/sales_1.csv")
          (Some (mkExn ClientError "AccessDenied"))]).
Proof. reflexivity. Qed.

(** ** JSON files *)

Section JsonTarget.
Import PyStr PyStrFacts.

Lemma json_insert_query_words (t : string) (item : list (string * string)) :
  t <> "" -> no_space t = true ->
  exists rest, words (json_insert_query t item) = "INSERT" :: "INTO" :: t :: rest.
Proof.
  intros Hne Ht. unfold json_insert_query. cbv zeta.
  set (columns := join ", " (map fst item)).
  set (values := join ", " _).
  change ("INSERT INTO " ++ t ++ " (" ++ columns ++ ") VALUES (" ++ values ++ ")")
    with ("INSERT" ++ String " "%char ("INTO" ++ String " "%char
            (t ++ String " "%char ("(" ++ columns ++ ") VALUES (" ++ values ++ ")")))).
  rewrite words_word by (reflexivity || discriminate).
  rewrite words_word by (reflexivity || discriminate).
  rewrite words_word by (assumption || reflexivity).
  now eexists.
Qed.

(** X11: the statement [handle_json] builds for a record names the table
    itself as the object written, not the view [<tableName>_View] that the
    delimited strategies write through. *)
Theorem json_rows_go_to_the_table (t : string) (item : list (string * string)) :
  t <> "" -> no_space t = true ->
  written_object (words (json_insert_query t item)) = Some t
  /\ t <> view_name t.
Proof.
  intros Hne Ht. split; [|apply view_name_differs].
  destruct (json_insert_query_words t item Hne Ht) as [rest ->]. reflexivity.
Qed.

End JsonTarget.

Lemma json_rows_go_to_the_table_witness :
  written_object (words (json_insert_query "Sales" [("id", "1"); ("amount", "5")]))
  = Some "Sales".
Proof.
  apply (json_rows_go_to_the_table "Sales" [("id", "1"); ("amount", "5")]);
    [discriminate | reflexivity].
Defined.

Section JsonArchived.

Variable env : environment.
Variable self : config.
Variable float_of_str : string -> option pyfloat.
Variable astype_str : list pyval -> list string.

Ltac cleanup_ok H :=
  repeat (cbn [existsb failed_cleanup orb] in H; rewrite ?existsb_app in H);
  rewrite ?orb_true_r in H; discriminate H.

(** A call of [create_table_and_view] or of the insert loop, taken as a
    whole: what it adds to the history, and that it leaves the locals. *)
Ltac through_ctv :=
  match goal with
  | |- context [create_table_and_view ?e ?c ?cols ?tn ?st] =>
      let seg := fresh "seg" in
      let Hseg := fresh "Hseg" in
      let Hfl := fresh "Hfl" in
      let Hloc := fresh "Hloc" in
      let r := fresh "r" in
      let s1 := fresh "s" in
      destruct (create_table_and_view_run e c float_of_str cols tn st) as (seg & Hseg & _ & _);
      destruct (create_table_and_view_frame e c cols tn st) as (Hfl & Hloc);
      destruct (create_table_and_view e c cols tn st) as [r s1];
      cbn [fst snd history locals drop_table_if_exists] in Hseg, Hfl, Hloc;
      destruct r as [[]|?]; exec; rewrite ?Hloc; exec
  end.

Ltac through_insert_items :=
  match goal with
  | |- context [insert_items ?e ?tn ?data ?st] =>
      let seg := fresh "seg" in
      let Hseg := fresh "Hseg" in
      let Hloc := fresh "Hloc" in
      let r := fresh "r" in
      let s1 := fresh "s" in
      destruct (insert_items_run e float_of_str tn data st) as (seg & Hseg & Hloc & _ & _);
      destruct (insert_items e tn data st) as [r s1];
      cbn [fst snd history locals] in Hseg, Hloc;
      destruct r as [[]|?]; exec; rewrite ?Hloc; exec
  end.

Ltac settle_json :=
  repeat ask; tidy;
  let H := fresh "H" in
  let Hcur := fresh "Hcur" in
  let Hc := fresh "Hc" in
  intros H; apply app_inv_head in H; subst; intros Hcur Hc;
  first [discriminate Hcur | reflexivity | cleanup_ok Hc].

(** Once its cursor exists, [handle_json] keeps every failure to the log:
    it returns unless the rollback or a close raises. *)
Lemma handle_json_returns_once_connected (file_path t : string) (s : state) (seg : trace) :
  let out := handle_json env self file_path t s in
  history (snd out) = (history s ++ seg)%list ->
  existsb cursor_created seg = true ->
  existsb failed_cleanup seg = false ->
  fst out = Ok tt.
Proof.
  cbv zeta. unfold handle_json, connect_to_database.
  destruct (String.eqb (db_type self) "mssql"); exec; [|settle_json].
  do 2 (ask; [settle_json|]).
  ask_more; [|settle_json].
  match goal with
  | |- context [match ?d with [] => _ | _ :: _ => _ end] =>
      destruct d as [|first rest]
  end; exec; [settle_json|].
  through_ctv.
  all: try through_insert_items.
  all: rewrite ?Hloc; exec.
  all: repeat (repeat ask; rewrite ?Hloc0, ?Hloc; exec).
  all: rewrite ?Hseg0; rewrite ?Hseg; settle_json.
Qed.

(** X12: a JSON file whose own connection and cursor were opened is handed
    to [shutil.move] and lowers the reset flag unless the rollback or a
    close raised: an empty document, a schema error or a refused INSERT is
    logged and rolled back by [handle_json], which then returns, and
    [process_file] takes the file as processed. *)
Theorem json_file_archived_despite_errors
    (archive t root file : string) (s : state) (seg : trace) :
  PyStr.endswith file (file_suffix self ++ "." ++ file_type self) = true ->
  file_type self = "json" ->
  let out := process_candidate env self float_of_str astype_str archive t root file s in
  history (snd out) = (history s ++ seg)%list ->
  existsb cursor_created seg = true ->
  existsb failed_cleanup seg = false ->
  drop_table_if_exists (snd out) = false
  /\ exists r,
       In (Did (ShutilMove (OsPath.join root file) (OsPath.join archive file)) r) seg.
Proof.
  intros Hm Hj. cbv zeta. unfold process_candidate. rewrite Hm, Hj.
  change (file_type_handlers env self float_of_str astype_str "json")
    with (Some (handle_json env self)).
  exec.
  match goal with
  | |- context [handle_json ?e ?c ?p ?tn ?st] =>
      destruct (handle_json_run e c float_of_str p tn st) as (seg0 & Hseg & _ & _);
      pose proof (handle_json_returns_once_connected p tn st seg0) as Hret;
      destruct (handle_json e c p tn st) as [r s1];
      cbn [fst snd history] in Hseg, Hret; specialize (Hret Hseg);
      destruct r as [[]|e0]; exec
  end.
  1: ask.
  all: rewrite Hseg; tidy; intros H; apply app_inv_head in H; subst seg.
  all: intros Hcur Hc.
  1, 2: split; [reflexivity|]; eexists; cbn [In]; in_some2.
  cbn [existsb cursor_created failed_cleanup orb] in Hcur, Hc.
  rewrite existsb_app in Hcur, Hc. cbn [existsb cursor_created failed_cleanup orb] in Hcur, Hc.
  rewrite orb_false_r in Hcur, Hc. discriminate (Hret Hcur Hc).
Qed.

End JsonArchived.

Lemma json_file_archived_despite_errors_witness :
  let self := mkConfig "mssql" "srv" "db" "" "" true "," "sales" "_x" "json" "json" true
                       "/archive" "2" "1000" "\n" true false false in
  let env := failing calm (fun c => match c with
                                    | CursorExecute sql => PyStr.startswith sql "INSERT"
                                    | _ => false
                                    end)
                     (mkExn PyodbcError "constraint violated") in
  let out := process_candidate env self digits_float sample_astype_str
               "/archive" "Sales" "/stage" "a_x.json" (initial self) in
  existsb (moved "/stage/a_x.json" "/archive/a_x.json") (history (snd out)) = true
  /\ drop_table_if_exists (snd out) = false.
Proof.
  cbv zeta. split; [reflexivity|].
  eapply (json_file_archived_despite_errors
            (failing calm (fun c => match c with
                                    | CursorExecute sql => PyStr.startswith sql "INSERT"
                                    | _ => false
                                    end)
                     (mkExn PyodbcError "constraint violated"))
            (mkConfig "mssql" "srv" "db" "" "" true "," "sales" "_x" "json" "json" true
                      "/archive" "2" "1000" "\n" true false false)
            digits_float sample_astype_str "/archive" "Sales" "/stage" "a_x.json"
            (initial (mkConfig "mssql" "srv" "db" "" "" true "," "sales" "_x" "json" "json"
                               true "/archive" "2" "1000" "\n" true false false)));
    [reflexivity | reflexivity | vm_compute; reflexivity | reflexivity | reflexivity].
Defined.


Lemma download_from_sftp_closes_when_opened_witness :
  let out := download_from_sftp calm demo_config "host" "22" "user" "secret" "/out" "/stage"
               (initial demo_config) in
  (exists r earlier,
     rev (history (snd out)) = Did SshClose r :: Did SftpClose None :: earlier)
  \/ (exists e earlier,
        rev (history (snd out)) = Did SftpClose (Some e) :: earlier
        /\ fst out = Raise e).
Proof.
  apply (download_from_sftp_closes_when_opened calm demo_config
           "host" "22" "user" "secret" "/out" "/stage" (initial demo_config));
    reflexivity.
Defined.

(** ** What [process_file] walks *)

Section Walks.

Variable env : environment.
Variable self : config.
Variable float_of_str : string -> option pyfloat.
Variable astype_str : list pyval -> list string.

(** X21: of the path it is given [process_file] only uses the directory
    part (and the test for a zip archive). For a path that does not end in
    [.zip] it walks [os.path.dirname] of the path and runs the loop over
    whatever that walk lists, so it handles every matching file of that
    directory tree and not the named file only; given a folder without a
    final slash, it walks the parent of the folder. *)
Theorem process_file_walks_the_directory (file_path archive t : string) (s : state) :
  PyStr.endswith file_path ".zip" = false ->
  let d := OsPath.dirname file_path in
  let h := (history s ++ [Printed ("Processing file: " ++ file_path);
                          Printed ("Processing files in directory: " ++ d)])%list in
  let walk := on_walk env h d in
  let out := process_walk env self float_of_str astype_str archive t walk
               (mkState (h ++ [Walked d walk])%list (drop_table_if_exists s) []) in
  process_file env self float_of_str astype_str file_path archive t s
  = (Ok tt, mkState (history (snd out)) (drop_table_if_exists (snd out)) (locals s)).
Proof.
  intros Hz. cbv zeta. unfold process_file. rewrite Hz. exec. tidy.
  match goal with
  | |- context [process_walk ?e ?c ?f ?a ?ar ?tn ?wk ?st] =>
      destruct (process_walk_never_raises e c f a ar tn wk st) as [[] Hret];
      destruct (process_walk e c f a ar tn wk st) as [r s1]
  end.
  cbn [fst snd] in *. subst r. reflexivity.
Qed.

End Walks.

Lemma process_file_walks_the_directory_witness :
  OsPath.dirname "/data/in" = "/data"
  /\ existsb is_walked
       (history (snd (process_file calm demo_config digits_float sample_astype_str
                        "/data/in" "/archive" "Sales" (initial demo_config)))) = true
  /\ In (Walked "/data" [("/stage", ["a_x.csv"; "readme.txt"; "b_x.csv"])])
        (history (snd (process_file calm demo_config digits_float sample_astype_str
                         "/data/in" "/archive" "Sales" (initial demo_config)))).
Proof.
  split; [reflexivity|].
  rewrite (process_file_walks_the_directory calm demo_config digits_float sample_astype_str
             "/data/in" "/archive" "Sales" (initial demo_config)); [|reflexivity].
  split; [reflexivity|]. vm_compute. auto 10.
Defined.

(** * The scripts around the loader *)

Example splitlines_ex :
  splitlines ("a" ++ PyStr.nl ++ PyStr.nl ++ "b" ++ PyStr.nl) = ["a"; ""; "b"]
  /\ splitlines "" = []
  /\ splitlines (String "013" (String "010" "b")) = [""; "b"].
Proof. repeat split. Qed.

Example zip3_ex :
  zip3 [1; 2; 3] ["a"; "b"] [true; false; true] = [(1, "a", true); (2, "b", false)].
Proof. reflexivity. Qed.

Example getboolean_ex :
  getboolean demo_ini "ETL" "file_has_header" = Ok (Some true)
  /\ getboolean demo_ini "ETL" "no_such_option" = Ok None
  /\ getboolean demo_ini "ETL" "file_type" = Raise (mkExn ValueError "Not a boolean: csv")
  /\ config_item demo_ini "ETL" "no_such_option" = Raise (mkExn KeyError "'no_such_option'").
Proof. repeat split. Qed.

Ltac wexec :=
  unfold wprint, wlogging_info, wlogging_error;
  unfold wbind, wret, wraise, wlift_result, wemit, wset_flag, wtry_except, wtry_except_cls,
    act, ask_probe, glob_glob, os_listdir, ssm_get_parameter, config_read, elapsed_seconds;
  unfold wrecord;
  cbn [fst snd whistory wflag is_os_error is_missing_schema exn_cls exn_msg negb andb orb].

Ltac wask :=
  match goal with
  | |- context [match on_action ?e ?h ?c with _ => _ end] =>
      let E := fresh "E" in destruct (on_action e h c) eqn:E
  | |- context [on_probe ?e ?h ?c] =>
      let E := fresh "E" in destruct (on_probe e h c) eqn:E
  | |- context [on_listdir ?e ?h ?c] =>
      let E := fresh "E" in destruct (on_listdir e h c) eqn:E
  | |- context [on_parameter ?e ?h ?c] =>
      let E := fresh "E" in destruct (on_parameter e h c) eqn:E
  end; wexec.

Section ScriptRules.

Lemma wnever_raises_ret {A} (a : A) : wnever_raises (wret a).
Proof. intros w. now exists a. Qed.

Lemma wnever_raises_emit (ev : wevent) : wnever_raises (wemit ev).
Proof. intros w. now exists tt. Qed.

Lemma wnever_raises_bind {A B} (m : W A) (k : A -> W B) :
  wnever_raises m -> (forall a, wnever_raises (k a)) -> wnever_raises (wbind m k).
Proof.
  intros Hm Hk w. unfold wbind. destruct (Hm w) as [a Ha].
  destruct (m w) as [[a'|e] w1]; cbn [fst] in Ha; [|discriminate]. apply Hk.
Qed.

Lemma wnever_raises_try_except {A} (body : W A) (handler : exn -> W A) :
  (forall e, wnever_raises (handler e)) -> wnever_raises (wtry_except body handler).
Proof.
  intros Hh w. unfold wtry_except. destruct (body w) as [[a|e] w1].
  - now exists a.
  - apply Hh.
Qed.

Lemma wnever_raises_for_each {A} (l : list A) (body : A -> W unit) :
  (forall x, wnever_raises (body x)) -> wnever_raises (wfor_each l body).
Proof.
  intros Hb. induction l as [|x l IH]; cbn [wfor_each].
  - apply wnever_raises_ret.
  - apply wnever_raises_bind; [apply Hb | intros _; exact IH].
Qed.

Variable J : bool -> Prop.
Variable P : wevent -> Prop.

Lemma wemits_ret {A} (a : A) : wemits J P (wret a).
Proof. intros w H. split; [exact H|]. exists []. now rewrite app_nil_r. Qed.

Lemma wemits_raise {A} (e : exn) : wemits J P (@wraise A e).
Proof. intros w H. split; [exact H|]. exists []. now rewrite app_nil_r. Qed.

Lemma wemits_lift_result {A} (r : result A) : wemits J P (wlift_result r).
Proof. intros w H. split; [exact H|]. exists []. now rewrite app_nil_r. Qed.

Lemma wemits_emit (ev : wevent) : P ev -> wemits J P (wemit ev).
Proof. intros Hev w H. split; [exact H|]. exists [ev]. cbn. auto. Qed.

Lemma wemits_bind {A B} (m : W A) (k : A -> W B) :
  wemits J P m -> (forall a, wemits J P (k a)) -> wemits J P (wbind m k).
Proof.
  intros Hm Hk w H. unfold wbind. destruct (Hm w H) as (H1 & seg1 & E1 & F1).
  destruct (m w) as [[a|e] w1]; cbn [fst snd] in *.
  - destruct (Hk a w1 H1) as (H2 & seg2 & E2 & F2). split; [exact H2|].
    exists (seg1 ++ seg2)%list. rewrite E2, E1, app_assoc.
    split; [reflexivity | apply Forall_app; auto].
  - split; [exact H1|]. now exists seg1.
Qed.

Lemma wemits_try_except {A} (body : W A) (handler : exn -> W A) :
  wemits J P body -> (forall e, wemits J P (handler e)) ->
  wemits J P (wtry_except body handler).
Proof.
  intros Hm Hk w H. unfold wtry_except. destruct (Hm w H) as (H1 & seg1 & E1 & F1).
  destruct (body w) as [[a|e] w1]; cbn [fst snd] in *.
  - split; [exact H1|]. now exists seg1.
  - destruct (Hk e w1 H1) as (H2 & seg2 & E2 & F2). split; [exact H2|].
    exists (seg1 ++ seg2)%list. rewrite E2, E1, app_assoc.
    split; [reflexivity | apply Forall_app; auto].
Qed.

Lemma wemits_try_except_cls {A} (cls : exn_class -> bool) (body : W A)
    (handler : exn -> W A) :
  wemits J P body -> (forall e, wemits J P (handler e)) ->
  wemits J P (wtry_except_cls cls body handler).
Proof.
  intros Hm Hk w H. unfold wtry_except_cls. destruct (Hm w H) as (H1 & seg1 & E1 & F1).
  destruct (body w) as [[a|e] w1]; cbn [fst snd] in *.
  - split; [exact H1|]. now exists seg1.
  - destruct (cls (exn_cls e)).
    + destruct (Hk e w1 H1) as (H2 & seg2 & E2 & F2). split; [exact H2|].
      exists (seg1 ++ seg2)%list. rewrite E2, E1, app_assoc.
      split; [reflexivity | apply Forall_app; auto].
    + split; [exact H1|]. now exists seg1.
Qed.

Lemma wemits_for_each {A} (l : list A) (body : A -> W unit) :
  (forall x, wemits J P (body x)) -> wemits J P (wfor_each l body).
Proof.
  intros Hb. induction l as [|x l IH]; cbn [wfor_each].
  - apply wemits_ret.
  - apply wemits_bind; [apply Hb | intros _; exact IH].
Qed.

Variable world_ : world.

Lemma wemits_act (a : action) :
  (forall r, P (Acted a r)) -> wemits J P (act world_ a).
Proof.
  intros Hc w H. unfold act.
  destruct (on_action world_ (whistory w) a) as [e|]; (split; [exact H|]);
    eexists [_]; cbn; auto.
Qed.

Lemma wemits_ask_probe (p : probe) :
  (forall b, P (Asked p b)) -> wemits J P (ask_probe world_ p).
Proof. intros Hc w H. split; [exact H|]. eexists [_]. cbn. auto. Qed.

Lemma wemits_glob_glob (pattern : string) :
  (forall r, P (Globbed pattern r)) -> wemits J P (glob_glob world_ pattern).
Proof. intros Hc w H. split; [exact H|]. eexists [_]. cbn. auto. Qed.

Lemma wemits_os_listdir (path : string) :
  (forall r, P (ListedDir path r)) -> wemits J P (os_listdir world_ path).
Proof. intros Hc w H. split; [exact H|]. eexists [_]. cbn. auto. Qed.

Lemma wemits_elapsed_seconds :
  (forall r, P (Timed r)) -> wemits J P (elapsed_seconds world_).
Proof. intros Hc w H. split; [exact H|]. eexists [_]. cbn. auto. Qed.

Lemma skipn_all_app {A} (l r : list A) : skipn (List.length l) (l ++ r) = r.
Proof. induction l as [|x l IH]; [reflexivity | exact IH]. Qed.

(** What a method of the loader adds to its own history is what the
    script sees added. *)
Lemma loader_history {A} (m : environment -> M A) (w : wstate) (seg : trace) :
  let s := mkState (loader_events (whistory w)) (wflag w) [] in
  history (snd (m (loader_env world_ (whistory w)) s)) = (history s ++ seg)%list ->
  whistory (snd (loader world_ m w)) = (whistory w ++ map Core seg)%list.
Proof.
  cbv zeta. intros H. unfold loader.
  destruct (m _ _) as [r s']. cbn [fst snd history whistory] in *.
  now rewrite H, skipn_all_app.
Qed.

Lemma loader_result {A} (m : environment -> M A) (w : wstate) :
  fst (loader world_ m w)
  = fst (m (loader_env world_ (whistory w))
           (mkState (loader_events (whistory w)) (wflag w) [])).
Proof. unfold loader. now destruct (m _ _). Qed.

Lemma loader_flag {A} (m : environment -> M A) (w : wstate) :
  wflag (snd (loader world_ m w))
  = drop_table_if_exists
      (snd (m (loader_env world_ (whistory w))
              (mkState (loader_events (whistory w)) (wflag w) []))).
Proof. unfold loader. now destruct (m _ _). Qed.

Lemma wnever_raises_loader {A} (m : environment -> M A) :
  (forall env, never_raises (m env)) -> wnever_raises (loader world_ m).
Proof.
  intros H w. rewrite loader_result. apply H.
Qed.

Lemma wemits_loader {A} (Q : event -> Prop) (m : environment -> M A) :
  (forall ev, Q ev -> P (Core ev)) ->
  (forall env, emits J Q (m env)) -> wemits J P (loader world_ m).
Proof.
  intros HQ H w Hj.
  destruct (H (loader_env world_ (whistory w))
              (mkState (loader_events (whistory w)) (wflag w) []) Hj)
    as (Hj' & seg & Hseg & Hall).
  split; [now rewrite loader_flag|].
  exists (map Core seg). split; [now apply loader_history|].
  apply Forall_map. revert Hall. apply Forall_impl. exact HQ.
Qed.

End ScriptRules.

(** ** [download_from_url] *)

Section DownloadFromUrl.

Variable world_ : world.

Lemma missing_schema_class (e : exn) :
  is_missing_schema (exn_cls e) = true <-> exn_cls e = MissingSchema.
Proof. destruct (exn_cls e); cbn; split; congruence. Qed.

Ltac url_leaf :=
  eexists; (split; [repeat rewrite <- app_assoc; cbn [app]; reflexivity|]).

(** X13: [download_from_url] returns in two ways only: the three steps
    (request, status check, write) all returned and the download is logged,
    or a step raised [MissingSchema], which is logged as an invalid URL.
    Every other exception, that of a bad HTTP status included, reaches the
    caller, the failed step being the last event. The file is written in the
    first case only. *)
Theorem download_from_url_outcomes (url targetFile : string) (w : wstate) :
  let out := download_from_url world_ url targetFile w in
  exists seg,
    whistory (snd out) = (whistory w ++ seg)%list
    /\ match fst out with
       | Ok _ =>
           seg = [Acted (RequestsGet url) None; Acted (RaiseForStatus url) None;
                  Acted (WriteContent targetFile) None;
                  Core (LoggedInfo ("File downloaded: " ++ targetFile))]
           \/ (exists pre a e,
                 seg = (pre ++ [Acted a (Some e);
                                Core (LoggedError ("Invalid URL: " ++ url))])%list
                 /\ exn_cls e = MissingSchema
                 /\ ~ In (Acted (WriteContent targetFile) None) seg)
       | Raise e =>
           exn_cls e <> MissingSchema
           /\ (exists pre a, seg = (pre ++ [Acted a (Some e)])%list)
           /\ ~ In (Acted (WriteContent targetFile) None) seg
       end.
Proof.
  cbv zeta. unfold download_from_url. wexec.
  repeat wask.
  all: try (destruct (is_missing_schema (exn_cls e)) eqn:Hm; wexec).
  all: url_leaf.
  all: try (left; reflexivity).
  all: try (right;
            match goal with
            | |- exists pre a e, ?l = _ /\ _ =>
                exists (removelast (removelast l)); cbn [removelast]
            end;
            eexists; eexists; split; [reflexivity|];
            split; [now apply missing_schema_class|];
            intros H; by_cases H; fail).
  all: split; [intros Hc; apply missing_schema_class in Hc; congruence|].
  all: split;
    [match goal with
     | |- exists pre a, ?l = _ => exists (removelast l); cbn [removelast]
     end; eexists; reflexivity|].
  all: intros H; by_cases H.
Qed.

End DownloadFromUrl.

(** ** [empty_folder_of_zip_csv] *)

Section EmptyFolder.

Variable world_ : world.

(** [os.remove] fails with an [OSError] or not at all. *)
Hypothesis remove_raises_oserror :
  forall h p e, on_action world_ h (OsRemoveMatch p) = Some e -> exn_cls e = OSError.

Lemma remove_match_returns (filename : string) : wnever_raises (remove_match world_ filename).
Proof.
  intros w. unfold remove_match. wexec.
  destruct (on_action world_ (whistory w) (OsRemoveMatch filename)) as [e|] eqn:E; wexec.
  - rewrite (remove_raises_oserror _ _ _ E). cbn [is_os_error]. now exists tt.
  - now exists tt.
Qed.

Lemma remove_matches_returns (folder_path : string) :
  wnever_raises (remove_matches world_ folder_path).
Proof.
  unfold remove_matches. apply wnever_raises_for_each. intros pattern. cbv zeta.
  apply wnever_raises_bind.
  - intros w. now eexists.
  - intros names. apply wnever_raises_for_each. apply remove_match_returns.
Qed.

Lemma remove_matches_extends (folder_path : string) :
  wemits any_flag (fun _ => True) (remove_matches world_ folder_path).
Proof.
  unfold remove_matches. apply wemits_for_each. intros pattern. cbv zeta.
  apply wemits_bind.
  - apply wemits_glob_glob. intros; exact I.
  - intros names. apply wemits_for_each. intros f. unfold remove_match.
    apply wemits_try_except_cls.
    + apply wemits_bind; [apply wemits_act; intros; exact I|].
      intros _. apply wemits_emit. exact I.
    + intros e. apply wemits_emit. exact I.
Qed.

(** One entry of the folder: it is probed, a file or link is unlinked, a
    directory is removed with its contents, and a failure is printed. *)
Lemma delete_entry_spec (folder_path filename : string) (w : wstate) :
  let p := OsPath.join folder_path filename in
  let out := delete_entry world_ folder_path filename w in
  fst out = Ok tt
  /\ exists b seg,
       whistory (snd out) = (whistory w ++ Asked (IsFile p) b :: seg)%list
       /\ (b = true -> exists r, In (Acted (OsUnlink p) r) seg)
       /\ (In (Asked (IsDir p) true) seg -> exists r, In (Acted (ShutilRmtree p) r) seg).
Proof.
  cbv zeta. unfold delete_entry. wexec.
  repeat wask.
  all: split; [reflexivity|].
  all: eexists; eexists; (split; [repeat rewrite <- app_assoc; cbn [app]; reflexivity|]).
  all: split; [first [discriminate | intros _; eexists; cbn [In]; in_some]|].
  all: intros H; first [by_cases H; fail | eexists; cbn [In]; in_some].
Qed.

Lemma delete_entries_spec (folder_path : string) (names : list string) (w : wstate) :
  let out := wfor_each names (delete_entry world_ folder_path) w in
  fst out = Ok tt
  /\ exists seg,
       whistory (snd out) = (whistory w ++ seg)%list
       /\ forall name, In name names ->
            let p := OsPath.join folder_path name in
            exists b, In (Asked (IsFile p) b) seg
                      /\ (b = true -> exists r, In (Acted (OsUnlink p) r) seg).
Proof.
  cbv zeta. revert w. induction names as [|n names IH]; intros w.
  - split; [reflexivity|]. exists []. cbn. rewrite app_nil_r. split; [reflexivity | tauto].
  - cbn [wfor_each]. unfold wbind.
    destruct (delete_entry_spec folder_path n w) as (Hr & b & seg & Hseg & Hu & _).
    cbv zeta in Hr, Hseg.
    destruct (delete_entry world_ folder_path n w) as [r w1]. cbn [fst snd] in *. subst r.
    destruct (IH w1) as (Hr' & seg' & Hseg' & Hall).
    split; [exact Hr'|].
    exists ((Asked (IsFile (OsPath.join folder_path n)) b :: seg) ++ seg')%list.
    split; [rewrite Hseg', Hseg, <- app_assoc; reflexivity|].
    intros name [<- | Hin].
    + exists b. split; [left; reflexivity|].
      intros Hb. destruct (Hu Hb) as [r Hin]. exists r. right. apply in_or_app. now left.
    + destruct (Hall name Hin) as (b' & Hp & Hu').
      exists b'. split; [apply in_or_app; now right|].
      intros Hb. destruct (Hu' Hb) as [r Hr'']. exists r. apply in_or_app. now right.
Qed.

(** X14: [empty_folder_of_zip_csv] is a sweep of the whole folder, not
    only of its zip and csv files. When [os.listdir] returns, the method
    returns, and every entry listed has been probed and, when it is a file,
    handed to [os.unlink], whatever failed before it; when [os.listdir]
    raises (it is outside the [try] blocks) the exception reaches the
    caller. *)
Theorem empty_folder_of_zip_csv_sweeps (folder_path : string) (w : wstate) :
  let out := empty_folder_of_zip_csv world_ folder_path w in
  exists seg,
    whistory (snd out) = (whistory w ++ seg)%list
    /\ ((exists names,
           In (ListedDir folder_path (Ok names)) seg
           /\ fst out = Ok tt
           /\ forall name, In name names ->
                let p := OsPath.join folder_path name in
                exists b, In (Asked (IsFile p) b) seg
                          /\ (b = true -> exists r, In (Acted (OsUnlink p) r) seg))
        \/ (exists e, In (ListedDir folder_path (Raise e)) seg /\ fst out = Raise e)).
Proof.
  cbv zeta. unfold empty_folder_of_zip_csv, wbind, os_listdir. cbn [fst snd].
  destruct (remove_matches_returns folder_path w) as [[] Hret].
  destruct (remove_matches_extends folder_path w I) as (_ & seg0 & Hseg0 & _).
  destruct (remove_matches world_ folder_path w) as [r w0].
  cbn [fst snd] in Hret, Hseg0. subst r.
  destruct (on_listdir world_ (whistory w0) folder_path) as [names|e] eqn:E.
  - destruct (delete_entries_spec folder_path names (wrecord (ListedDir folder_path (Ok names)) w0))
      as (Hr & seg & Hseg & Hall).
    cbv zeta in Hr, Hseg.
    exists (seg0 ++ ListedDir folder_path (Ok names) :: seg)%list.
    split.
    { rewrite Hseg. unfold wrecord. cbn [whistory]. rewrite Hseg0.
      repeat rewrite <- app_assoc. reflexivity. }
    left. exists names. split; [apply in_or_app; right; now left|].
    split; [exact Hr|].
    intros name Hin. destruct (Hall name Hin) as (b & Hp & Hu). exists b.
    split; [apply in_or_app; right; now right|].
    intros Hb. destruct (Hu Hb) as [r Hr']. exists r. apply in_or_app. right. now right.
  - exists (seg0 ++ [ListedDir folder_path (Raise e)])%list.
    split.
    { unfold wrecord. cbn [whistory snd]. rewrite Hseg0. now rewrite <- app_assoc. }
    right. exists e. split; [apply in_or_app; right; now left | reflexivity].
Qed.

(** [os.listdir] returns. *)
Hypothesis listdir_returns :
  forall h p, exists names, on_listdir world_ h p = Ok names.

Lemma empty_folder_of_zip_csv_returns (folder_path : string) :
  wnever_raises (empty_folder_of_zip_csv world_ folder_path).
Proof.
  unfold empty_folder_of_zip_csv.
  apply wnever_raises_bind; [apply remove_matches_returns|intros _].
  apply wnever_raises_bind.
  - intros w. unfold os_listdir. cbn [fst].
    destruct (listdir_returns (whistory w) folder_path) as [names ->]. now exists names.
  - intros names. apply wnever_raises_for_each. intros f w.
    exists tt. apply delete_entry_spec.
Qed.

End EmptyFolder.

(** ** [process_url] *)

Lemma emits_weaken (J : bool -> Prop) (P Q : event -> Prop) {A} (m : M A) :
  (forall ev, P ev -> Q ev) -> emits J P m -> emits J Q m.
Proof.
  intros HPQ H s Hj. destruct (H s Hj) as (Hj' & seg & Hseg & Hall).
  split; [exact Hj'|]. exists seg. split; [exact Hseg|].
  revert Hall. apply Forall_impl. exact HPQ.
Qed.

Lemma wfor_each_app {A} (l1 l2 : list A) (body : A -> W unit) (w : wstate) :
  wfor_each (l1 ++ l2) body w = wbind (wfor_each l1 body) (fun _ => wfor_each l2 body) w.
Proof.
  revert w. induction l1 as [|x l1 IH]; intros w.
  - reflexivity.
  - cbn [wfor_each app]. unfold wbind. destruct (body x w) as [[[]|e] w1].
    + rewrite IH. reflexivity.
    + reflexivity.
Qed.

Lemma wemits_for_each_in (J : bool -> Prop) (P : wevent -> Prop) {A}
    (l : list A) (body : A -> W unit) :
  (forall x, In x l -> wemits J P (body x)) -> wemits J P (wfor_each l body).
Proof.
  induction l as [|x l IH]; intros Hb; cbn [wfor_each].
  - apply wemits_ret.
  - apply wemits_bind.
    + apply Hb. now left.
    + intros _. apply IH. intros y Hy. apply Hb. now right.
Qed.

Ltac wemits_step :=
  lazymatch goal with
  | |- wemits _ _ (wbind _ _) => apply wemits_bind; [|intros ?]
  | |- wemits _ _ (wret _) => apply wemits_ret
  | |- wemits _ _ (wraise _) => apply wemits_raise
  | |- wemits _ _ (wlift_result _) => apply wemits_lift_result
  | |- wemits _ _ (wprint _) => apply wemits_emit; exact I
  | |- wemits _ _ (wlogging_info _) => apply wemits_emit; exact I
  | |- wemits _ _ (wlogging_error _) => apply wemits_emit; exact I
  | |- wemits _ _ (wtry_except _ _) => apply wemits_try_except; [|intros ?]
  | |- wemits _ _ (wtry_except_cls _ _ _) => apply wemits_try_except_cls; [|intros ?]
  | |- wemits _ _ (wfor_each _ _) => apply wemits_for_each; intros ?
  | |- wemits _ _ (act _ _) => apply wemits_act; intros ?; exact I
  | |- wemits _ _ (ask_probe _ _) => apply wemits_ask_probe; intros ?; exact I
  | |- wemits _ _ (glob_glob _ _) => apply wemits_glob_glob; intros ?; exact I
  | |- wemits _ _ (os_listdir _ _) => apply wemits_os_listdir; intros ?; exact I
  | |- wemits _ _ (elapsed_seconds _) => apply wemits_elapsed_seconds; intros ?; exact I
  | |- wemits _ _ (if ?b then _ else _) => destruct b
  | |- wemits _ _ (match ?x with _ => _ end) => destruct x
  end.

Section ProcessUrl.

Variable world_ : world.
Variable float_of_str : string -> option pyfloat.
Variable astype_str : list pyval -> list string.
Variable self : etl_process.

Lemma process_url_configured
    (dp ap : string) (fhh : option bool) (links cols tables : string) (w : wstate) :
  url_source (parsed self) dp ap fhh links cols tables ->
  process_url world_ float_of_str astype_str self w
  = wtry_except
      (wfor_each (zip3 (splitlines links) (splitlines cols) (splitlines tables))
         (process_one_url world_ float_of_str astype_str self dp ap fhh))
      (fun e => wlogging_error ("Error processing URL: " ++ exn_msg e)) w.
Proof.
  intros (H1 & H2 & H3 & H4 & H5 & H6). unfold process_url.
  unfold wtry_except, wbind, wlift_result.
  rewrite H1, H2, H3, H4, H5, H6. reflexivity.
Qed.

Lemma empty_folder_of_zip_csv_extends (J : bool -> Prop) (folder_path : string) :
  wemits J (fun ev => match ev with Acted (RequestsGet _) _ => False | _ => True end)
    (empty_folder_of_zip_csv world_ folder_path).
Proof.
  unfold empty_folder_of_zip_csv, remove_matches, remove_match, delete_entry. cbv zeta.
  repeat wemits_step.
Qed.

Lemma download_from_url_requests (J : bool -> Prop)
    (entries : list (string * string * string)) (url c t targetFile : string) :
  PyStr.truthy (PyStr.strip_ws url) = true -> In (url, c, t) entries ->
  wemits J (requests_from entries) (download_from_url world_ url targetFile).
Proof.
  intros Hu Hin. unfold download_from_url.
  apply wemits_try_except_cls; [|intros e; wemits_step].
  apply wemits_bind; [|intros ?; repeat wemits_step].
  apply wemits_act. intros r. split; [exact Hu | now exists c, t].
Qed.

Lemma empty_folder_of_zip_csv_requests (J : bool -> Prop)
    (entries : list (string * string * string)) (folder_path : string) :
  wemits J (requests_from entries) (empty_folder_of_zip_csv world_ folder_path).
Proof.
  unfold empty_folder_of_zip_csv, remove_matches, remove_match, delete_entry. cbv zeta.
  repeat wemits_step.
Qed.

(** X15: [process_url] only requests URLs that stand on a line of
    [url_links] which is not blank and has a line of column names and a
    line of table names at the same position: [zip] stops at the shortest
    of the three settings, so the URLs beyond it are silently left out. *)
Theorem process_url_requests_aligned_urls
    (dp ap : string) (fhh : option bool) (links cols tables : string) :
  url_source (parsed self) dp ap fhh links cols tables ->
  wemits any_flag
    (requests_from (zip3 (splitlines links) (splitlines cols) (splitlines tables)))
    (process_url world_ float_of_str astype_str self).
Proof.
  intros Hcfg w Hj. rewrite (process_url_configured _ _ _ _ _ _ w Hcfg).
  revert w Hj.
  change (wemits any_flag
            (requests_from (zip3 (splitlines links) (splitlines cols) (splitlines tables)))
            (wtry_except
               (wfor_each (zip3 (splitlines links) (splitlines cols) (splitlines tables))
                  (process_one_url world_ float_of_str astype_str self dp ap fhh))
               (fun e => wlogging_error ("Error processing URL: " ++ exn_msg e)))).
  apply wemits_try_except; [|intros e; wemits_step].
  apply wemits_for_each_in. intros [[url c] t] Hin.
  unfold process_one_url.
  destruct (PyStr.truthy (PyStr.strip_ws url)) eqn:Hu; cbn [negb]; [|apply wemits_ret].
  apply wemits_try_except_cls; [|intros e; wemits_step].
  apply wemits_bind; [apply empty_folder_of_zip_csv_requests|intros _].
  apply wemits_bind; [now apply (download_from_url_requests _ _ url c t)|intros _].
  apply wemits_bind.
  { destruct (negb (is_true fhh)); [|apply wemits_ret].
    apply (wemits_loader _ _ _ any_event); [intros; exact I|].
    intros env. apply (emits_weaken _ no_bulk_insert); [intros; exact I|].
    apply create_table_and_view_no_bulk_insert. }
  intros _. apply wemits_bind; [wemits_step|intros _].
  apply (wemits_loader _ _ _ any_event); [intros; exact I|].
  intros env. apply (emits_weaken _ no_bulk_insert); [intros; exact I|].
  apply process_file_no_bulk_insert.
Qed.

(** X16: once the reset flag is down, the loop of [process_url] sends no
    statement that drops or creates a table or a view, for any URL: the
    table named for a URL is only created while the flag is still up, which
    the first file processed ends. *)
Theorem process_url_creates_nothing_once_flag_down
    (dp ap : string) (fhh : option bool) (entries : list (string * string * string)) :
  wemits flag_down (of_loader no_schema_change)
    (wfor_each entries (process_one_url world_ float_of_str astype_str self dp ap fhh)).
Proof.
  apply wemits_for_each. intros [[url c] t]. unfold process_one_url.
  destruct (negb _); [apply wemits_ret|].
  unfold empty_folder_of_zip_csv, remove_matches, remove_match, delete_entry,
    download_from_url. cbv zeta.
  repeat first
    [ apply (wemits_loader _ _ _ no_schema_change);
      [intros ev Hev; exact Hev
      | intros env;
        first [ apply create_table_and_view_keeps_schema
              | apply process_file_keeps_schema ] ]
    | wemits_step ].
Qed.

Lemma download_from_url_passes_on (url targetFile : string) (w : wstate) (e : exn) :
  fst (download_from_url world_ url targetFile w) = Raise e ->
  is_missing_schema (exn_cls e) = false.
Proof.
  unfold download_from_url. wexec. repeat wask.
  all: try (destruct (is_missing_schema (exn_cls e0)) eqn:Hm; wexec).
  all: intros H; try discriminate H; injection H as <-; exact Hm.
Qed.

(** X17: a download that fails with anything but [MissingSchema] (a bad
    HTTP status, a refused connection, a file that cannot be written) ends
    the whole run of [process_url], not just the URL at hand: the exception
    leaves the loop, the outer handler logs it, and the URLs after it are
    never looked at. *)
Theorem process_url_stops_at_failed_download
    (dp ap : string) (fhh : option bool) (links cols tables : string)
    (pre rest : list (string * string * string)) (url c t : string)
    (w : wstate) (e : exn) :
  url_source (parsed self) dp ap fhh links cols tables ->
  zip3 (splitlines links) (splitlines cols) (splitlines tables)
    = (pre ++ (url, c, t) :: rest)%list ->
  let body := process_one_url world_ float_of_str astype_str self dp ap fhh in
  let w0 := snd (wfor_each pre body w) in
  let w1 := snd (empty_folder_of_zip_csv world_ dp w0) in
  let target := OsPath.join dp (last_component url) in
  fst (wfor_each pre body w) = Ok tt ->
  PyStr.truthy (PyStr.strip_ws url) = true ->
  fst (empty_folder_of_zip_csv world_ dp w0) = Ok tt ->
  fst (download_from_url world_ url target w1) = Raise e ->
  process_url world_ float_of_str astype_str self w
  = (Ok tt,
     wrecord (Core (LoggedError ("Error processing URL: " ++ exn_msg e)))
             (snd (download_from_url world_ url target w1))).
Proof.
  intros Hcfg Hzip. cbv zeta. intros Hpre Hu Hclean Hdl.
  rewrite (process_url_configured _ _ _ _ _ _ w Hcfg), Hzip.
  pose proof (download_from_url_passes_on _ _ _ _ Hdl) as Hcls.
  unfold wtry_except. rewrite wfor_each_app. unfold wbind at 1.
  destruct (wfor_each pre _ w) as [r0 w0]. cbn [fst snd] in *. subst r0.
  cbn [wfor_each]. unfold wbind at 1. unfold process_one_url at 1.
  rewrite Hu. cbn [negb]. unfold wtry_except_cls. unfold wbind at 1.
  destruct (empty_folder_of_zip_csv world_ dp w0) as [r1 w1]. cbn [fst snd] in *. subst r1.
  unfold wbind at 1.
  destruct (download_from_url world_ url _ w1) as [r2 w2]. cbn [fst snd] in *. subst r2.
  rewrite Hcls. reflexivity.
Qed.

End ProcessUrl.

Lemma process_url_requests_aligned_urls_witness :
  let out := process_url still digits_float sample_astype_str demo_etl (mkW [] true) in
  exists seg,
    whistory (snd out) = ([] ++ seg)%list
    /\ Forall (requests_from [("http://h/a_x.csv", "id,amount", "A");
                              ("h/b_x.csv", "id,amount", "B")]) seg.
Proof.
  cbv zeta.
  destruct (process_url_requests_aligned_urls still digits_float sample_astype_str demo_etl
              "/stage" "/archive" (Some true)
              ("http://h/a_x.csv" ++ PyStr.nl ++ "h/b_x.csv" ++ PyStr.nl ++ "http://h/c_x.csv")
              ("id,amount" ++ PyStr.nl ++ "id,amount")
              ("A" ++ PyStr.nl ++ "B" ++ PyStr.nl ++ "C")) with (w := mkW [] true)
    as (_ & H); [repeat split | exact I | exact H].
Defined.

Lemma process_url_stops_at_failed_download_witness :
  let gone := mkExn HTTPError "404 Client Error" in
  wrun (process_url (refusing still is_status_check gone) digits_float sample_astype_str
          demo_etl)
  = (Ok tt,
     [Globbed "/stage/*.zip" []; Globbed "/stage/*.csv" [];
      ListedDir "/stage" (Ok ["old.csv"; "tmp"]);
      Asked (IsFile "/stage/old.csv") true; Acted (OsUnlink "/stage/old.csv") None;
      Asked (IsFile "/stage/tmp") false; Asked (IsLink "/stage/tmp") false;
      Asked (IsDir "/stage/tmp") true; Acted (ShutilRmtree "/stage/tmp") None;
      Acted (RequestsGet "http://h/a_x.csv") None;
      Acted (RaiseForStatus "http://h/a_x.csv") (Some gone);
      Core (LoggedError "Error processing URL: 404 Client Error")]).
Proof.
  cbv zeta. unfold wrun.
  rewrite (process_url_stops_at_failed_download
             (refusing still is_status_check (mkExn HTTPError "404 Client Error"))
             digits_float sample_astype_str demo_etl
             "/stage" "/archive" (Some true)
             ("http://h/a_x.csv" ++ PyStr.nl ++ "h/b_x.csv" ++ PyStr.nl ++ "http://h/c_x.csv")
             ("id,amount" ++ PyStr.nl ++ "id,amount")
             ("A" ++ PyStr.nl ++ "B" ++ PyStr.nl ++ "C")
             [] [("h/b_x.csv", "id,amount", "B")] "http://h/a_x.csv" "id,amount" "A"
             (mkW [] false) (mkExn HTTPError "404 Client Error"));
    first [reflexivity | repeat split].
Defined.


(** ** Notifications *)

Section SendEmail.

Variable world_ : world.

(** X18: [send_email] logs in only when both a user and a password are
    set. It has no handler: it returns only when every step returned, the
    message, the [quit] and the success line being the last three events;
    otherwise the step that raised is the last event (after a failed
    [sendmail] the connection is not closed) and the exception reaches the
    caller. *)
Theorem send_email_outcomes (self : email_utility) (subject body : string) (w : wstate) :
  let out := send_email world_ self subject body w in
  exists seg,
    whistory (snd out) = (whistory w ++ seg)%list
    /\ (existsb is_login seg = true ->
        is_set (user self) && PyStr.truthy (smtp_password self) = true)
    /\ match fst out with
       | Ok _ =>
           exists pre,
             seg = (pre ++ [Acted (SmtpSendmail (sender self) (recipient self) subject body)
                                  None;
                            Acted SmtpQuit None;
                            Core (LoggedInfo "Email sent successfully")])%list
       | Raise e => exists pre a, seg = (pre ++ [Acted a (Some e)])%list
       end.
Proof.
  cbv zeta. unfold send_email. wexec.
  destruct (is_set (user self) && PyStr.truthy (smtp_password self)); wexec.
  all: repeat wask.
  all: eexists; (split; [repeat rewrite <- app_assoc; cbn [app]; reflexivity|]).
  all: split; [intros H; first [reflexivity | discriminate H]|].
  all: match goal with
       | |- exists pre, ?l = _ =>
           exists (removelast (removelast (removelast l))); reflexivity
       | |- exists pre a, ?l = _ =>
           exists (removelast l); cbn [removelast]; eexists; reflexivity
       end.
Qed.

End SendEmail.

(** ** The constructor and the launchers *)

Section Launchers.

Variable world_ : world.
Variable float_of_str : string -> option pyfloat.
Variable astype_str : list pyval -> list string.

Ltac through_lookups H :=
  repeat match type of H with
         | context [match ?x with Ok _ => _ | Raise _ => _ end] =>
             let E := fresh "E" in destruct x eqn:E; cbn [fst snd] in H; try discriminate H
         end.

(** X19: what [ETLProcess.__init__] leaves in the object. The row
    terminator is the configured text as it stands: the quoted form that
    line 188 computes for a configured backslash-n is overwritten at line
    193, so it never reaches the bcp command. The field delimiter is a tab
    when the configured text is backslash-t and the configured text
    otherwise, and the reset flag starts as the configured boolean. *)
Theorem ETLProcess_attributes (config_file : string) (w : wstate) (etl : etl_process) :
  fst (ETLProcess world_ config_file w) = Ok etl ->
  config_item (parsed etl) "ETL" "bcp_end_of_row" = Ok (bcp_end_of_row (attributes etl))
  /\ (exists raw,
        config_item (parsed etl) "ETL" "field_delimiter" = Ok raw
        /\ field_delimiter (attributes etl)
           = if String.eqb raw "\t" then PyStr.tab else raw)
  /\ wflag (snd (ETLProcess world_ config_file w)) = reset_flag (attributes etl).
Proof.
  unfold ETLProcess, EmailUtility. wexec.
  intros H. through_lookups H.
  injection H as <-. cbn [parsed attributes bcp_end_of_row field_delimiter reset_flag].
  split; [assumption|]. split; [|reflexivity].
  eexists. split; [eassumption | reflexivity].
Qed.

Lemma process_url_never_raises (self : etl_process) :
  wnever_raises (process_url world_ float_of_str astype_str self).
Proof.
  unfold process_url. apply wnever_raises_try_except. intros e. apply wnever_raises_emit.
Qed.

(** X20: in [etlurl.py] nothing that happens to the URLs can make the run
    count as failed. [process_url] never raises, so once the object is
    built [main] goes on to the notification of success from wherever
    [process_url] stopped, and the notification of failure is only sent
    when that of success raised. *)
Theorem main_url_reports_success (config_file : string) (w : wstate) (etl : etl_process) :
  fst (ETLProcess world_ config_file w) = Ok etl ->
  let w1 := snd (ETLProcess world_ config_file w) in
  let w2 := snd (process_url world_ float_of_str astype_str etl w1) in
  main_url world_ float_of_str astype_str config_file w
  = wtry_except (notify_success world_ etl) (notify_failure world_ etl) w2.
Proof.
  intros H. cbv zeta. unfold main_url. unfold wbind at 1.
  destruct (ETLProcess world_ config_file w) as [r w1]. cbn [fst snd] in *. subst r.
  unfold wtry_except, wbind.
  destruct (process_url_never_raises etl w1) as [[] Hret].
  destruct (process_url world_ float_of_str astype_str etl w1) as [r w2].
  cbn [fst snd] in *. subst r. reflexivity.
Qed.

(** X22: in [etlLocal.py] a load that fails does not make the run count
    as failed. With the settings there and the sweep of the staging folder
    returning, [main] goes on to the notification of success from wherever
    [process_file] stopped: [process_file] never raises. *)
Theorem main_local_reports_success
    (config_file : string) (w : wstate) (etl : etl_process)
    (dp ap tn fp : string) :
  fst (ETLProcess world_ config_file w) = Ok etl ->
  local_settings (parsed etl) dp ap tn fp ->
  let w1 := snd (ETLProcess world_ config_file w) in
  fst (empty_folder_of_zip_csv world_ dp w1) = Ok tt ->
  let w2 := wrecord (Core (Printed (fp ++ " " ++ tn)))
                    (snd (empty_folder_of_zip_csv world_ dp w1)) in
  let w3 := snd (loader world_
                   (fun env => process_file env (attributes etl) float_of_str astype_str
                                 fp ap tn) w2) in
  main_local world_ float_of_str astype_str config_file w
  = wtry_except (notify_success world_ etl) (notify_failure world_ etl) w3.
Proof.
  intros H (H1 & (fn & H2) & H3 & H4 & H5). cbv zeta. intros Hc.
  unfold main_local. unfold wbind at 1.
  destruct (ETLProcess world_ config_file w) as [r w1]. cbn [fst snd] in *. subst r.
  unfold wtry_except, wbind, wlift_result, wprint, wemit.
  rewrite H1, H2, H3, H4, H5.
  destruct (empty_folder_of_zip_csv world_ dp w1) as [r w2]. cbn [fst snd] in *. subst r.
  match goal with
  | |- context [loader ?wd ?m ?st] =>
      destruct (wnever_raises_loader wd m
                  (fun env => process_file_never_raises env _ _ _ _ _ _) st) as [[] Hret];
      destruct (loader wd m st) as [r w3]
  end.
  cbn [fst snd] in *. subst r. reflexivity.
Qed.

(** X23: in [etlSFTP.py] a connection that is refused is reported under
    the wrong error. [download_from_sftp] ends with the
    [UnboundLocalError] of its [finally] block, so the notification of
    failure that [main] sends names the variable [sftp] and not the error
    of the connection, which is only printed. *)
Theorem main_sftp_reports_unbound_variable
    (config_file : string) (w : wstate) (etl : etl_process)
    (pw dp fn ap tn host port username remote_path : string) (e : exn) :
  fst (ETLProcess world_ config_file w) = Ok etl ->
  let w1 := snd (ETLProcess world_ config_file w) in
  on_parameter world_ (whistory w1) "sftp_password" = Ok pw ->
  sftp_settings (parsed etl) dp fn ap tn host port username remote_path ->
  let w2 := wrecord (GotParameter "sftp_password" (Ok pw)) w1 in
  fst (empty_folder_of_zip_csv world_ dp w2) = Ok tt ->
  let w3 := snd (empty_folder_of_zip_csv world_ dp w2) in
  let connect := SshConnect host port username pw in
  on_cmd (loader_env world_ (whistory w3)) (loader_events (whistory w3)) connect = Some e ->
  main_sftp world_ float_of_str astype_str config_file w
  = notify_failure world_ etl (unbound v_sftp)
      (mkW (whistory w3 ++ [Core (Did connect (Some e));
                            Core (Printed ("Failed to download files: " ++ exn_msg e))])%list
           (wflag w3)).
Proof.
  intros H. cbv zeta. intros Hpw (H1 & H2 & H3 & H4 & H5 & H6 & H7 & H8) Hc He.
  unfold main_sftp. unfold wbind at 1.
  destruct (ETLProcess world_ config_file w) as [r w1]. cbn [fst snd] in *. subst r.
  unfold wbind at 1. unfold ssm_get_parameter. rewrite Hpw.
  unfold wtry_except, wbind, wlift_result.
  rewrite H1, H2, H3, H4, H5, H6, H7, H8.
  destruct (empty_folder_of_zip_csv world_ dp _) as [r w3]. cbn [fst snd] in *. subst r.
  unfold loader at 1. unfold download_from_sftp. exec. rewrite He. exec.
  rewrite <- app_assoc. rewrite skipn_all_app. reflexivity.
Qed.

(** X24: in [etlS3.py], when deleting and listing in the staging folder
    work and the fetch from the bucket returns, nothing that happens to the
    files can make the run count as failed: the loop over the listed files
    returns, whatever the loads did, and [main] goes on to the notification
    of success. *)
Theorem main_s3_reports_success
    (config_file : string) (w : wstate) (etl : etl_process)
    (dp ap tn s3_bucket s3_folder : string) :
  (forall h p e, on_action world_ h (OsRemoveMatch p) = Some e -> exn_cls e = OSError) ->
  (forall h p, exists names, on_listdir world_ h p = Ok names) ->
  fst (ETLProcess world_ config_file w) = Ok etl ->
  s3_settings (parsed etl) dp ap tn s3_bucket s3_folder ->
  let w1 := snd (ETLProcess world_ config_file w) in
  let w2 := snd (empty_folder_of_zip_csv world_ dp w1) in
  let fetch := loader world_ (fun env =>
                 download_from_s3 env (attributes etl) s3_bucket s3_folder dp) in
  fst (fetch w2) = Ok tt ->
  let batch := wbind (os_listdir world_ dp) (fun files =>
                 wfor_each files
                   (process_listed world_ float_of_str astype_str etl dp ap tn)) in
  main_s3 world_ float_of_str astype_str config_file w
  = wtry_except (notify_success world_ etl) (notify_failure world_ etl)
      (snd (batch (snd (fetch w2)))).
Proof.
  intros Hrm Hls H (H1 & (fn & H2) & H3 & H4 & H5 & H6). cbv zeta. intros Hf.
  unfold main_s3, wtry_except, wbind, wlift_result.
  destruct (ETLProcess world_ config_file w) as [r w1]. cbn [fst snd] in *. subst r.
  rewrite H1.
  destruct (empty_folder_of_zip_csv_returns world_ Hrm Hls dp w1) as [[] Hret].
  destruct (empty_folder_of_zip_csv world_ dp w1) as [r w2]. cbn [fst snd] in *. subst r.
  rewrite H2, H3, H4, H5, H6.
  match goal with
  | H : fst (?f ?st) = Ok tt |- _ => destruct (f st) as [r w3]
  end.
  cbn [fst snd] in *. subst r.
  unfold os_listdir. cbn [fst snd].
  destruct (Hls (whistory w3) dp) as [files ->].
  assert (Hb : wnever_raises
                 (wfor_each files
                    (process_listed world_ float_of_str astype_str etl dp ap tn))).
  { apply wnever_raises_for_each. intros f. unfold process_listed.
    apply wnever_raises_bind.
    - apply wnever_raises_loader. intros env. apply process_file_never_raises.
    - intros _. now apply empty_folder_of_zip_csv_returns. }
  match goal with
  | |- context [wfor_each files ?b ?st] =>
      destruct (Hb st) as [[] Hret3]; destruct (wfor_each files b st) as [r w5]
  end.
  cbn [fst snd] in *. subst r. reflexivity.
Qed.

End Launchers.

(** ** Sample runs of the scripts *)

Lemma empty_folder_of_zip_csv_sweeps_witness :
  let out := empty_folder_of_zip_csv still "/stage" (mkW [] false) in
  exists seg,
    whistory (snd out) = ([] ++ seg)%list
    /\ ((exists names,
           In (ListedDir "/stage" (Ok names)) seg
           /\ fst out = Ok tt
           /\ forall name, In name names ->
                let p := OsPath.join "/stage" name in
                exists b, In (Asked (IsFile p) b) seg
                          /\ (b = true -> exists r, In (Acted (OsUnlink p) r) seg))
        \/ (exists e, In (ListedDir "/stage" (Raise e)) seg /\ fst out = Raise e)).
Proof.
  apply (empty_folder_of_zip_csv_sweeps still).
  intros h p e H. discriminate H.
Defined.

Lemma ETLProcess_attributes_witness :
  exists etl,
    fst (ETLProcess still "config.ini" (mkW [] false)) = Ok etl
    /\ config_item (parsed etl) "ETL" "bcp_end_of_row" = Ok (bcp_end_of_row (attributes etl))
    /\ bcp_end_of_row (attributes etl) = "\n".
Proof.
  eexists. split; [vm_compute; reflexivity|].
  split; [|reflexivity].
  apply (ETLProcess_attributes still "config.ini" (mkW [] false)).
  vm_compute. reflexivity.
Defined.

Lemma main_url_reports_success_witness :
  existsb (fun ev => match ev with
                     | Acted (SmtpSendmail _ _ subject _) None =>
                         String.eqb subject "ETL Process Successful"
                     | _ => false
                     end)
    (snd (wrun (main_url (refusing still is_status_check (mkExn HTTPError "404 Client Error"))
                  digits_float sample_astype_str "config.ini"))) = true.
Proof.
  unfold wrun.
  erewrite (main_url_reports_success
              (refusing still is_status_check (mkExn HTTPError "404 Client Error"))
              digits_float sample_astype_str "config.ini" (mkW [] false));
    [|vm_compute; reflexivity].
  vm_compute. reflexivity.
Defined.

Lemma main_local_reports_success_witness :
  let env := failing calm is_pyodbc_connect (mkExn PyodbcError "login timeout") in
  existsb (fun ev => match ev with
                     | Acted (SmtpSendmail _ _ subject _) None =>
                         String.eqb subject "ETL Process Successful"
                     | _ => false
                     end)
    (snd (wrun (main_local (meeting still env) digits_float sample_astype_str
                  "config.ini"))) = true.
Proof.
  cbv zeta. unfold wrun.
  erewrite (main_local_reports_success
              (meeting still (failing calm is_pyodbc_connect
                                (mkExn PyodbcError "login timeout")))
              digits_float sample_astype_str "config.ini" (mkW [] false) _
              "/stage" "/archive" "Sales" "/data/in");
    [| vm_compute; reflexivity
     | repeat split; try reflexivity; eexists; reflexivity
     | vm_compute; reflexivity].
  vm_compute. reflexivity.
Defined.

Lemma main_sftp_reports_unbound_variable_witness :
  let env := failing calm is_ssh_connect (mkExn SSHException "refused") in
  existsb (fun ev => match ev with
                     | Acted (SmtpSendmail _ _ subject body) None =>
                         String.eqb subject "ETL Process Failed"
                         && String.eqb body
                              ("ETL process failed with error: "
                               ++ exn_msg (unbound v_sftp))
                     | _ => false
                     end)
    (snd (wrun (main_sftp (meeting still env) digits_float sample_astype_str
                  "config.ini"))) = true.
Proof.
  cbv zeta. unfold wrun.
  erewrite (main_sftp_reports_unbound_variable
              (meeting still (failing calm is_ssh_connect (mkExn SSHException "refused")))
              digits_float sample_astype_str "config.ini" (mkW [] false) _
              "secret" "/stage" "a_x.csv" "/archive" "Sales" "host" "22" "user" "/out"
              (mkExn SSHException "refused"));
    [| vm_compute; reflexivity
     | reflexivity
     | repeat split
     | vm_compute; reflexivity
     | vm_compute; reflexivity].
  vm_compute. reflexivity.
Defined.

Lemma main_s3_reports_success_witness :
  let env := failing calm is_pyodbc_connect (mkExn PyodbcError "login timeout") in
  existsb (fun ev => match ev with
                     | Acted (SmtpSendmail _ _ subject _) None =>
                         String.eqb subject "ETL Process Successful"
                     | _ => false
                     end)
    (snd (wrun (main_s3 (meeting still env) digits_float sample_astype_str
                  "config.ini"))) = true.
Proof.
  cbv zeta. unfold wrun.
  erewrite (main_s3_reports_success
              (meeting still (failing calm is_pyodbc_connect
                                (mkExn PyodbcError "login timeout")))
              digits_float sample_astype_str "config.ini" (mkW [] false) _
              "/stage" "/archive" "Sales" "bucket" "in/");
    [| intros h p e H; discriminate H
     | intros h p; eexists; reflexivity
     | vm_compute; reflexivity
     | repeat split; try reflexivity; eexists; reflexivity
     | vm_compute; reflexivity].
  vm_compute. reflexivity.
Defined.

(** * The parameter file *)

Section ParameterLines.
Import PyStr PyStrFacts.

Lemma string_drop_app (a b : string) : string_drop (String.length a) (a ++ b) = b.
Proof. induction a as [|c a IH]; [now destruct b | exact IH]. Qed.

(** [sep in s] is false exactly when [rsplit] finds nothing to split at. *)
Lemma rsplit_once_none (sep s : string) :
  contains sep s = false -> rsplit_once sep s = None.
Proof.
  induction s as [|c r IH]; intros H; [reflexivity|].
  cbn [contains] in H. apply orb_false_iff in H. destruct H as [Hp Hr].
  cbn [rsplit_once]. rewrite (IH Hr), Hp. reflexivity.
Qed.

(** The split is at the last occurrence: the one after which the
    separator does not start again. *)
Lemma rsplit_once_last (sep a t : string) :
  sep <> "" ->
  contains sep (slice_1 (sep ++ t)) = false ->
  rsplit_once sep (a ++ sep ++ t) = Some (a, t).
Proof.
  intros Hne Hlast. induction a as [|c a IH].
  - cbn [append]. destruct sep as [|d sep']; [now elim Hne|].
    cbn [append slice_1] in *. cbn [rsplit_once].
    rewrite (rsplit_once_none _ _ Hlast).
    change (String d (sep' ++ t)) with (String d sep' ++ t).
    rewrite prefix_append. now rewrite string_drop_app.
  - cbn [append rsplit_once]. now rewrite IH.
Qed.

Lemma split_once_first (c : ascii) (a b : string) :
  ~ In c (list_ascii_of_string a) ->
  split_once c (a ++ String c b) = Some (a, b).
Proof.
  induction a as [|x a IH]; intros H.
  - cbn. now rewrite Ascii.eqb_refl.
  - cbn [append split_once]. cbn [list_ascii_of_string In] in H.
    destruct (Ascii.eqb x c) eqn:E.
    + apply Ascii.eqb_eq in E. tauto.
    + rewrite IH by tauto. reflexivity.
Qed.

Lemma rstrip_snoc_keep (p : ascii -> bool) (a : string) (c : ascii) :
  p c = false -> rstrip p (a ++ String c "") = a ++ String c "".
Proof.
  intros Hc. induction a as [|x a IH].
  - cbn. now rewrite Hc.
  - cbn [append rstrip]. rewrite IH. destruct a; reflexivity.
Qed.

Lemma rstrip_snoc_drop (p : ascii -> bool) (a : string) (c : ascii) :
  p c = true -> rstrip p (a ++ String c "") = rstrip p a.
Proof.
  intros Hc. induction a as [|x a IH].
  - cbn. now rewrite Hc.
  - cbn [append rstrip]. now rewrite IH.
Qed.

Lemma rstrip_unchanged (p : ascii -> bool) (s : string) :
  (forall a c, s = a ++ String c "" -> p c = false) -> rstrip p s = s.
Proof.
  induction s as [|x s IH]; intros H; [reflexivity|].
  cbn [rstrip]. destruct s as [|y s'].
  - cbn. now rewrite (H "" x eq_refl).
  - rewrite IH; [reflexivity|].
    intros a c E. apply (H (String x a) c). cbn [append]. now rewrite <- E.
Qed.

(** X25: the file that [fetch_and_save_parameters] writes is not read back
    as it was written. A line written for a parameter is read by
    [process_parameters_from_file] as the name with a blank after it and the
    value with a blank before it (only an EDIT strips the value), so the
    store is asked about a different name. The name is any text that starts
    with a visible character other than the comment sign and has no equals
    sign; the type is any text that does not end with a closing parenthesis
    and after which the type marker does not start again. *)
Theorem parameter_line_round_trip (name value type_name : string) (c : ascii) (r : string) :
  name = String c r -> is_space c = false -> c <> "#"%char ->
  ~ In "="%char (list_ascii_of_string name) ->
  endswith type_name ")" = false ->
  contains " (Type: " ("(Type: " ++ type_name ++ ")") = false ->
  let line := strip_ws (format_line name value type_name) in
  startswith line "#" = false
  /\ truthy line = true
  /\ parse_line line = Ok (name ++ " ", " " ++ value, type_name).
Proof.
  intros Hname Hc Hhash Heq Hty Hlast. cbv zeta.
  assert (Hline : strip_ws (format_line name value type_name)
                  = name ++ " = " ++ value ++ " (Type: " ++ type_name ++ ")").
  { unfold strip_ws, strip, format_line, nl.
    replace (name ++ " = " ++ value ++ " (Type: " ++ type_name ++ ")" ++ String "010" "")
      with ((name ++ " = " ++ value ++ " (Type: " ++ type_name ++ ")") ++ String "010" "")
      by (now rewrite !append_assoc).
    rewrite rstrip_snoc_drop by reflexivity.
    replace (name ++ " = " ++ value ++ " (Type: " ++ type_name ++ ")")
      with ((name ++ " = " ++ value ++ " (Type: " ++ type_name) ++ String ")" "")
      by (now rewrite !append_assoc).
    rewrite rstrip_snoc_keep by reflexivity.
    subst name. cbn [append lstrip]. now rewrite Hc. }
  rewrite Hline. repeat split.
  - subst name. cbn [append]. unfold startswith. cbn [String.prefix].
    destruct (ascii_dec "#" c) as [E|_]; [now elim Hhash|reflexivity].
  - subst name. reflexivity.
  - unfold parse_line.
    replace (name ++ " = " ++ value ++ " (Type: " ++ type_name ++ ")")
      with ((name ++ " = " ++ value) ++ " (Type: " ++ (type_name ++ ")"))
      by (now rewrite !append_assoc).
    rewrite rsplit_once_last; [|discriminate|exact Hlast].
    replace (name ++ " = " ++ value) with ((name ++ " ") ++ String "=" (" " ++ value))
      by (now rewrite !append_assoc).
    rewrite split_once_first.
    + rewrite rstrip_snoc_drop by reflexivity.
      rewrite rstrip_unchanged; [reflexivity|].
      intros a x E. destruct (Ascii.eqb ")" x) eqn:Ex; [|reflexivity].
      apply Ascii.eqb_eq in Ex. subst x.
      assert (T : endswith type_name ")" = true) by (apply endswith_iff; now exists a).
      congruence.
    + intros Hin. apply Heq.
      clear - Hin. induction name as [|x n IH]; cbn in *.
      * destruct Hin as [E|[]]. discriminate E.
      * destruct Hin as [E|Hin]; [now left | right; now apply IH].
Qed.

End ParameterLines.

Lemma parameter_line_round_trip_witness :
  parse_line (PyStr.strip_ws (format_line "sql_password" "s3cret" "SecureString"))
  = Ok ("sql_password ", " s3cret", "SecureString").
Proof.
  apply (parameter_line_round_trip "sql_password" "s3cret" "SecureString"
           "s"%char "ql_password");
    try reflexivity; try discriminate.
  cbn. intros H. repeat (destruct H as [H|H]; [discriminate H|]). exact H.
Defined.

Ltac pexec :=
  unfold pbind, pret, plift, say, ptry_except, get_parameter, get_parameter_type, send,
    open_lines;
  cbn [fst snd].

Section ParameterFile.

Variable ssm : store.

Lemma pfor_each_app {A} (l1 l2 : list A) (body : A -> StoreM unit) (h : ptrace) :
  pfor_each (l1 ++ l2) body h = pbind (pfor_each l1 body) (fun _ => pfor_each l2 body) h.
Proof.
  revert h. induction l1 as [|x l1 IH]; intros h.
  - reflexivity.
  - cbn [pfor_each app]. unfold pbind. destruct (body x h) as [[[]|e] h1].
    + rewrite IH. reflexivity.
    + reflexivity.
Qed.

(** X26: a line that cannot be taken apart ends the whole run. The
    [ValueError] of the unpacking is raised outside every [try] block, so
    [process_parameters_from_file] raises it where the line stands, after
    the lines before it have been applied, and the lines after it are never
    read. *)
Theorem unreadable_line_stops_processing
    (folder_path file_name : string) (pre rest : list string) (bad : string)
    (h : ptrace) (e : exn) :
  let path := OsPath.join folder_path file_name in
  on_open ssm h path = Ok (pre ++ bad :: rest)%list ->
  let h0 := (h ++ [Opened path (Ok (pre ++ bad :: rest)%list)])%list in
  fst (pfor_each pre (process_line ssm) h0) = Ok tt ->
  PyStr.startswith (PyStr.strip_ws bad) "#" = false ->
  PyStr.truthy (PyStr.strip_ws bad) = true ->
  parse_line (PyStr.strip_ws bad) = Raise e ->
  process_parameters_from_file ssm folder_path file_name h
  = (Raise e, snd (pfor_each pre (process_line ssm) h0)).
Proof.
  cbv zeta. intros Ho Hpre Hc Ht Hp.
  unfold process_parameters_from_file. cbv zeta. unfold pbind at 1, open_lines.
  rewrite Ho. rewrite pfor_each_app. unfold pbind at 1.
  destruct (pfor_each pre _ _) as [r h1]. cbn [fst snd] in *. subst r.
  cbn [pfor_each]. unfold pbind at 1. unfold process_line at 1.
  rewrite Hc, Ht. unfold pbind, plift. rewrite Hp. reflexivity.
Qed.

(** X27: [parameter_exists] takes every failure of the lookup for an
    absent parameter, and an EDIT has no branch for an absent parameter: on
    an EDIT line for a name whose lookup raises, no request is sent, and
    when the exception is [ParameterNotFound] nothing is said either. *)
Theorem edit_of_absent_parameter_is_silent
    (line name value : string) (h : ptrace) (e : exn) :
  PyStr.startswith (PyStr.strip_ws line) "#" = false ->
  PyStr.truthy (PyStr.strip_ws line) = true ->
  parse_line (PyStr.strip_ws line) = Ok (name, value, "EDIT") ->
  on_lookup ssm h name = Some e ->
  process_line ssm line h
  = (Ok tt,
     if not_found ssm e then (h ++ [Looked name (Some e)])%list
     else (h ++ [Looked name (Some e);
                 Said ("Error checking parameter existence for " ++ name ++ ": "
                       ++ exn_msg e)])%list).
Proof.
  intros Hc Ht Hp Hl. unfold process_line. rewrite Hc, Ht.
  unfold pbind at 1, plift. rewrite Hp.
  change (String.eqb "EDIT" "DELETE") with false. change (String.eqb "EDIT" "EDIT") with true.
  cbv iota. unfold parameter_exists. pexec. rewrite Hl. cbn [fst snd].
  destruct (not_found ssm e); pexec; [reflexivity|].
  now rewrite <- app_assoc.
Qed.

End ParameterFile.

Lemma unreadable_line_stops_processing_witness :
  process_parameters_from_file
    (granting ["# parameters"; "a = 1 (Type: String)"; "b: 2"; "c = 3 (Type: DELETE)"])
    "/store" "parameters.txt" []
  = (Raise unpack_error,
     [Opened "/store/parameters.txt"
        (Ok ["# parameters"; "a = 1 (Type: String)"; "b: 2"; "c = 3 (Type: DELETE)"]);
      Looked "a " None;
      Said "Parameter a  already exists. No action performed."]).
Proof.
  rewrite (unreadable_line_stops_processing
             (granting ["# parameters"; "a = 1 (Type: String)"; "b: 2";
                        "c = 3 (Type: DELETE)"])
             "/store" "parameters.txt"
             ["# parameters"; "a = 1 (Type: String)"] ["c = 3 (Type: DELETE)"] "b: 2"
             [] unpack_error); reflexivity.
Defined.

Lemma edit_of_absent_parameter_is_silent_witness :
  let gone := mkExn ClientError "ParameterNotFound" in
  let ssm := mkStore (fun _ _ => Some gone) (fun _ _ => Ok "String") (fun _ _ => None)
                     (fun _ _ => Ok []) (fun _ => true) in
  process_line ssm "a=1 (Type: EDIT)" [] = (Ok tt, [Looked "a" (Some gone)]).
Proof.
  cbv zeta.
  rewrite (edit_of_absent_parameter_is_silent
             (mkStore (fun _ _ => Some (mkExn ClientError "ParameterNotFound"))
                      (fun _ _ => Ok "String") (fun _ _ => None)
                      (fun _ _ => Ok []) (fun _ => true))
             "a=1 (Type: EDIT)" "a" "1" [] (mkExn ClientError "ParameterNotFound"));
    reflexivity.
Defined.
